(** * figma-icon-annotator: placement and realignment of icon callouts

    A shallow embedding of [src/code.js] (the compiled build) and of the
    TypeScript source it was built from, followed by the properties of the
    placement engine and of the two workflows.

    Numbers.  The plugin computes with JavaScript numbers.  Every quantity
    the host gives (coordinates, sizes) and every quantity computed from
    them alone (gaps, connector lengths, origins) is an exact rational [Q];
    [==] is equality of rationals and [=] is used where both sides are the
    same expression.  Rounding is not modelled: the statements follow the
    operations of the code, in its order.

    Missing properties.  The realign loop and the TypeScript source of the
    calculator read [figma.currentPage.width] and
    [figma.currentPage.height].  A page of the plugin API has neither: the
    reads give [undefined], and a subtraction with [undefined] as an
    operand gives [NaN].  The numbers on these paths are of type [Num], a
    rational or [NaN].

    Host.  Everything the plugin reads from or writes to the Figma document
    goes through explicit state ([Figma]) or through host functions that are
    parameters of a section.  Node identifiers are unique in a document, so
    a handle is modelled by the value of the node it denotes: a write
    through the handle of the main group is a write to that value, and it
    reaches the document when the node is attached again with
    [appendChild], which every path that writes to it ends with.

    [figma.getNodeByIdAsync] is read in the part of the state that matches
    the use the plugin makes of its result: the cached identifier of the
    main group is looked up in the scene ([page_children] and [elsewhere]),
    whose nodes the workflows change; the [iconId] of a wrapper is looked
    up in [nodeById], which gives the target as the geometry code reads it
    (absolute position, size and parent chain). *)

From Stdlib Require Import List String Ascii Bool Arith Lia DecimalString.
From Stdlib Require Import ZArith QArith Lqa.
Import ListNotations.

Local Open Scope string_scope.
Local Open Scope Q_scope.

(** ** Data model *)

(** The [type] tag of a node of the document. *)
Inductive NodeType : Type :=
| DOCUMENT | PAGE | FRAME | GROUP | INSTANCE | COMPONENT
| VECTOR | ELLIPSE | TEXT | RECTANGLE.

Definition NodeType_eqb (a b : NodeType) : bool :=
  match a, b with
  | DOCUMENT, DOCUMENT | PAGE, PAGE | FRAME, FRAME | GROUP, GROUP
  | INSTANCE, INSTANCE | COMPONENT, COMPONENT | VECTOR, VECTOR
  | ELLIPSE, ELLIPSE | TEXT, TEXT | RECTANGLE, RECTANGLE => true
  | _, _ => false
  end.

#[local] Unset Elimination Schemes.

(** A node as the geometry code reads it: [absoluteTransform[0][2]] and
    [absoluteTransform[1][2]] are the absolute position, and [parent] is the
    handle one step up ([None] for [null]). *)
Inductive Node : Type := mkNode {
  id : string;
  type : NodeType;
  name : string;
  absoluteX : Q;
  absoluteY : Q;
  width : Q;
  height : Q;
  parent : option Node
}.

#[local] Set Elimination Schemes.

(** [type Direction = 'left' | 'right' | 'top' | 'bottom'] *)
Inductive Direction : Type := Left | Right | Top | Bottom.

Definition Direction_eqb (a b : Direction) : bool :=
  match a, b with
  | Left, Left | Right, Right | Top, Top | Bottom, Bottom => true
  | _, _ => false
  end.

(** ** Numbers that may be missing *)

(** What the read of a numeric property gives: [undefined] when the object
    has no such property. *)
Inductive Value : Type := undefined | number (q : Q).

(** A number of a path that reads such a property. *)
Inductive Num : Type := Fin (q : Q) | NaN.

(** [ToNumber], as a subtraction applies it to its operands. *)
Definition ToNumber (v : Value) : Num :=
  match v with
  | number q => Fin q
  | undefined => NaN
  end.

(** [a - b] *)
Definition Num_sub (a b : Num) : Num :=
  match a, b with
  | Fin p, Fin q => Fin (p - q)
  | _, _ => NaN
  end.

(** The result of a comparator as the sort reads it: [NaN] counts as
    [+0]. *)
Definition comparatorResult (v : Num) : Q :=
  match v with
  | Fin q => q
  | NaN => 0
  end.

(** ** [Array.prototype.sort] with a comparator

    The sort is stable and its comparator puts [a] before [b] when the
    result is negative, after it when positive, and keeps their order on
    zero.  The comparators of the plugin are differences of numbers.
    Between numbers the outcome of a stable sort is determined; it is
    computed here by stable insertion.  With [NaN] among the values the
    order is the engine's own; the one array of the plugin that holds
    [NaN] is [left, NaN, top, NaN], on which insertion compares
    neighbours only, reads each comparison as zero and leaves the array as
    it is. *)
Fixpoint sort_insert {A : Type} (cmp : A -> A -> Q) (a : A) (l : list A) : list A :=
  match l with
  | [] => [a]
  | b :: l' => if Qle_bool (cmp a b) 0 then a :: l else b :: sort_insert cmp a l'
  end.

Definition sort {A : Type} (cmp : A -> A -> Q) (l : list A) : list A :=
  fold_right (sort_insert cmp) [] l.

(** [Math.max(a, b)] *)
Definition Math_max (a b : Q) : Q := if Qle_bool a b then b else a.

(** ** [getOutermostFrame] *)

Fixpoint getOutermostFrame_loop (current : Node) (outer : option Node) : option Node :=
  match current with
  | mkNode _ _ _ _ _ _ _ None => outer
  | mkNode _ _ _ _ _ _ _ (Some p) =>
      if NodeType_eqb (type p) PAGE then outer
      else getOutermostFrame_loop p
             (if NodeType_eqb (type p) FRAME then Some p else outer)
  end.

Definition getOutermostFrame (node : Node) : option Node :=
  getOutermostFrame_loop node None.

(** ** [calculateGapAndDirection] *)

(** An entry [{ dir, value }] of the [gaps] array. *)
Record GapEntry : Type := mkGap { dir : Direction; value : Q }.

(** The object [{ minDir, minGap, x, y, gapLeft, gapRight, gapTop, gapBottom }]. *)
Record GapResult : Type := mkGapResult {
  minDir : Direction;
  minGap : Q;
  res_x : Q;
  res_y : Q;
  gapLeft : Q;
  gapRight : Q;
  gapTop : Q;
  gapBottom : Q
}.

(** The compiled build ([code.js], lines 47-79): without a frame ancestor
    the bounds are the icon's own. *)
Definition calculateGapAndDirection (node : Node) : GapResult :=
  let x := absoluteX node in
  let y := absoluteY node in
  let outer := getOutermostFrame node in
  let '(leftBound, topBound, rightBound, bottomBound) :=
    match outer with
    | Some outer =>
        let leftBound := absoluteX outer in
        let topBound := absoluteY outer in
        (leftBound, topBound, leftBound + width outer, topBound + height outer)
    | None => (x, y, x + width node, y + height node)
    end in
  let gapLeft := x - leftBound in
  let gapRight := rightBound - (x + width node) in
  let gapTop := y - topBound in
  let gapBottom := bottomBound - (y + height node) in
  let gaps := [ mkGap Left gapLeft; mkGap Right gapRight;
                mkGap Top gapTop; mkGap Bottom gapBottom ] in
  let gaps := sort (fun a b => value a - value b) gaps in
  (* gaps[0]: the sorted array has its four entries *)
  let first := hd (mkGap Left gapLeft) gaps in
  mkGapResult (dir first) (value first) x y gapLeft gapRight gapTop gapBottom.

(** The entry and the object of the TypeScript source, whose right and
    bottom bounds may be missing. *)
Record TsGapEntry : Type := mkTsGap { ts_dir : Direction; ts_value : Num }.

Record TsGapResult : Type := mkTsGapResult {
  ts_minDir : Direction;
  ts_minGap : Num;
  ts_x : Q;
  ts_y : Q;
  ts_gapLeft : Num;
  ts_gapRight : Num;
  ts_gapTop : Num;
  ts_gapBottom : Num
}.

(** The TypeScript source (lines 37-59): without a frame ancestor the
    bounds are [0], [0], [figma.currentPage.width] and
    [figma.currentPage.height]; [pageWidth] and [pageHeight] are what these
    two reads give. *)
Definition calculateGapAndDirection_ts (pageWidth pageHeight : Value) (node : Node)
  : TsGapResult :=
  let x := absoluteX node in
  let y := absoluteY node in
  let outer := getOutermostFrame node in
  let leftBound := match outer with Some outer => absoluteX outer | None => 0 end in
  let topBound := match outer with Some outer => absoluteY outer | None => 0 end in
  let rightBound := match outer with
                    | Some outer => number (leftBound + width outer)
                    | None => pageWidth end in
  let bottomBound := match outer with
                     | Some outer => number (topBound + height outer)
                     | None => pageHeight end in
  let gapLeft := Fin (x - leftBound) in
  let gapRight := Num_sub (ToNumber rightBound) (Fin (x + width node)) in
  let gapTop := Fin (y - topBound) in
  let gapBottom := Num_sub (ToNumber bottomBound) (Fin (y + height node)) in
  let gaps := [ mkTsGap Left gapLeft; mkTsGap Right gapRight;
                mkTsGap Top gapTop; mkTsGap Bottom gapBottom ] in
  let gaps := sort (fun a b => comparatorResult (Num_sub (ts_value a) (ts_value b)))
                   gaps in
  let first := hd (mkTsGap Left gapLeft) gaps in
  mkTsGapResult (ts_dir first) (ts_value first) x y gapLeft gapRight gapTop gapBottom.

(** ** The document as the workflows see it *)

Inductive LayoutMode : Type := NONE | HORIZONTAL | VERTICAL.

#[local] Unset Elimination Schemes.

(** A node of the scene with what the workflows read or write: its tag and
    name, the position assigned through [.x] and [.y], its measured size,
    the [locked] flag, its plugin data, the auto-layout direction, the text
    of a text node and its children in document order.  Fills, strokes,
    paddings, corner radii and alignment modes are written by the plugin
    and never read back; they are left out. *)
Inductive SceneNode : Type := mkScene {
  s_id : string;
  s_type : NodeType;
  s_name : string;
  s_x : Q;
  s_y : Q;
  s_width : Q;
  s_height : Q;
  s_locked : bool;
  s_pluginData : list (string * string);
  s_layoutMode : LayoutMode;
  s_characters : string;
  s_children : list SceneNode
}.

#[local] Set Elimination Schemes.

Definition set_name (v : string) (n : SceneNode) : SceneNode :=
  mkScene (s_id n) (s_type n) v (s_x n) (s_y n) (s_width n) (s_height n)
          (s_locked n) (s_pluginData n) (s_layoutMode n) (s_characters n) (s_children n).

Definition set_xy (vx vy : Q) (n : SceneNode) : SceneNode :=
  mkScene (s_id n) (s_type n) (s_name n) vx vy (s_width n) (s_height n)
          (s_locked n) (s_pluginData n) (s_layoutMode n) (s_characters n) (s_children n).

(** [node.resize(w, h)] *)
Definition resize (w h : Q) (n : SceneNode) : SceneNode :=
  mkScene (s_id n) (s_type n) (s_name n) (s_x n) (s_y n) w h
          (s_locked n) (s_pluginData n) (s_layoutMode n) (s_characters n) (s_children n).

Definition set_locked (v : bool) (n : SceneNode) : SceneNode :=
  mkScene (s_id n) (s_type n) (s_name n) (s_x n) (s_y n) (s_width n) (s_height n)
          v (s_pluginData n) (s_layoutMode n) (s_characters n) (s_children n).

Definition set_layoutMode (v : LayoutMode) (n : SceneNode) : SceneNode :=
  mkScene (s_id n) (s_type n) (s_name n) (s_x n) (s_y n) (s_width n) (s_height n)
          (s_locked n) (s_pluginData n) v (s_characters n) (s_children n).

Definition set_characters (v : string) (n : SceneNode) : SceneNode :=
  mkScene (s_id n) (s_type n) (s_name n) (s_x n) (s_y n) (s_width n) (s_height n)
          (s_locked n) (s_pluginData n) (s_layoutMode n) v (s_children n).

Definition set_children (v : list SceneNode) (n : SceneNode) : SceneNode :=
  mkScene (s_id n) (s_type n) (s_name n) (s_x n) (s_y n) (s_width n) (s_height n)
          (s_locked n) (s_pluginData n) (s_layoutMode n) (s_characters n) v.

(** [parent.appendChild(child)] on a node under construction. *)
Definition appendChild (child : SceneNode) (n : SceneNode) : SceneNode :=
  set_children (s_children n ++ [child]) n.

(** Plugin data: [getPluginData] of a key never written is the empty
    string; [setPluginData] replaces the value of the key. *)
Fixpoint lookupData (key : string) (d : list (string * string)) : string :=
  match d with
  | [] => ""
  | (k, v) :: d' => if String.eqb k key then v else lookupData key d'
  end.

Definition storeData (key v : string) (d : list (string * string)) : list (string * string) :=
  (key, v) :: filter (fun kv => negb (String.eqb (fst kv) key)) d.

Definition getPluginData (key : string) (n : SceneNode) : string :=
  lookupData key (s_pluginData n).

Definition setPluginData (key v : string) (n : SceneNode) : SceneNode :=
  mkScene (s_id n) (s_type n) (s_name n) (s_x n) (s_y n) (s_width n) (s_height n)
          (s_locked n) (storeData key v (s_pluginData n)) (s_layoutMode n)
          (s_characters n) (s_children n).

(** Search by identifier, node first and then its descendants, in document
    order. *)
Fixpoint findById (i : string) (n : SceneNode) : option SceneNode :=
  if String.eqb (s_id n) i then Some n
  else (fix go (l : list SceneNode) : option SceneNode :=
          match l with
          | [] => None
          | c :: l' => match findById i c with
                       | Some r => Some r
                       | None => go l'
                       end
          end) (s_children n).

Fixpoint findByIdIn (i : string) (l : list SceneNode) : option SceneNode :=
  match l with
  | [] => None
  | c :: l' => match findById i c with
               | Some r => Some r
               | None => findByIdIn i l'
               end
  end.

(** Detaching the node of an identifier from a forest. *)
Fixpoint detachFrom (i : string) (n : SceneNode) : SceneNode :=
  set_children
    (filter (fun c => negb (String.eqb (s_id c) i)) (map (detachFrom i) (s_children n))) n.

Definition detach (i : string) (l : list SceneNode) : list SceneNode :=
  filter (fun c => negb (String.eqb (s_id c) i)) (map (detachFrom i) l).

(** [node.name = v] for the node of an identifier, wherever it sits. *)
Fixpoint renameById (i v : string) (n : SceneNode) : SceneNode :=
  let n' := set_children (map (renameById i v) (s_children n)) n in
  if String.eqb (s_id n) i then set_name v n' else n'.

(** [node.findOne(p)]: the first descendant, in document order, that
    satisfies [p]. *)
Fixpoint findOne (p : SceneNode -> bool) (n : SceneNode) : option SceneNode :=
  (fix go (l : list SceneNode) : option SceneNode :=
     match l with
     | [] => None
     | c :: l' => if p c then Some c
                  else match findOne p c with
                       | Some r => Some r
                       | None => go l'
                       end
     end) (s_children n).

(** The state of the host between two calls of the plugin. *)
Record Figma : Type := mkFigma {
  command : string;                         (* figma.command *)
  currentPage : Node;                       (* figma.currentPage *)
  page_children : list SceneNode;           (* figma.currentPage.children *)
  elsewhere : list SceneNode;               (* the rest of the document, by subtree *)
  page_pluginData : list (string * string); (* plugin data of the page *)
  selection : list Node;                    (* figma.currentPage.selection *)
  nodeById : string -> option Node;         (* the elements identifiers resolve to *)
  mainComponentOf : string -> option string;(* name of an instance's main component *)
  removeThrows : string -> bool;            (* whether [remove()] throws on a node *)
  created : nat;                            (* nodes created so far *)
  minted : nat;                             (* tokens generated so far *)
  notifications : list string;              (* figma.notify, oldest first *)
  closed : option (option string)           (* figma.closePlugin and its message *)
}.

(** State-passing computations over the host. *)
Definition M (A : Type) : Type := Figma -> A * Figma.

Definition ret {A : Type} (a : A) : M A := fun s => (a, s).

Definition bind {A B : Type} (m : M A) (k : A -> M B) : M B :=
  fun s => let (a, s') := m s in k a s'.

Notation "x <- m ;; k" := (bind m (fun x => k))
  (at level 61, m at next level, right associativity).
Notation "m ;; k" := (bind m (fun _ => k))
  (at level 61, right associativity).

Definition gets {A : Type} (f : Figma -> A) : M A := fun s => (f s, s).
Definition modify (f : Figma -> Figma) : M unit := fun s => (tt, f s).

Definition with_scene (pc ew : list SceneNode) (s : Figma) : Figma :=
  mkFigma (command s) (currentPage s) pc ew (page_pluginData s) (selection s)
          (nodeById s) (mainComponentOf s) (removeThrows s) (created s) (minted s)
          (notifications s) (closed s).

Definition with_page_pluginData (d : list (string * string)) (s : Figma) : Figma :=
  mkFigma (command s) (currentPage s) (page_children s) (elsewhere s) d (selection s)
          (nodeById s) (mainComponentOf s) (removeThrows s) (created s) (minted s)
          (notifications s) (closed s).

Definition with_selection (l : list Node) (s : Figma) : Figma :=
  mkFigma (command s) (currentPage s) (page_children s) (elsewhere s)
          (page_pluginData s) l
          (nodeById s) (mainComponentOf s) (removeThrows s) (created s) (minted s)
          (notifications s) (closed s).

Definition with_counters (c m : nat) (s : Figma) : Figma :=
  mkFigma (command s) (currentPage s) (page_children s) (elsewhere s)
          (page_pluginData s) (selection s)
          (nodeById s) (mainComponentOf s) (removeThrows s) c m
          (notifications s) (closed s).

Definition with_messages (n : list string) (c : option (option string)) (s : Figma) : Figma :=
  mkFigma (command s) (currentPage s) (page_children s) (elsewhere s)
          (page_pluginData s) (selection s)
          (nodeById s) (mainComponentOf s) (removeThrows s) (created s) (minted s)
          n c.

(** [figma.notify(message, { error: true })] *)
Definition notify (message : string) : M unit :=
  modify (fun s => with_messages (notifications s ++ [message]) (closed s) s).

(** [figma.closePlugin(message)] *)
Definition closePlugin (message : option string) : M unit :=
  modify (fun s => with_messages (notifications s) (Some message) s).

(** [figma.currentPage.appendChild(node)]: the node leaves the place it had
    in the document and becomes the last child of the page. *)
Definition page_appendChild (node : SceneNode) : M unit :=
  modify (fun s => with_scene (detach (s_id node) (page_children s) ++ [node])
                              (detach (s_id node) (elsewhere s)) s).

(** [figma.getNodeByIdAsync(id)] for a node of the scene; [None] stands for
    [null] and for a rejected promise. *)
Definition getNodeByIdAsync (i : string) : M (option SceneNode) :=
  gets (fun s => findByIdIn i (page_children s ++ elsewhere s)).

(** ** [getMainGroup] *)

Definition mainGroupName : string := "📝 Annotations".

(** [node.type === "GROUP" && node.name === "📝 Annotations"] *)
Definition isMainGroup (node : SceneNode) : bool :=
  NodeType_eqb (s_type node) GROUP && String.eqb (s_name node) mainGroupName.

Definition getMainGroup : M (option SceneNode) :=
  cachedId <- gets (fun s => lookupData "mainGroupId" (page_pluginData s)) ;;
  cached <- (if String.eqb cachedId "" then ret None
             else
               node <- getNodeByIdAsync cachedId ;;
               match node with
               | Some node => if isMainGroup node then ret (Some node) else ret None
               | None => ret None (* invalid cache *)
               end) ;;
  match cached with
  | Some node => ret (Some node)
  | None =>
      children <- gets page_children ;;
      match find isMainGroup children with
      | Some node =>
          modify (fun s => with_page_pluginData
                             (storeData "mainGroupId" (s_id node) (page_pluginData s)) s) ;;
          ret (Some node)
      | None => ret None
      end
  end.

(** ** Name checks *)

Definition lower (c : ascii) : ascii :=
  let n := nat_of_ascii c in
  if (Nat.leb 65 n && Nat.leb n 90)%bool then ascii_of_nat (n + 32) else c.

(** Whether [s] starts with [p], letters compared without case. *)
Fixpoint startsWith_ci (p s : string) : bool :=
  match p with
  | EmptyString => true
  | String a p' =>
      match s with
      | EmptyString => false
      | String b s' => Ascii.eqb (lower a) (lower b) && startsWith_ci p' s'
      end
  end.

(** [/^(ic_|ig_|img_|icon_)/i.test(name)] *)
Definition hasIconPrefix (name : string) : bool :=
  startsWith_ci "ic_" name || startsWith_ci "ig_" name
  || startsWith_ci "img_" name || startsWith_ci "icon_" name.

(** ** The positioning tables *)

(** [groupXMap] and [groupYMap] of [createAnnotationGroup], read at a
    direction. *)
Definition groupXMap (x nodeWidth frameWidth : Q) (d : Direction) : Q :=
  match d with
  | Right => x + nodeWidth
  | Left => x - frameWidth
  | Top => x + nodeWidth / 2 - frameWidth / 2
  | Bottom => x + nodeWidth / 2 - frameWidth / 2
  end.

Definition groupYMap (y nodeHeight frameHeight : Q) (d : Direction) : Q :=
  match d with
  | Right => y + nodeHeight / 2 - frameHeight / 2
  | Left => y + nodeHeight / 2 - frameHeight / 2
  | Top => y - frameHeight
  | Bottom => y + nodeHeight
  end.

(** The [positions] table of the realign loop, read at a direction. *)
Definition positions (x y w h frameWidth frameHeight : Q) (d : Direction) : Q * Q :=
  match d with
  | Right => (x + w, y + h / 2 - frameHeight / 2)
  | Left => (x - frameWidth, y + h / 2 - frameHeight / 2)
  | Top => (x + w / 2 - frameWidth / 2, y - frameHeight)
  | Bottom => (x + w / 2 - frameWidth / 2, y + h)
  end.

(** [figma.currentPage.width] and [figma.currentPage.height].  A page of
    the plugin API has no [width] and no [height] (the geometry of a [Node]
    is that of the nodes below the page), so both reads give
    [undefined]. *)
Definition page_width (page : Node) : Value := undefined.
Definition page_height (page : Node) : Value := undefined.

(** The [gaps] record of the realign loop and the direction read from
    [Object.entries(gaps).sort((a, b) => a[1] - b[1])[0][0]]; the entries
    come in the order the keys were written.  [pageWidth] and [pageHeight]
    are what the reads of the page's width and height give. *)
Definition realignGaps (pageWidth pageHeight : Value) (icon : Node)
  : list (Direction * Num) :=
  let x := absoluteX icon in
  let y := absoluteY icon in
  let w := width icon in
  let h := height icon in
  let outer := getOutermostFrame icon in
  let leftBound := match outer with Some outer => absoluteX outer | None => 0 end in
  let topBound := match outer with Some outer => absoluteY outer | None => 0 end in
  let rightBound := match outer with
                    | Some outer => number (leftBound + width outer)
                    | None => pageWidth end in
  let bottomBound := match outer with
                     | Some outer => number (topBound + height outer)
                     | None => pageHeight end in
  [ (Left, Fin (x - leftBound));
    (Right, Num_sub (ToNumber rightBound) (Fin (x + w)));
    (Top, Fin (y - topBound));
    (Bottom, Num_sub (ToNumber bottomBound) (Fin (y + h))) ].

Definition realignDir (gaps : list (Direction * Num)) : Direction :=
  fst (hd (Left, Fin 0)
          (sort (fun a b => comparatorResult (Num_sub (snd a) (snd b))) gaps)).

(** The state in which a call of the plugin starts: the host has set the
    command, nothing was notified and the plugin is open. *)
Definition enter (cmd : string) (s : Figma) : Figma :=
  mkFigma cmd (currentPage s) (page_children s) (elsewhere s)
          (page_pluginData s) (selection s) (nodeById s)
          (mainComponentOf s) (removeThrows s) (created s) (minted s)
          [] None.

(** ** The plugin over a host *)

Section Plugin.

(** The size the host's layout gives a node from its content: a text node
    from its characters, an auto-layout frame whose sizing modes are [AUTO]
    from its children, a group from what it holds. *)
Variable measure : SceneNode -> Q * Q.

(** The identifier of the [n]-th node the host creates. *)
Variable nodeId : nat -> string.

(** The value of [`${Date.now()}${Math.floor(Math.random() * 10000)}`] the
    [n]-th time it is evaluated. *)
Variable token : nat -> string.

(** [figma.createFrame()] and its siblings: a node with a new identifier,
    the name the host gives by default, no children and no plugin data.
    The plugin sets or measures every size it reads. *)
Definition createNode (t : NodeType) (defaultName : string) : M SceneNode :=
  fun s => (mkScene (nodeId (created s)) t defaultName 0 0 0 0 false [] NONE "" [],
            with_counters (S (created s)) (minted s) s).

Definition createFrame : M SceneNode := createNode FRAME "Frame".
Definition createEllipse : M SceneNode := createNode ELLIPSE "Ellipse".
Definition createVector : M SceneNode := createNode VECTOR "Vector".
Definition createText : M SceneNode := createNode TEXT "Text".

Definition mintToken : M string :=
  fun s => (token (minted s), with_counters (created s) (S (minted s)) s).

(** The node with the size the host measures for it. *)
Definition relayout (n : SceneNode) : SceneNode :=
  resize (fst (measure n)) (snd (measure n)) n.

(** [figma.group(nodes, figma.currentPage)]: a new group holding [nodes].
    The host puts a node it creates on the page until the plugin appends it
    elsewhere: the label, the card and the wrappers of a run sit there only
    until the run has merged the wrappers into the main group.
    [page_children] leaves out these nodes of the run in progress; it holds
    the children of the page between two runs and the main group once the
    run has appended it. *)
Definition figma_group (nodes : list SceneNode) : M SceneNode :=
  g <- createNode GROUP "Group" ;;
  ret (relayout (set_children nodes g)).

(** [createAnnotationGroup] ([code.js], lines 81-166). *)
Definition createAnnotationGroup (node : Node) (labelFrame : SceneNode) (uuid : string)
  : M SceneNode :=
  let r := calculateGapAndDirection node in
  let x := res_x r in
  let y := res_y r in
  let labelPadding := 66 in
  let lineLength := Math_max (minGap r + labelPadding) 60 in
  circle <- createEllipse ;;
  let circle := resize 6 6 circle in
  groupFrame <- createFrame ;;
  let groupFrame := set_name "icon-naming-card" groupFrame in
  vector <- createVector ;;
  let groupFrame :=
    match minDir r with
    | Right =>
        let groupFrame := set_layoutMode HORIZONTAL groupFrame in
        let lineLength := Math_max (gapRight r + labelPadding) 60 in
        let vector := resize lineLength 2 vector in
        appendChild labelFrame (appendChild vector (appendChild circle groupFrame))
    | Left =>
        let groupFrame := set_layoutMode HORIZONTAL groupFrame in
        let lineLength := Math_max (gapLeft r + labelPadding) 60 in
        let vector := resize lineLength 2 vector in
        appendChild circle (appendChild vector (appendChild labelFrame groupFrame))
    | Top =>
        let groupFrame := set_layoutMode VERTICAL groupFrame in
        let lineLength := Math_max (gapTop r + labelPadding) 60 in
        let vector := resize 2 lineLength vector in
        appendChild circle (appendChild vector (appendChild labelFrame groupFrame))
    | Bottom =>
        let groupFrame := set_layoutMode VERTICAL groupFrame in
        let lineLength := Math_max (gapBottom r + labelPadding) 60 in
        let vector := resize 2 lineLength vector in
        appendChild labelFrame (appendChild vector (appendChild circle groupFrame))
    end in
  let groupFrame := relayout groupFrame in
  let groupX := groupXMap x (width node) (s_width groupFrame) in
  let groupY := groupYMap y (height node) (s_height groupFrame) in
  let groupFrame := set_xy 0 0 groupFrame in
  wrapper <- figma_group [groupFrame] ;;
  let wrapper := set_name ("iconAnnotation-" ++ uuid) wrapper in
  let wrapper := set_xy (groupX (minDir r)) (groupY (minDir r)) wrapper in
  let wrapper := set_locked true wrapper in
  let wrapper := setPluginData "targetId" (id node) wrapper in
  let wrapper := setPluginData "uuid" uuid wrapper in
  ret wrapper.

(** The value [lineLength] holds when the connector is sized: assigned once
    from [minGap] and once more in the branch of the direction. *)
Definition lineLength (node : Node) : Q * Q :=
  let r := calculateGapAndDirection node in
  let labelPadding := 66 in
  let initial := Math_max (minGap r + labelPadding) 60 in
  let final := match minDir r with
               | Right => Math_max (gapRight r + labelPadding) 60
               | Left => Math_max (gapLeft r + labelPadding) 60
               | Top => Math_max (gapTop r + labelPadding) 60
               | Bottom => Math_max (gapBottom r + labelPadding) 60
               end in
  (initial, final).

(** The handle of a wrapper that sits in the main group on the page. *)
Definition handleOf (page : Node) (mainGroup wrapper : SceneNode) : Node :=
  mkNode (s_id wrapper) (s_type wrapper) (s_name wrapper)
         (s_x wrapper) (s_y wrapper) (s_width wrapper) (s_height wrapper)
         (Some (mkNode (s_id mainGroup) (s_type mainGroup) (s_name mainGroup)
                       (s_x mainGroup) (s_y mainGroup)
                       (s_width mainGroup) (s_height mainGroup) (Some page))).

(** [icon.name = v]: the rename reaches the node in the document. *)
Definition renameNode (i v : string) : M unit :=
  modify (fun s => with_scene (map (renameById i v) (page_children s))
                              (map (renameById i v) (elsewhere s)) s).

(** The loop body of the annotate command after the name check ([code.js],
    lines 206-231).  [mainGroup] is the handle read before the loop; it
    sees the rename like the document does. *)
Definition annotateAccepted (icon : Node) (originalName : string)
    (wrappers : list SceneNode) (mainGroup : option SceneNode)
  : M (list SceneNode * option SceneNode) :=
  uuid <- mintToken ;;
  labelFrame <- createFrame ;;
  let labelFrame := set_layoutMode HORIZONTAL labelFrame in
  text <- createText ;;
  let text := relayout (set_characters originalName text) in
  let labelFrame := relayout (appendChild text labelFrame) in
  wrapper <- createAnnotationGroup icon labelFrame uuid ;;
  let wrapper := setPluginData "iconId" (id icon) wrapper in
  let newName := originalName ++ "-" ++ uuid in
  renameNode (id icon) newName ;;
  ret ((wrappers ++ [wrapper])%list, option_map (renameById (id icon) newName) mainGroup).

(** One turn of [for (const icon of selection)] ([code.js], lines 179-232). *)
Definition annotateIcon (icon : Node)
    (wrappers : list SceneNode) (mainGroup : option SceneNode)
  : M (list SceneNode * option SceneNode) :=
  let originalName := name icon in
  match type icon with
  | INSTANCE =>
      comp <- gets (fun s => mainComponentOf s (id icon)) ;;
      match comp with
      | Some compName =>
          if hasIconPrefix compName
          then annotateAccepted icon compName wrappers mainGroup
          else
            notify "Instance corresponding component must start with ic_/ig_/img_/icon_." ;;
            ret (wrappers, mainGroup)
      | None =>
          notify "Instance corresponding component must start with ic_/ig_/img_/icon_." ;;
          ret (wrappers, mainGroup)
      end
  | COMPONENT =>
      if hasIconPrefix (name icon)
      then annotateAccepted icon originalName wrappers mainGroup
      else
        notify "Component name must start with ic_/ig_/img_/icon_." ;;
        ret (wrappers, mainGroup)
  | _ =>
      if hasIconPrefix (name icon)
      then annotateAccepted icon originalName wrappers mainGroup
      else
        notify "Layer name must start with ic_/ig_/img_/icon_." ;;
        ret (wrappers, mainGroup)
  end.

Fixpoint annotateLoop (icons : list Node)
    (wrappers : list SceneNode) (mainGroup : option SceneNode)
  : M (list SceneNode * option SceneNode) :=
  match icons with
  | [] => ret (wrappers, mainGroup)
  | icon :: rest =>
      r <- annotateIcon icon wrappers mainGroup ;;
      annotateLoop rest (fst r) (snd r)
  end.

(** The end of the annotate command once the loop has produced wrappers
    ([code.js], lines 237-250). *)
Definition mergeIntoMainGroup
    (wrappers : list SceneNode) (mainGroup : option SceneNode) : M unit :=
  mainGroup <- match mainGroup with
               | None =>
                   mainGroup <- figma_group wrappers ;;
                   let mainGroup := set_name mainGroupName mainGroup in
                   ret (set_locked true mainGroup)
               | Some mainGroup =>
                   let mainGroup := set_locked false mainGroup in
                   let mainGroup :=
                     fold_left (fun g w => appendChild w g) wrappers mainGroup in
                   ret (set_locked true mainGroup)
               end ;;
  page_appendChild mainGroup ;;
  page <- gets currentPage ;;
  modify (with_selection (map (handleOf page mainGroup) wrappers)) ;;
  closePlugin (Some "Annotated icons successfully.").

(** The annotate command ([code.js], lines 170-251).  The font that
    [figma.loadFontAsync] asks for is taken to be available: the promise
    resolves and the step has no other effect.  (A rejection is not caught
    by [main]; such a run is outside this model.) *)
Definition annotate : M unit :=
  selection <- gets selection ;;
  match selection with
  | [] => closePlugin (Some "Please select one or more icons.")
  | _ :: _ =>
      mainGroup <- getMainGroup ;;
      r <- annotateLoop selection [] mainGroup ;;
      let wrappers := fst r in
      let mainGroup := snd r in
      match wrappers with
      | [] => closePlugin (Some "No icons annotated, please check naming.")
      | _ :: _ => mergeIntoMainGroup wrappers mainGroup
      end
  end.

(** [n.type === "FRAME" && n.name === "icon-naming-card"] *)
Definition isCard (n : SceneNode) : bool :=
  NodeType_eqb (s_type n) FRAME && String.eqb (s_name n) "icon-naming-card".

(** A counter as a template literal prints it. *)
Definition showNat (n : nat) : string := NilEmpty.string_of_uint (Nat.to_uint n).

(** One turn of [for (const wrapper of [...mainGroup.children])]
    ([code.js], lines 260-305): what the wrapper leaves among the children
    of the main group, and the two counters.  A child the loop takes for a
    wrapper is a node with children, as the wrappers of the plugin are:
    it has [findOne]. *)
Definition realignWrapper (wrapper : SceneNode) (realigned removed : nat)
  : M (list SceneNode * nat * nat) :=
  if negb (String.prefix "iconAnnotation-" (s_name wrapper))
  then ret ([wrapper], realigned, removed)
  else
    let iconId := getPluginData "iconId" wrapper in
    icon <- gets (fun s => nodeById s iconId) ;;
    match icon with
    | None =>
        throws <- gets (fun s => removeThrows s (s_id wrapper)) ;;
        ret (if throws then [wrapper] else [], realigned, S removed)
    | Some icon =>
        (* only the group moves; nothing is rebuilt *)
        match findOne isCard wrapper with
        | None => ret ([wrapper], realigned, removed)
        | Some frame =>
            let x := absoluteX icon in
            let y := absoluteY icon in
            let w := width icon in
            let h := height icon in
            page <- gets currentPage ;;
            let gaps := realignGaps (page_width page) (page_height page) icon in
            let dir := realignDir gaps in
            let p := positions x y w h (s_width frame) (s_height frame) dir in
            let wrapper := set_xy (fst p) (snd p) wrapper in
            ret ([wrapper], S realigned, removed)
        end
    end.

Fixpoint realignLoop (wrappers children : list SceneNode) (realigned removed : nat)
  : M (list SceneNode * nat * nat) :=
  match wrappers with
  | [] => ret (children, realigned, removed)
  | wrapper :: rest =>
      r <- realignWrapper wrapper realigned removed ;;
      realignLoop rest (children ++ fst (fst r)) (snd (fst r)) (snd r)
  end.

(** The realign command ([code.js], lines 252-309).  The write of [locked]
    that follows [appendChild] goes through the same handle and reaches the
    node the page then holds. *)
Definition realign : M unit :=
  mainGroup <- getMainGroup ;;
  match mainGroup with
  | None => closePlugin (Some "can't find main group.")
  | Some mainGroup =>
      let mainGroup := set_locked false mainGroup in
      r <- realignLoop (s_children mainGroup) [] 0 0 ;;
      let realigned := snd (fst r) in
      let removed := snd r in
      let mainGroup := set_children (fst (fst r)) mainGroup in
      let mainGroup := set_locked true mainGroup in
      page_appendChild mainGroup ;;
      closePlugin (Some ("Re-aligned " ++ showNat realigned
                         ++ " annotations, removed " ++ showNat removed
                         ++ " invalid annotations."))
  end.

(** [main] ([code.js], lines 167-314). *)
Definition main : M unit :=
  command <- gets command ;;
  if String.eqb command "annotate" then annotate
  else if String.eqb command "realign" then realign
  else closePlugin None.

(** One call of the plugin from the menu: the host sets the command and
    runs [main]; the messages are those of this call. *)
Definition invoke (cmd : string) (s : Figma) : Figma :=
  snd (main (enter cmd s)).

End Plugin.

(** * Vocabulary of the properties *)

Local Open Scope list_scope.

(** ** Directions and gaps *)

(** The fixed order of the directions. *)
Definition rank (d : Direction) : nat :=
  match d with Left => 0 | Right => 1 | Top => 2 | Bottom => 3 end.

(** [d] has the smallest gap, and is the first to have it. *)
Definition firstMinimal (g : Direction -> Q) (d : Direction) : Prop :=
  (forall d', g d <= g d') /\ (forall d', (rank d' < rank d)%nat -> g d < g d').

Definition gapOf (r : GapResult) (d : Direction) : Q :=
  match d with
  | Left => gapLeft r
  | Right => gapRight r
  | Top => gapTop r
  | Bottom => gapBottom r
  end.

(** The gap a direction has in the object of the TypeScript source. *)
Definition gapOf_ts (r : TsGapResult) (d : Direction) : Num :=
  match d with
  | Left => ts_gapLeft r
  | Right => ts_gapRight r
  | Top => ts_gapTop r
  | Bottom => ts_gapBottom r
  end.

(** The object of the compiled build, read as one of the TypeScript
    source. *)
Definition asTs (r : GapResult) : TsGapResult :=
  mkTsGapResult (minDir r) (Fin (minGap r)) (res_x r) (res_y r)
                (Fin (gapLeft r)) (Fin (gapRight r)) (Fin (gapTop r)) (Fin (gapBottom r)).

(** The gap a direction has in the [gaps] record of the realign loop. *)
Definition gapIn (gaps : list (Direction * Num)) (d : Direction) : Num :=
  match find (fun e => Direction_eqb (fst e) d) gaps with
  | Some e => snd e
  | None => Fin 0
  end.

(** The bounds the gaps are measured against: those of the outermost frame
    when there is one, and the fallback [b] otherwise. *)
Definition boundsContext (node : Node) (b : Q * Q * Q * Q) : Q * Q * Q * Q :=
  match getOutermostFrame node with
  | Some outer => (absoluteX outer, absoluteY outer,
                   absoluteX outer + width outer, absoluteY outer + height outer)
  | None => b
  end.

(** The bounds context of the realign loop and of the TypeScript source
    when it is resolved, that is when each of the four bounds is a number:
    the bounds of the outermost frame, or the canvas from its origin when
    the page gives a width and a height. *)
Definition resolvedBounds (pageWidth pageHeight : Value) (node : Node)
  : option (Q * Q * Q * Q) :=
  match getOutermostFrame node with
  | Some outer => Some (absoluteX outer, absoluteY outer,
                        absoluteX outer + width outer, absoluteY outer + height outer)
  | None =>
      match pageWidth, pageHeight with
      | number pw, number ph => Some (0, 0, pw, ph)
      | _, _ => None
      end
  end.

(** The four signed gaps of an element at [(x, y)] of size [w] x [h]
    against the bounds [(l, t, rt, b)]. *)
Definition signedGaps (x y w h : Q) (bounds : Q * Q * Q * Q) (d : Direction) : Q :=
  let '(l, t, rt, b) := bounds in
  match d with
  | Left => x - l
  | Right => rt - (x + w)
  | Top => y - t
  | Bottom => b - (y + h)
  end.

(** The entries of the [gaps] record when the gap of each direction is a
    number. *)
Definition numberEntries (g : Direction -> Q) : list (Direction * Num) :=
  map (fun d => (d, Fin (g d))) [Left; Right; Top; Bottom].

(** ** Parent chains *)

(** The parent chain of a node, nearest first. *)
Fixpoint ancestors (n : Node) : list Node :=
  match n with
  | mkNode _ _ _ _ _ _ _ None => []
  | mkNode _ _ _ _ _ _ _ (Some p) => p :: ancestors p
  end.

(** The part of a parent chain below the canvas root. *)
Fixpoint belowPage (l : list Node) : list Node :=
  match l with
  | [] => []
  | p :: l' => if NodeType_eqb (type p) PAGE then [] else p :: belowPage l'
  end.

(** The frame ancestors of a node up to the canvas root, innermost first. *)
Definition frameAncestors (n : Node) : list Node :=
  filter (fun p => NodeType_eqb (type p) FRAME) (belowPage (ancestors n)).

Fixpoint lastOpt {A : Type} (l : list A) : option A :=
  match l with
  | [] => None
  | [a] => Some a
  | _ :: l' => lastOpt l'
  end.

(** ** Sample documents and hosts *)

Definition sampleDocument : Node := mkNode "0:0" DOCUMENT "Document" 0 0 0 0 None.
(** A page has no geometry; the fields are never read. *)
Definition samplePage : Node :=
  mkNode "0:1" PAGE "Page 1" 0 0 0 0 (Some sampleDocument).
(** A frame at (0,0) of size 375 x 100 on the page. *)
Definition artboard : Node :=
  mkNode "1:1" FRAME "Artboard" 0 0 375 100 (Some samplePage).
(** A frame nested in the artboard, and a group nested in that frame. *)
Definition toolbar : Node :=
  mkNode "1:4" FRAME "Toolbar" 20 10 200 40 (Some artboard).
Definition cluster : Node :=
  mkNode "1:5" GROUP "Cluster" 30 15 60 30 (Some toolbar).
(** An element at (100,100) of size 24 x 24 in the artboard. *)
Definition overhangingIcon : Node :=
  mkNode "1:2" RECTANGLE "ic_foo" 100 100 24 24 (Some artboard).
(** An element in the nested group. *)
Definition nestedIcon : Node :=
  mkNode "1:6" RECTANGLE "ic_menu" 40 20 24 24 (Some cluster).
(** An element directly on the page. *)
Definition strayIcon : Node :=
  mkNode "1:3" RECTANGLE "bar" 500 20 24 24 (Some samplePage).

(** A host for the examples: every measured node is 120 x 30, identifiers
    and tokens are numbered. *)
Definition sampleMeasure (n : SceneNode) : Q * Q := (120, 30).
Definition sampleNodeId (n : nat) : string := ("9:" ++ showNat n)%string.
Definition sampleToken (n : nat) : string := ("1700000000000" ++ showNat n)%string.

(** A label as the annotate loop builds it. *)
Definition sampleLabel : SceneNode :=
  mkScene "8:0" FRAME "Frame" 0 0 120 30 false [] HORIZONTAL ""
          [mkScene "8:1" TEXT "Text" 0 0 120 30 false [] NONE "ic_foo" []].

(** A state with an empty page and the two sample elements selected, one
    named [ic_foo] and one named [bar]. *)
Definition sampleState : Figma :=
  mkFigma "" samplePage [] [] [] [overhangingIcon; strayIcon]
          (fun i => if String.eqb i "1:2" then Some overhangingIcon
                    else if String.eqb i "1:3" then Some strayIcon else None)
          (fun _ => None) (fun _ => false) 0 0 [] None.

(** The wrapper the builder makes for an element, as the annotate loop
    stores it. *)
Definition sampleWrapper (icon : Node) : SceneNode :=
  setPluginData "iconId" (id icon)
    (fst (createAnnotationGroup sampleMeasure sampleNodeId icon sampleLabel
            "17000000000000" sampleState)).

(** Its inner card. *)
Definition sampleCard (icon : Node) : SceneNode :=
  hd sampleLabel (s_children (sampleWrapper icon)).

(** ** What is observed of a wrapper *)

(** The inner card of a wrapper, as the realign loop finds it. *)
Definition cardOf (wrapper : SceneNode) : option SceneNode := findOne isCard wrapper.

(** The connector of a card: the child between the dot and the label; its
    length runs along the layout axis of the card. *)
Definition connectorLength (wrapper : SceneNode) : option Q :=
  match cardOf wrapper with
  | Some card =>
      match s_children card with
      | [_; vector; _] =>
          Some (match s_layoutMode card with
                | HORIZONTAL => s_width vector
                | _ => s_height vector
                end)
      | _ => None
      end
  | None => None
  end.

(** The wrapper origin of the specification, direction by direction, from
    the element's position and size [(x, y, w, h)] and the measured size
    [(A_w, A_h)] of the assembly. *)
Definition wrapperOrigin (d : Direction) (x y w h A_w A_h : Q) : Q * Q :=
  match d with
  | Right => (x + w, y + h / 2 - A_h / 2)
  | Left => (x - A_w, y + h / 2 - A_h / 2)
  | Top => (x + w / 2 - A_w / 2, y - A_h)
  | Bottom => (x + w / 2 - A_w / 2, y + h)
  end.

(** ** What is observed of the workflows *)

(** What the cached identifier yields. *)
Definition cachedMainGroup (s : Figma) : option SceneNode :=
  let cachedId := lookupData "mainGroupId" (page_pluginData s) in
  if String.eqb cachedId "" then None
  else match findByIdIn cachedId (page_children s ++ elsewhere s) with
       | Some node => if isMainGroup node then Some node else None
       | None => None
       end.

(** The name the prefix check applies to: the name of the main component
    for an instance (none when it does not resolve), the element's own name
    otherwise. *)
Definition applicableName (s : Figma) (icon : Node) : option string :=
  match type icon with
  | INSTANCE => mainComponentOf s (id icon)
  | _ => Some (name icon)
  end.

Definition passesPrefixCheck (s : Figma) (icon : Node) : bool :=
  match applicableName s icon with
  | Some n => hasIconPrefix n
  | None => false
  end.

(** What a step leaves untouched in the host. *)
Definition sameHost (s s' : Figma) : Prop :=
  command s' = command s /\ currentPage s' = currentPage s
  /\ nodeById s' = nodeById s /\ mainComponentOf s' = mainComponentOf s
  /\ removeThrows s' = removeThrows s /\ closed s' = closed s.

(** What a wrapper leaves among the children of the main group. *)
Definition realigned (s : Figma) (wrapper : SceneNode) : list SceneNode :=
  fst (fst (fst (realignWrapper wrapper 0 0 s))).

(** ** Sample states of the workflows *)

(** An instance directly on the page whose main component is named
    [icon_check]. *)
Definition looseIcon : Node :=
  mkNode "1:7" INSTANCE "Check" 500 20 24 24 (Some samplePage).

(** The sample page with the element in the artboard and the instance on
    the page selected. *)
Definition selectedState : Figma :=
  mkFigma "" samplePage [] [] [] [overhangingIcon; looseIcon]
          (fun i => if String.eqb i "1:2" then Some overhangingIcon
                    else if String.eqb i "1:7" then Some looseIcon else None)
          (fun i => if String.eqb i "1:7" then Some "icon_check" else None)
          (fun _ => false) 0 0 [] None.

(** The same page once annotated. *)
Definition annotatedState : Figma :=
  invoke sampleMeasure sampleNodeId sampleToken "annotate" selectedState.

(** A page whose cached identifier resolves outside its children, as after
    the page was duplicated with its annotations: its plugin data holds the
    identifier of the main group of the original page, which is elsewhere
    in the document, and its own copy of the main group is among its
    children. *)
Definition originalGroup : SceneNode :=
  mkScene "3:7" GROUP mainGroupName 0 0 0 0 true [] NONE "" [].
Definition copiedGroup : SceneNode :=
  mkScene "5:1" GROUP mainGroupName 0 0 0 0 true [] NONE "" [].
Definition duplicatedPageState : Figma :=
  mkFigma "" samplePage [copiedGroup] [originalGroup] [("mainGroupId", "3:7")]
          [overhangingIcon]
          (fun i => if String.eqb i "1:2" then Some overhangingIcon else None)
          (fun _ => None) (fun _ => false) 0 0 [] None.

(** The annotated page after the element of the artboard was moved to
    (10,40). *)
Definition movedIcon : Node :=
  mkNode "1:2" RECTANGLE "ic_foo" 10 40 24 24 (Some artboard).

Definition movedState : Figma :=
  mkFigma "" samplePage (page_children annotatedState) []
          (page_pluginData annotatedState) []
          (fun i => if String.eqb i "1:2" then Some movedIcon
                    else if String.eqb i "1:7" then Some looseIcon else None)
          (fun i => if String.eqb i "1:7" then Some "icon_check" else None)
          (fun _ => false)
          (created annotatedState) (minted annotatedState) [] None.

(** ** The main groups of a page *)

(** The main groups among the immediate children of the page. *)
Definition mainGroupsOf (s : Figma) : list SceneNode :=
  filter isMainGroup (page_children s).

(** A change of the scene that keeps identifiers and makes no node a main
    group. *)
Definition harmless (R : SceneNode -> SceneNode) : Prop :=
  (forall n, s_id (R n) = s_id n)
  /\ (forall n, isMainGroup (R n) = true -> isMainGroup n = true).

(** ** What is observed of the annotate loop *)

(** The warning an element is rejected with, by its kind. *)
Definition rejectionWarning (icon : Node) : string :=
  match type icon with
  | INSTANCE => "Instance corresponding component must start with ic_/ig_/img_/icon_."
  | COMPONENT => "Component name must start with ic_/ig_/img_/icon_."
  | _ => "Layer name must start with ic_/ig_/img_/icon_."
  end.

(** The text a wrapper shows: the characters of its first text node. *)
Definition labelText (wrapper : SceneNode) : option string :=
  option_map s_characters (findOne (fun n => NodeType_eqb (s_type n) TEXT) wrapper).

(** The message the annotate command closes with, from the selection. *)
Definition annotateMessage (s : Figma) : string :=
  match selection s with
  | [] => "Please select one or more icons."
  | _ :: _ =>
      if existsb (passesPrefixCheck s) (selection s)
      then "Annotated icons successfully."
      else "No icons annotated, please check naming."
  end.

(** A name with its capital letters made small. *)
Fixpoint lowerString (s : string) : string :=
  match s with
  | EmptyString => EmptyString
  | String c s' => String (lower c) (lowerString s')
  end.

(** The renames of a run, applied to a node and its descendants in the order
    they were made: each is an identifier and the name given to its node. *)
Definition renameAll (renames : list (string * string)) (n : SceneNode) : SceneNode :=
  fold_left (fun n r => renameById (fst r) (snd r) n) renames n.

(** ** What is observed of the realign loop *)

(** A child of the main group that the loop takes for a wrapper. *)
Definition isWrapperName (w : SceneNode) : bool :=
  String.prefix "iconAnnotation-" (s_name w).

(** A wrapper whose stored identifier resolves to no element. *)
Definition isDangling (s : Figma) (w : SceneNode) : bool :=
  isWrapperName w
  && match nodeById s (getPluginData "iconId" w) with
     | Some _ => false
     | None => true
     end.

(** A wrapper whose target resolves and whose inner card is found. *)
Definition isMovable (s : Figma) (w : SceneNode) : bool :=
  isWrapperName w
  && match nodeById s (getPluginData "iconId" w) with
     | Some _ => match findOne isCard w with Some _ => true | None => false end
     | None => false
     end.

(** A child that is still in the main group after the loop. *)
Definition survives (s : Figma) (w : SceneNode) : bool :=
  negb (isDangling s w && negb (removeThrows s (s_id w))).

(** [w'] is [w] at another position, and [w] itself unless it was
    movable. *)
Definition onlyMoved (s : Figma) (w w' : SceneNode) : Prop :=
  w' = set_xy (s_x w') (s_y w') w /\ (isMovable s w = false -> w' = w).

(** The summary the realign command closes with. *)
Definition realignMessage (realigned removed : nat) : string :=
  "Re-aligned " ++ showNat realigned ++ " annotations, removed "
  ++ showNat removed ++ " invalid annotations.".

(** ** Further sample states *)

(** The sample page with only the layer [bar] selected. *)
Definition rejectedOnlyState : Figma := with_selection [strayIcon] sampleState.

(** An instance named [ic_orphan] whose main component does not resolve. *)
Definition orphanInstance : Node :=
  mkNode "1:8" INSTANCE "ic_orphan" 60 40 24 24 (Some artboard).

(** A wrapper of the plugin, selected as if it were an element. *)
Definition selectedWrapper : Node :=
  mkNode "9:5" GROUP "iconAnnotation-17000000000000" 52 124 120 30 (Some samplePage).

(** The annotated sample page with the element of the artboard selected
    again. *)
Definition reselectedState : Figma := with_selection [overhangingIcon] annotatedState.

(** The main group of the annotated sample page. *)
Definition annotatedGroup : SceneNode := hd copiedGroup (page_children annotatedState).

(** The annotated sample page after the instance was deleted: its
    identifier resolves to nothing. *)
Definition afterDeletionState : Figma :=
  mkFigma "" samplePage (page_children annotatedState) []
          (page_pluginData annotatedState) []
          (fun i => if String.eqb i "1:2" then Some overhangingIcon else None)
          (fun _ => None) (fun _ => false)
          (created annotatedState) (minted annotatedState) [] None.

(** A page that holds a main group and whose cached identifier resolves to
    nothing. *)
Definition staleCacheState : Figma :=
  mkFigma "" samplePage [copiedGroup] [] [("mainGroupId", "7:7")] []
          (fun _ => None) (fun _ => None) (fun _ => false) 0 0 [] None.

(** * Properties *)

(** ** Induction over handles and scene nodes *)

Lemma Node_ind (P : Node -> Prop)
  (Hroot : forall i t n x y w h, P (mkNode i t n x y w h None))
  (Hstep : forall i t n x y w h p, P p -> P (mkNode i t n x y w h (Some p))) :
  forall n, P n.
Proof.
  fix IH 1. intros [i t n x y w h [p|]].
  - apply Hstep. apply IH.
  - apply Hroot.
Qed.

Lemma SceneNode_ind (P : SceneNode -> Prop)
  (Hnode : forall i t n x y w h l d m c cs,
      Forall P cs -> P (mkScene i t n x y w h l d m c cs)) :
  forall n, P n.
Proof.
  fix IH 1. intros [i t n x y w h l d m c cs].
  apply Hnode. induction cs as [|c' cs IHcs]; constructor.
  - apply IH.
  - exact IHcs.
Qed.

(** ** The first entry of a sorted array *)

Section SortByKey.

Variable A : Type.
Variable key : A -> Q.

Let cmp (a b : A) : Q := key a - key b.

Lemma sort_insert_length (a : A) (l : list A) :
  List.length (sort_insert cmp a l) = S (List.length l).
Proof.
  induction l as [|b l IH]; simpl; [reflexivity|].
  destruct (Qle_bool (cmp a b) 0); simpl; [reflexivity | now rewrite IH].
Qed.

Lemma sort_length (l : list A) : List.length (sort cmp l) = List.length l.
Proof.
  induction l as [|a l IH]; [reflexivity|].
  change (sort cmp (a :: l)) with (sort_insert cmp a (sort cmp l)).
  rewrite sort_insert_length, IH. reflexivity.
Qed.

Lemma hd_sort_insert (d a : A) (l : list A) :
  hd d (sort_insert cmp a l) =
  match l with
  | [] => a
  | b :: _ => if Qle_bool (cmp a b) 0 then a else b
  end.
Proof.
  destruct l as [|b l]; simpl; [reflexivity|].
  now destruct (Qle_bool (cmp a b) 0).
Qed.

(** The first entry after the sort is an entry [m] of the array such that
    the entries before it are strictly larger and the entries after it are
    at least as large. *)
Lemma hd_sort_first_min (d : A) (l : list A) :
  l <> [] ->
  exists l1 l2, l = l1 ++ hd d (sort cmp l) :: l2
    /\ (forall b, In b l1 -> key (hd d (sort cmp l)) < key b)
    /\ (forall b, In b l2 -> key (hd d (sort cmp l)) <= key b).
Proof.
  induction l as [|a l IH]; [congruence|]. intros _.
  change (sort cmp (a :: l)) with (sort_insert cmp a (sort cmp l)).
  rewrite hd_sort_insert.
  destruct l as [|a' l].
  - simpl. exists [], []. repeat split; simpl; intros b [].
  - destruct IH as (l1 & l2 & Hl & Hlt & Hle); [congruence|].
    assert (Hlen := sort_length (a' :: l)).
    destruct (sort cmp (a' :: l)) as [|m srt] eqn:E; [discriminate|].
    simpl in Hl, Hlt, Hle. clear Hlen.
    destruct (Qle_bool (cmp a m) 0) eqn:C.
    + apply Qle_bool_iff in C. unfold cmp in C.
      exists [], (a' :: l). split; [reflexivity|]. split; [intros b []|].
      intros b Hb. rewrite Hl in Hb. apply in_app_or in Hb.
      destruct Hb as [Hb|[Hb|Hb]].
      * apply Hlt in Hb. lra.
      * subst b. lra.
      * apply Hle in Hb. lra.
    + assert (C' : ~ cmp a m <= 0) by (rewrite <- Qle_bool_iff; congruence).
      unfold cmp in C'.
      exists (a :: l1), l2. split; [now rewrite Hl|]. split; [|exact Hle].
      intros b [Hb|Hb]; [subst b; lra | now apply Hlt].
Qed.

End SortByKey.

(** The first of four sorted entries, case by case. *)
Lemma first_of_four (A : Type) (key : A -> Q) (d a b c e : A) :
  let m := hd d (sort (fun u v => key u - key v) [a; b; c; e]) in
  (m = a /\ key a <= key b /\ key a <= key c /\ key a <= key e)
  \/ (m = b /\ key b < key a /\ key b <= key c /\ key b <= key e)
  \/ (m = c /\ key c < key a /\ key c < key b /\ key c <= key e)
  \/ (m = e /\ key e < key a /\ key e < key b /\ key e < key c).
Proof.
  intros m.
  destruct (hd_sort_first_min A key d [a; b; c; e]) as (l1 & l2 & Hl & Hlt & Hle);
    [discriminate|].
  fold m in Hl, Hlt, Hle.
  destruct l1 as [|x1 [|x2 [|x3 [|x4 l1]]]]; simpl in Hl.
  - injection Hl as Hm Hl2. subst l2. left. split; [now symmetry|].
    rewrite <- Hm in Hle.
    repeat split; apply Hle; simpl; auto.
  - injection Hl as H1 Hm Hl2. subst l2 x1. right; left. split; [now symmetry|].
    rewrite <- Hm in Hle, Hlt.
    repeat split; (apply Hle || apply Hlt); simpl; auto.
  - injection Hl as H1 H2 Hm Hl2. subst l2 x1 x2. right; right; left.
    split; [now symmetry|]. rewrite <- Hm in Hle, Hlt.
    repeat split; (apply Hle || apply Hlt); simpl; auto.
  - injection Hl as H1 H2 H3 Hm Hl2. subst l2 x1 x2 x3. right; right; right.
    split; [now symmetry|]. rewrite <- Hm in Hlt.
    repeat split; apply Hlt; simpl; auto.
  - exfalso. apply (f_equal (@List.length A)) in Hl. simpl in Hl.
    rewrite length_app in Hl. simpl in Hl. lia.
Qed.

(** Sorting commutes with a relabelling of the entries that keeps the
    comparisons. *)
Lemma sort_insert_map {A B : Type} (f : A -> B)
    (cmpA : A -> A -> Q) (cmpB : B -> B -> Q) :
  (forall a b, cmpB (f a) (f b) = cmpA a b) ->
  forall a l, sort_insert cmpB (f a) (map f l) = map f (sort_insert cmpA a l).
Proof.
  intros Hc a l. induction l as [|b l IH]; [reflexivity|].
  simpl. rewrite Hc. destruct (Qle_bool (cmpA a b) 0); [reflexivity|].
  simpl. now rewrite IH.
Qed.

Lemma sort_map {A B : Type} (f : A -> B)
    (cmpA : A -> A -> Q) (cmpB : B -> B -> Q) :
  (forall a b, cmpB (f a) (f b) = cmpA a b) ->
  forall l, sort cmpB (map f l) = map f (sort cmpA l).
Proof.
  intros Hc l. induction l as [|a l IH]; [reflexivity|].
  change (sort cmpB (map f (a :: l)))
    with (sort_insert cmpB (f a) (sort cmpB (map f l))).
  rewrite IH. now apply sort_insert_map.
Qed.

Lemma sort_cons_nonempty {A : Type} (cmp : A -> A -> Q) (a : A) (l : list A) :
  exists m rest, sort cmp (a :: l) = m :: rest.
Proof.
  change (sort cmp (a :: l)) with (sort_insert cmp a (sort cmp l)).
  destruct (sort cmp l) as [|b l']; simpl; [now exists a, []|].
  destruct (Qle_bool (cmp a b) 0); eauto.
Qed.

(** The first of the four directions sorted by a gap that is a number in
    each direction: the first of the smallest. *)
Lemma first_direction_sorted (g : Direction -> Q) :
  exists rest,
    sort (fun u v => g u - g v) [Left; Right; Top; Bottom]
    = hd Left (sort (fun u v => g u - g v) [Left; Right; Top; Bottom]) :: rest.
Proof.
  pose proof (sort_length Direction g [Left; Right; Top; Bottom]) as Hlen.
  destruct (sort (fun u v => g u - g v) [Left; Right; Top; Bottom]) as [|m rest];
    [discriminate Hlen|].
  now exists rest.
Qed.

(** ** The gap/direction calculator *)

Ltac first_minimal_cases H :=
  destruct H as [(-> & ? & ? & ?)|[(-> & ? & ? & ?)|[(-> & ? & ? & ?)|(-> & ? & ? & ?)]]];
  simpl in *;
  (split; [reflexivity|]);
  (split; intros [] ; simpl; intros; try lia; try lra).

Lemma calculateGapAndDirection_first_minimal (node : Node) :
  let r := calculateGapAndDirection node in
  minGap r = gapOf r (minDir r) /\ firstMinimal (gapOf r) (minDir r).
Proof.
  unfold calculateGapAndDirection.
  destruct (match getOutermostFrame node with
            | Some outer => _ | None => _ end) as [[[lb tb] rb] bb].
  cbv zeta.
  match goal with
  | |- context [hd ?d (sort _ [?a; ?b; ?c; ?e])] =>
      pose proof (first_of_four GapEntry value d a b c e) as H; cbv zeta in H
  end.
  first_minimal_cases H.
Qed.

Lemma firstMinimal_sorted (g : Direction -> Q) :
  firstMinimal g (hd Left (sort (fun u v => g u - g v) [Left; Right; Top; Bottom])).
Proof.
  pose proof (first_of_four Direction g Left Left Right Top Bottom) as H.
  cbv zeta in H.
  destruct H as [(-> & ? & ? & ?)|[(-> & ? & ? & ?)|[(-> & ? & ? & ?)|(-> & ? & ? & ?)]]];
    (split; intros []; simpl; intros; try lia; try lra).
Qed.

Lemma realignDir_numbers (g : Direction -> Q) :
  realignDir (numberEntries g)
  = hd Left (sort (fun u v => g u - g v) [Left; Right; Top; Bottom]).
Proof.
  unfold realignDir, numberEntries.
  rewrite (sort_map (fun d => (d, Fin (g d))) (fun u v => g u - g v)
                    (fun a b => comparatorResult (Num_sub (snd a) (snd b))))
    by reflexivity.
  destruct (first_direction_sorted g) as (rest & ->). reflexivity.
Qed.

(** With its four bounds resolved, the realign loop holds the four signed
    gaps against them. *)
Lemma realignGaps_resolved (pageWidth pageHeight : Value) (icon : Node)
    (bounds : Q * Q * Q * Q) :
  resolvedBounds pageWidth pageHeight icon = Some bounds ->
  realignGaps pageWidth pageHeight icon
  = numberEntries (signedGaps (absoluteX icon) (absoluteY icon)
                              (width icon) (height icon) bounds).
Proof.
  unfold resolvedBounds, realignGaps, numberEntries.
  destruct (getOutermostFrame icon) as [outer|].
  - intros [= <-]. reflexivity.
  - destruct pageWidth as [|pw]; [discriminate|].
    destruct pageHeight as [|ph]; [discriminate|].
    intros [= <-]. reflexivity.
Qed.

Lemma realignDir_first_minimal (pageWidth pageHeight : Value) (icon : Node)
    (bounds : Q * Q * Q * Q) :
  resolvedBounds pageWidth pageHeight icon = Some bounds ->
  firstMinimal (signedGaps (absoluteX icon) (absoluteY icon)
                           (width icon) (height icon) bounds)
               (realignDir (realignGaps pageWidth pageHeight icon)).
Proof.
  intros Hb. rewrite (realignGaps_resolved _ _ _ _ Hb), realignDir_numbers.
  apply firstMinimal_sorted.
Qed.

(** Without a frame ancestor and without a size of the page, the right and
    the bottom gap are [NaN], every comparison of the sort has one of them
    on a side, and left stays first. *)
Lemma realignGaps_unresolved (icon : Node) :
  getOutermostFrame icon = None ->
  realignGaps undefined undefined icon
  = [ (Left, Fin (absoluteX icon - 0)); (Right, NaN);
      (Top, Fin (absoluteY icon - 0)); (Bottom, NaN) ]
  /\ realignDir (realignGaps undefined undefined icon) = Left.
Proof.
  intros Hnone. unfold realignDir, realignGaps. rewrite Hnone. split; reflexivity.
Qed.

(** C1. For every element with a resolved bounds context, the calculator
    returns the four signed gaps against the bounds in force
    (left = x - left bound, right = right bound - right edge,
    top = y - top bound, bottom = bottom bound - bottom edge) and the
    direction of the smallest gap under signed comparison, the first of
    left, right, top, bottom among equal smallest gaps; in the annotate
    path (sort of the four-entry array), where the bounds are resolved for
    every element, and in the realign path (sort of the entries of the
    gaps record), where they are resolved when each of the four bounds is
    a number. *)
Theorem C1_gaps_and_first_minimal_direction :
  forall (node : Node) (pageWidth pageHeight : Value),
    let x := absoluteX node in
    let y := absoluteY node in
    let w := width node in
    let h := height node in
    (let r := calculateGapAndDirection node in
     let '(l, t, rt, b) := boundsContext node (x, y, x + w, y + h) in
     gapLeft r = x - l /\ gapRight r = rt - (x + w)
     /\ gapTop r = y - t /\ gapBottom r = b - (y + h)
     /\ minGap r = gapOf r (minDir r)
     /\ firstMinimal (gapOf r) (minDir r))
    /\
    (forall l t rt b : Q,
       resolvedBounds pageWidth pageHeight node = Some (l, t, rt, b) ->
       let gaps := realignGaps pageWidth pageHeight node in
       gapIn gaps Left = Fin (x - l) /\ gapIn gaps Right = Fin (rt - (x + w))
       /\ gapIn gaps Top = Fin (y - t) /\ gapIn gaps Bottom = Fin (b - (y + h))
       /\ firstMinimal (signedGaps x y w h (l, t, rt, b)) (realignDir gaps)).
Proof.
  intros node pageWidth pageHeight x y w h. split.
  - pose proof (calculateGapAndDirection_first_minimal node) as [Hg Hm].
    cbv zeta. unfold boundsContext.
    assert (gapLeft (calculateGapAndDirection node)
            = x - match getOutermostFrame node with
                  | Some outer => absoluteX outer | None => x end
            /\ gapRight (calculateGapAndDirection node)
               = match getOutermostFrame node with
                 | Some outer => absoluteX outer + width outer
                 | None => x + w end - (x + w)
            /\ gapTop (calculateGapAndDirection node)
               = y - match getOutermostFrame node with
                     | Some outer => absoluteY outer | None => y end
            /\ gapBottom (calculateGapAndDirection node)
               = match getOutermostFrame node with
                 | Some outer => absoluteY outer + height outer
                 | None => y + h end - (y + h)) as Hgaps.
    { unfold calculateGapAndDirection.
      destruct (getOutermostFrame node); simpl; repeat split; reflexivity. }
    destruct Hgaps as (H1 & H2 & H3 & H4).
    destruct (getOutermostFrame node); repeat split; assumption || apply Hm.
  - intros l t rt b Hb. cbv zeta.
    pose proof (realignDir_first_minimal pageWidth pageHeight node _ Hb) as Hm.
    rewrite (realignGaps_resolved _ _ _ _ Hb).
    split; [reflexivity|]. split; [reflexivity|].
    split; [reflexivity|]. split; [reflexivity|].
    rewrite <- (realignGaps_resolved _ _ _ _ Hb). exact Hm.
Qed.

(** C1 at the element of the artboard, whose bounds context is the
    artboard whatever the page gives: the realign loop holds the gaps 100,
    251, 100 and -24. *)
Lemma C1_gaps_and_first_minimal_direction_witness :
  resolvedBounds undefined undefined overhangingIcon = Some (0, 0, 0 + 375, 0 + 100)
  /\ gapIn (realignGaps undefined undefined overhangingIcon) Bottom
     = Fin (0 + 100 - (100 + 24))
  /\ firstMinimal (signedGaps 100 100 24 24 (0, 0, 0 + 375, 0 + 100))
                  (realignDir (realignGaps undefined undefined overhangingIcon)).
Proof.
  split; [reflexivity|].
  destruct (proj2 (C1_gaps_and_first_minimal_direction overhangingIcon
                     undefined undefined)
                  0 0 (0 + 375) (0 + 100) eq_refl) as (_ & _ & _ & H4 & H5).
  split; [exact H4 | exact H5].
Defined.

(** ** The enclosing-container locator *)

Lemma lastOpt_cons {A : Type} (a : A) (l : list A) :
  lastOpt (a :: l) = match lastOpt l with Some b => Some b | None => Some a end.
Proof.
  revert a. induction l as [|b l IH]; intros a; [reflexivity|].
  change (lastOpt (a :: b :: l)) with (lastOpt (b :: l)).
  rewrite (IH b). now destruct (lastOpt l).
Qed.

Lemma lastOpt_None {A : Type} (l : list A) : lastOpt l = None <-> l = [].
Proof.
  split; [|now intros ->].
  destruct l as [|a l]; [reflexivity|].
  rewrite lastOpt_cons. now destruct (lastOpt l).
Qed.

Lemma getOutermostFrame_loop_spec (n : Node) :
  forall outer,
    getOutermostFrame_loop n outer =
    match lastOpt (frameAncestors n) with
    | Some f => Some f
    | None => outer
    end.
Proof.
  induction n as [i t n x y w h|i t n x y w h p IH] using Node_ind; intros outer.
  - reflexivity.
  - unfold frameAncestors. simpl.
    destruct (NodeType_eqb (type p) PAGE) eqn:Hp; [reflexivity|].
    rewrite IH. unfold frameAncestors. simpl.
    destruct (NodeType_eqb (type p) FRAME) eqn:Hf.
    + rewrite lastOpt_cons.
      now destruct (lastOpt (filter _ (belowPage (ancestors p)))).
    + reflexivity.
Qed.

Lemma getOutermostFrame_spec (n : Node) :
  getOutermostFrame n = lastOpt (frameAncestors n).
Proof.
  unfold getOutermostFrame. rewrite getOutermostFrame_loop_spec.
  now destruct (lastOpt (frameAncestors n)).
Qed.

(** C5. The locator walks the parent chain upward up to the canvas root and
    returns the last frame met, that is the outermost frame ancestor and
    not the innermost; it returns [null] exactly when there is no frame
    ancestor, and in particular for an element directly on the canvas. *)
Theorem C5_outermost_frame_ancestor :
  forall node : Node,
    getOutermostFrame node = lastOpt (frameAncestors node)
    /\ (getOutermostFrame node = None <-> frameAncestors node = [])
    /\ (forall p, parent node = Some p -> type p = PAGE ->
                  getOutermostFrame node = None)
    /\ (forall inner rest, frameAncestors node = inner :: rest -> rest <> [] ->
                           getOutermostFrame node = lastOpt rest)
    /\ (frameAncestors nestedIcon = [toolbar; artboard]
        /\ getOutermostFrame nestedIcon = Some artboard
        /\ getOutermostFrame nestedIcon <> Some toolbar).
Proof.
  intros node. rewrite getOutermostFrame_spec. split; [reflexivity|].
  split; [apply lastOpt_None|]. split; [|split].
  - intros p Hp Ht. destruct node as [i t n x y w h pr]. simpl in Hp. subst pr.
    unfold frameAncestors. simpl. now rewrite Ht.
  - intros inner rest -> Hrest. rewrite lastOpt_cons.
    destruct (lastOpt rest) eqn:E; [reflexivity|].
    apply lastOpt_None in E. contradiction.
  - split; [reflexivity|]. split; [reflexivity|]. discriminate.
Qed.

(** C5 at the element on the page and at the element under two frames. *)
Lemma C5_outermost_frame_ancestor_witness :
  (parent strayIcon = Some samplePage /\ type samplePage = PAGE
   /\ getOutermostFrame strayIcon = None)
  /\ (frameAncestors nestedIcon = toolbar :: [artboard] /\ [artboard] <> []
      /\ getOutermostFrame nestedIcon = lastOpt [artboard]).
Proof.
  split.
  - split; [reflexivity|]. split; [reflexivity|].
    exact (proj1 (proj2 (proj2 (C5_outermost_frame_ancestor strayIcon)))
                 samplePage eq_refl eq_refl).
  - split; [reflexivity|]. split; [discriminate|].
    apply (proj1 (proj2 (proj2 (proj2 (C5_outermost_frame_ancestor nestedIcon))))
                 toolbar [artboard]); [reflexivity | discriminate].
Defined.

(** ** The callout builder *)

Lemma Math_max_spec (a b : Q) :
  (b <= a -> Math_max a b == a) /\ (a < b -> Math_max a b == b).
Proof.
  unfold Math_max. destruct (Qle_bool a b) eqn:E.
  - apply Qle_bool_iff in E. split; intros; lra.
  - assert (~ a <= b) by (rewrite <- Qle_bool_iff; congruence). split; intros; lra.
Qed.

Lemma cardOf_single (wrapper card : SceneNode) :
  s_children wrapper = [card] -> isCard card = true -> cardOf wrapper = Some card.
Proof.
  destruct wrapper as [i t n x y w h l d m c cs]. simpl. intros -> Hc.
  unfold cardOf. simpl. now rewrite Hc.
Qed.

Lemma minGap_is_gap_of_minDir (node : Node) :
  minGap (calculateGapAndDirection node)
  = gapOf (calculateGapAndDirection node) (minDir (calculateGapAndDirection node)).
Proof. apply calculateGapAndDirection_first_minimal. Qed.

Section Builder.

Variable measure : SceneNode -> Q * Q.
Variable nodeId : nat -> string.

Let build := createAnnotationGroup measure nodeId.

(** What [createAnnotationGroup] returns: a locked group named after the
    token that holds the card alone, the card holding dot, connector and
    label in the order of the direction, the connector sized from the gap
    of the direction, and the origin read from the two tables. *)
Lemma createAnnotationGroup_shape (node : Node) (labelFrame : SceneNode)
    (uuid : string) (s : Figma) :
  let r := calculateGapAndDirection node in
  let wrapper := fst (build node labelFrame uuid s) in
  exists circle vector card,
    s_children wrapper = [card]
    /\ isCard card = true
    /\ s_children card =
       match minDir r with
       | Right | Bottom => [circle; vector; labelFrame]
       | Left | Top => [labelFrame; vector; circle]
       end
    /\ s_layoutMode card =
       match minDir r with Right | Left => HORIZONTAL | Top | Bottom => VERTICAL end
    /\ (s_width vector, s_height vector) =
       match minDir r with
       | Right | Left => (Math_max (gapOf r (minDir r) + 66) 60, 2)
       | Top | Bottom => (2, Math_max (gapOf r (minDir r) + 66) 60)
       end
    /\ s_x wrapper = groupXMap (absoluteX node) (width node) (s_width card) (minDir r)
    /\ s_y wrapper = groupYMap (absoluteY node) (height node) (s_height card) (minDir r)
    /\ s_name wrapper = ("iconAnnotation-" ++ uuid)%string
    /\ s_type wrapper = GROUP
    /\ s_locked wrapper = true
    /\ getPluginData "targetId" wrapper = id node
    /\ getPluginData "uuid" wrapper = uuid.
Proof.
  intros r wrapper. subst wrapper build. unfold createAnnotationGroup.
  assert (Hx : res_x (calculateGapAndDirection node) = absoluteX node).
  { unfold calculateGapAndDirection.
    now destruct (match getOutermostFrame node with Some _ => _ | None => _ end)
      as [[[? ?] ?] ?]. }
  assert (Hy : res_y (calculateGapAndDirection node) = absoluteY node).
  { unfold calculateGapAndDirection.
    now destruct (match getOutermostFrame node with Some _ => _ | None => _ end)
      as [[[? ?] ?] ?]. }
  fold r in Hx, Hy |- *. clearbody r. cbv zeta. rewrite Hx, Hy.
  destruct (minDir r) eqn:Hd; cbn;
    do 3 eexists; repeat split; try reflexivity.
Qed.

(** C2. The connector built by [createAnnotationGroup] has length
    [max(g + 66, 60)], [g] being the gap of the chosen direction; the
    length assigned in the branch of the direction equals the one first
    computed from [minGap]; the padding-dominant case ([g + 66 >= 60]) and
    the minimum-dominant case ([g + 66 < 60]) both occur. *)
Theorem C2_connector_length :
  forall (node : Node) (labelFrame : SceneNode) (uuid : string) (s : Figma),
    let r := calculateGapAndDirection node in
    let g := gapOf r (minDir r) in
    let wrapper := fst (build node labelFrame uuid s) in
    connectorLength wrapper = Some (Math_max (g + 66) 60)
    /\ lineLength node = (Math_max (minGap r + 66) 60, Math_max (g + 66) 60)
    /\ snd (lineLength node) = fst (lineLength node)
    /\ (60 <= g + 66 -> Math_max (g + 66) 60 == g + 66)
    /\ (g + 66 < 60 -> Math_max (g + 66) 60 == 60)
    /\ (let r' := calculateGapAndDirection strayIcon in
        60 <= gapOf r' (minDir r') + 66
        /\ connectorLength (fst (build strayIcon labelFrame uuid s)) = Some 66)
    /\ (let r' := calculateGapAndDirection overhangingIcon in
        gapOf r' (minDir r') + 66 < 60
        /\ connectorLength (fst (build overhangingIcon labelFrame uuid s)) = Some 60).
Proof.
  intros node labelFrame uuid s r g wrapper.
  assert (Hlen : forall n,
             connectorLength (fst (build n labelFrame uuid s))
             = Some (Math_max (gapOf (calculateGapAndDirection n)
                                     (minDir (calculateGapAndDirection n)) + 66) 60)).
  { intros n.
    destruct (createAnnotationGroup_shape n labelFrame uuid s)
      as (circle & vector & card & Hc & Hcard & Hch & Hmode & Hsize & _).
    unfold connectorLength. rewrite (cardOf_single _ _ Hc Hcard), Hch, Hmode.
    destruct (minDir (calculateGapAndDirection n));
      injection Hsize as Hw Hh; now rewrite ?Hw, ?Hh. }
  assert (Hline : lineLength node = (Math_max (minGap r + 66) 60, Math_max (g + 66) 60)).
  { unfold lineLength. fold r. subst g. now destruct (minDir r). }
  split; [apply Hlen|]. split; [exact Hline|]. split.
  { rewrite Hline. simpl. subst g r. now rewrite minGap_is_gap_of_minDir. }
  split; [apply Math_max_spec|]. split; [apply Math_max_spec|]. split.
  - cbv zeta. rewrite Hlen. split; [vm_compute; discriminate | reflexivity].
  - cbv zeta. rewrite Hlen. split; [reflexivity | reflexivity].
Qed.

(** The two positioning tables are one table: the realign loop reads the
    origin the builder reads, and both are the origin of the
    specification. *)
Lemma positions_same_as_builder (d : Direction) (x y w h A_w A_h : Q) :
  positions x y w h A_w A_h d = (groupXMap x w A_w d, groupYMap y h A_h d)
  /\ positions x y w h A_w A_h d = wrapperOrigin d x y w h A_w A_h.
Proof. now destruct d. Qed.

(** The turn of the realign loop for a wrapper whose target resolves and
    whose card is found. *)
Lemma realignWrapper_moves (wrapper : SceneNode) (icon : Node) (frame : SceneNode)
    (realigned removed : nat) (s : Figma) :
  String.prefix "iconAnnotation-" (s_name wrapper) = true ->
  nodeById s (getPluginData "iconId" wrapper) = Some icon ->
  findOne isCard wrapper = Some frame ->
  let page := currentPage s in
  let d := realignDir (realignGaps (page_width page) (page_height page) icon) in
  let p := positions (absoluteX icon) (absoluteY icon) (width icon) (height icon)
                     (s_width frame) (s_height frame) d in
  realignWrapper wrapper realigned removed s
  = (([set_xy (fst p) (snd p) wrapper], S realigned, removed), s).
Proof.
  intros Hn Hi Hf. unfold realignWrapper. rewrite Hn. simpl.
  unfold bind, gets, ret. rewrite Hi, Hf. reflexivity.
Qed.

(** C4. For the element at (100,100) of size 24 x 24 whose outermost frame
    is at (0,0) with size 375 x 100, the gaps are left 100, right 251,
    top 100, bottom -24; bottom is chosen although its gap is negative; the
    wrapper is placed at x = 100 + 24/2 - A_w/2, y = 100 + 24, [A_w] being
    the measured width of the assembly. *)
Theorem C4_overhanging_element_goes_below :
  forall (labelFrame : SceneNode) (uuid : string) (s : Figma),
    let r := calculateGapAndDirection overhangingIcon in
    let wrapper := fst (build overhangingIcon labelFrame uuid s) in
    (absoluteX overhangingIcon, absoluteY overhangingIcon,
     width overhangingIcon, height overhangingIcon) = (100, 100, 24, 24)
    /\ (exists outer, getOutermostFrame overhangingIcon = Some outer
        /\ (absoluteX outer, absoluteY outer, width outer, height outer)
           = (0, 0, 375, 100))
    /\ gapLeft r = 100 /\ gapRight r = 251 /\ gapTop r = 100 /\ gapBottom r = -24
    /\ minDir r = Bottom /\ minGap r = -24
    /\ (exists card, cardOf wrapper = Some card
        /\ s_x wrapper = 100 + 24 / 2 - s_width card / 2
        /\ s_y wrapper = 100 + 24
        /\ (s_x wrapper, s_y wrapper)
           = wrapperOrigin Bottom 100 100 24 24 (s_width card) (s_height card)).
Proof.
  intros labelFrame uuid s r wrapper.
  split; [reflexivity|]. split; [exists artboard; split; reflexivity|].
  do 6 (split; [reflexivity|]).
  destruct (createAnnotationGroup_shape overhangingIcon labelFrame uuid s)
    as (circle & vector & card & Hc & Hcard & _ & _ & _ & Hx & Hy & _).
  fold wrapper in Hc, Hx, Hy. exists card.
  split; [now apply cardOf_single|].
  rewrite Hx, Hy. repeat split; reflexivity.
Qed.

(** C6. The wrapper origin follows four formulas, one per direction:
    right (x + w, y + h/2 - A_h/2), left (x - A_w, y + h/2 - A_h/2),
    top (x + w/2 - A_w/2, y - A_h), bottom (x + w/2 - A_w/2, y + h), from
    the element's absolute position and size and the measured size of the
    assembly; the realign loop uses the same four formulas with the
    current size of the wrapper's inner card. *)
Theorem C6_wrapper_origin_formulas :
  forall (node : Node) (labelFrame : SceneNode) (uuid : string) (s : Figma)
         (wrapper' : SceneNode) (frame : SceneNode) (realigned removed : nat),
    String.prefix "iconAnnotation-" (s_name wrapper') = true ->
    nodeById s (getPluginData "iconId" wrapper') = Some node ->
    findOne isCard wrapper' = Some frame ->
    let x := absoluteX node in
    let y := absoluteY node in
    let w := width node in
    let h := height node in
    (let r := calculateGapAndDirection node in
     let wrapper := fst (build node labelFrame uuid s) in
     exists card, cardOf wrapper = Some card
       /\ (s_x wrapper, s_y wrapper)
          = wrapperOrigin (minDir r) x y w h (s_width card) (s_height card))
    /\
    (let page := currentPage s in
     let d := realignDir (realignGaps (page_width page) (page_height page) node) in
     exists moved,
       fst (realignWrapper wrapper' realigned removed s)
       = ([moved], S realigned, removed)
       /\ (s_x moved, s_y moved)
          = wrapperOrigin d x y w h (s_width frame) (s_height frame)
       /\ s_children moved = s_children wrapper'
       /\ findOne isCard moved = Some frame)
    /\
    (forall d A_w A_h,
        positions x y w h A_w A_h d = (groupXMap x w A_w d, groupYMap y h A_h d)).
Proof.
  intros node labelFrame uuid s wrapper' frame realigned removed Hn Hi Hf x y w h.
  split; [|split].
  - cbv zeta.
    destruct (createAnnotationGroup_shape node labelFrame uuid s)
      as (circle & vector & card & Hc & Hcard & _ & _ & _ & Hx & Hy & _).
    exists card. split; [now apply cardOf_single|].
    rewrite Hx, Hy.
    now destruct (minDir (calculateGapAndDirection node)).
  - cbv zeta. rewrite (realignWrapper_moves _ _ _ _ _ _ Hn Hi Hf). simpl.
    eexists. split; [reflexivity|]. split.
    + destruct wrapper'; simpl.
      now destruct (realignDir _).
    + split; [now destruct wrapper'|].
      destruct wrapper'; exact Hf.
  - intros d A_w A_h. apply positions_same_as_builder.
Qed.

End Builder.

(** C2 at the two sample elements: gap 0 (66 long) and gap -24 (60 long). *)
Lemma C2_connector_length_witness :
  (60 <= 0 + 66 /\ Math_max (0 + 66) 60 == 0 + 66)
  /\ (-24 + 66 < 60 /\ Math_max (-24 + 66) 60 == 60).
Proof.
  split.
  - split; [vm_compute; discriminate|].
    apply (proj1 (proj2 (proj2 (proj2
             (C2_connector_length sampleMeasure sampleNodeId
                strayIcon sampleLabel "17000000000000" sampleState))))).
    vm_compute. discriminate.
  - split; [reflexivity|].
    apply (proj1 (proj2 (proj2 (proj2 (proj2
             (C2_connector_length sampleMeasure sampleNodeId
                overhangingIcon sampleLabel "17000000000000" sampleState)))))).
    reflexivity.
Defined.

Lemma sampleCard_overhanging :
  findOne isCard (sampleWrapper overhangingIcon) = Some (sampleCard overhangingIcon).
Proof. vm_compute. reflexivity. Qed.

Lemma sampleCard_stray :
  findOne isCard (sampleWrapper strayIcon) = Some (sampleCard strayIcon).
Proof. vm_compute. reflexivity. Qed.

(** C6 at the wrapper of the element in the artboard. *)
Lemma C6_wrapper_origin_formulas_witness :
  String.prefix "iconAnnotation-" (s_name (sampleWrapper overhangingIcon)) = true
  /\ nodeById sampleState (getPluginData "iconId" (sampleWrapper overhangingIcon))
     = Some overhangingIcon
  /\ findOne isCard (sampleWrapper overhangingIcon) = Some (sampleCard overhangingIcon)
  /\ (exists moved,
        fst (realignWrapper (sampleWrapper overhangingIcon) 0 0 sampleState)
        = ([moved], 1%nat, 0%nat)
        /\ (s_x moved, s_y moved)
           = wrapperOrigin Bottom 100 100 24 24
               (s_width (sampleCard overhangingIcon))
               (s_height (sampleCard overhangingIcon))).
Proof.
  split; [reflexivity|]. split; [reflexivity|].
  split; [exact sampleCard_overhanging|].
  destruct (proj1 (proj2 (C6_wrapper_origin_formulas sampleMeasure sampleNodeId
                            overhangingIcon sampleLabel "17000000000000" sampleState
                            (sampleWrapper overhangingIcon)
                            (sampleCard overhangingIcon) 0%nat 0%nat
                            eq_refl eq_refl sampleCard_overhanging)))
    as (moved & Hm & Hxy & _).
  exists moved. split; [exact Hm | exact Hxy].
Defined.

(** ** The two builds of the calculator *)

Lemma no_frame_gaps_zero (node : Node) :
  getOutermostFrame node = None ->
  let r := calculateGapAndDirection node in
  gapLeft r == 0 /\ gapRight r == 0 /\ gapTop r == 0 /\ gapBottom r == 0
  /\ minDir r = Left /\ minGap r == 0.
Proof.
  intros Hnone r.
  assert (Hz : forall d, gapOf r d == 0).
  { subst r. unfold calculateGapAndDirection. rewrite Hnone.
    intros []; simpl; ring. }
  pose proof (calculateGapAndDirection_first_minimal node) as [Hg [_ Hfirst]].
  fold r in Hg, Hfirst.
  assert (Hd : minDir r = Left).
  { destruct (minDir r) eqn:E; [reflexivity| | |];
      (assert (Hlt : gapOf r (minDir r) < gapOf r Left)
        by (rewrite E; apply Hfirst; simpl; lia));
      rewrite E, !Hz in Hlt; lra. }
  split; [apply (Hz Left)|]. split; [apply (Hz Right)|].
  split; [apply (Hz Top)|]. split; [apply (Hz Bottom)|].
  split; [exact Hd|]. rewrite Hg. apply Hz.
Qed.

(** The first entry of the array of the TypeScript source when its four
    values are numbers: the entry the compiled build finds. *)
Lemma ts_first_of_numbers (a b c e : Q) :
  let first := hd (mkGap Left a)
                  (sort (fun u v => value u - value v)
                        [mkGap Left a; mkGap Right b; mkGap Top c; mkGap Bottom e]) in
  hd (mkTsGap Left (Fin a))
     (sort (fun u v => comparatorResult (Num_sub (ts_value u) (ts_value v)))
           [mkTsGap Left (Fin a); mkTsGap Right (Fin b);
            mkTsGap Top (Fin c); mkTsGap Bottom (Fin e)])
  = mkTsGap (dir first) (Fin (value first)).
Proof.
  cbv zeta.
  change [mkTsGap Left (Fin a); mkTsGap Right (Fin b);
          mkTsGap Top (Fin c); mkTsGap Bottom (Fin e)]
    with (map (fun g => mkTsGap (dir g) (Fin (value g)))
              [mkGap Left a; mkGap Right b; mkGap Top c; mkGap Bottom e]).
  rewrite (sort_map (fun g => mkTsGap (dir g) (Fin (value g)))
                    (fun u v => value u - value v)
                    (fun u v => comparatorResult (Num_sub (ts_value u) (ts_value v))))
    by reflexivity.
  pose proof (sort_length GapEntry value
                [mkGap Left a; mkGap Right b; mkGap Top c; mkGap Bottom e]) as Hlen.
  destruct (sort (fun u v => value u - value v)
                 [mkGap Left a; mkGap Right b; mkGap Top c; mkGap Bottom e])
    as [|m rest]; [discriminate Hlen | reflexivity].
Qed.

(** Under a frame the two builds compute the same object. *)
Lemma ts_is_js_under_a_frame (pageWidth pageHeight : Value) (node outer : Node) :
  getOutermostFrame node = Some outer ->
  calculateGapAndDirection_ts pageWidth pageHeight node
  = asTs (calculateGapAndDirection node).
Proof.
  intros E. unfold calculateGapAndDirection_ts, calculateGapAndDirection.
  rewrite E. cbv zeta. cbn [ToNumber Num_sub]. rewrite ts_first_of_numbers.
  reflexivity.
Qed.

(** The realign loop sorts the entries the TypeScript source sorts. *)
Lemma realignDir_is_ts_minDir (pageWidth pageHeight : Value) (icon : Node) :
  realignDir (realignGaps pageWidth pageHeight icon)
  = ts_minDir (calculateGapAndDirection_ts pageWidth pageHeight icon).
Proof.
  unfold realignDir, calculateGapAndDirection_ts, realignGaps. cbv zeta.
  match goal with
  | |- fst (hd _ (sort _ [(Left, ?a); (Right, ?b); (Top, ?c); (Bottom, ?e)])) = _ =>
      change [mkTsGap Left a; mkTsGap Right b; mkTsGap Top c; mkTsGap Bottom e]
        with (map (fun p : Direction * Num => mkTsGap (fst p) (snd p))
                  [(Left, a); (Right, b); (Top, c); (Bottom, e)]);
      rewrite (sort_map (fun p : Direction * Num => mkTsGap (fst p) (snd p))
                 (fun u v => comparatorResult (Num_sub (snd u) (snd v)))
                 (fun u v => comparatorResult (Num_sub (ts_value u) (ts_value v))))
        by reflexivity;
      destruct (sort_cons_nonempty
                  (fun u v => comparatorResult (Num_sub (snd u) (snd v)))
                  (Left, a) [(Right, b); (Top, c); (Bottom, e)]) as (m & rest & E)
  end.
  rewrite E. reflexivity.
Qed.

Lemma realignGaps_are_ts_gaps (pageWidth pageHeight : Value) (icon : Node)
    (d : Direction) :
  gapIn (realignGaps pageWidth pageHeight icon) d
  = gapOf_ts (calculateGapAndDirection_ts pageWidth pageHeight icon) d.
Proof. destruct d; reflexivity. Qed.

Lemma realignDir_under_a_frame (node outer : Node) (pageWidth pageHeight : Value) :
  getOutermostFrame node = Some outer ->
  realignDir (realignGaps pageWidth pageHeight node)
  = minDir (calculateGapAndDirection node).
Proof.
  intros E.
  now rewrite realignDir_is_ts_minDir, (ts_is_js_under_a_frame _ _ node outer E).
Qed.

(** Without a frame ancestor and without a size of the page, the
    TypeScript source computes what the realign loop computes: [NaN] to
    the right and to the bottom, and left first. *)
Lemma ts_unresolved (node : Node) :
  getOutermostFrame node = None ->
  let ts := calculateGapAndDirection_ts undefined undefined node in
  (ts_gapLeft ts = Fin (absoluteX node - 0) /\ ts_gapRight ts = NaN
   /\ ts_gapTop ts = Fin (absoluteY node - 0) /\ ts_gapBottom ts = NaN)
  /\ ts_minDir ts = Left /\ ts_minGap ts = Fin (absoluteX node - 0).
Proof.
  intros Hnone. unfold calculateGapAndDirection_ts. rewrite Hnone.
  repeat split; reflexivity.
Qed.

(** C10 (failing input). The compiled build and the TypeScript source of
    [calculateGapAndDirection] agree on every element with a frame
    ancestor.  Without one the compiled build measures against the
    element's own bounds: the four gaps are zero, the direction is left and
    the connector is 66 long.  The TypeScript source measures the left and
    the top gap from the origin of the canvas, but the width and the
    height it asks the page for are missing: the right and the bottom gap
    are [NaN], the sort leaves left first, and the direction is the one of
    the compiled build, for every such element; on the element at (500,20)
    the two builds differ in their gaps (500 against 0) and not in their
    direction. *)
Theorem C10_builds_differ_in_gaps_not_in_direction :
  forall (page node : Node),
    let x := absoluteX node in
    let y := absoluteY node in
    let js := calculateGapAndDirection node in
    let ts := calculateGapAndDirection_ts (page_width page) (page_height page) node in
    match getOutermostFrame node with
    | Some _ => ts = asTs js
    | None =>
        (gapLeft js == 0 /\ gapRight js == 0 /\ gapTop js == 0 /\ gapBottom js == 0)
        /\ minDir js = Left
        /\ snd (lineLength node) == 66
        /\ (ts_gapLeft ts = Fin (x - 0) /\ ts_gapRight ts = NaN
            /\ ts_gapTop ts = Fin (y - 0) /\ ts_gapBottom ts = NaN)
        /\ ts_minDir ts = minDir js
        /\ ts_minGap ts = Fin (x - 0)
    end
    /\ (getOutermostFrame strayIcon = None
        /\ minDir (calculateGapAndDirection strayIcon) = Left
        /\ ts_minDir (calculateGapAndDirection_ts (page_width page) (page_height page)
                                                  strayIcon) = Left
        /\ ts_gapLeft (calculateGapAndDirection_ts (page_width page) (page_height page)
                                                   strayIcon) = Fin 500
        /\ gapLeft (calculateGapAndDirection strayIcon) = 0
        /\ calculateGapAndDirection_ts (page_width page) (page_height page) strayIcon
           <> asTs (calculateGapAndDirection strayIcon)).
Proof.
  intros page node x y js ts. split.
  - destruct (getOutermostFrame node) as [outer|] eqn:E.
    + subst js ts. exact (ts_is_js_under_a_frame _ _ node outer E).
    + destruct (no_frame_gaps_zero node E) as (H1 & H2 & H3 & H4 & Hd & Hg).
      fold js in H1, H2, H3, H4, Hd, Hg.
      destruct (ts_unresolved node E) as (Hgaps & Hdir & Hmin).
      split; [repeat split; assumption|]. split; [exact Hd|]. split.
      * unfold lineLength. cbv zeta. simpl snd. fold js. rewrite Hd.
        destruct (Math_max_spec (gapLeft js + 66) 60) as [Hmax _].
        apply Qeq_trans with (gapLeft js + 66); [apply Hmax; lra | lra].
      * split; [exact Hgaps|]. split; [rewrite Hd; exact Hdir | exact Hmin].
  - split; [reflexivity|]. split; [reflexivity|]. split; [reflexivity|].
    split; [reflexivity|]. split; [reflexivity|]. discriminate.
Qed.

(** ** The fallback of the realign loop *)

(** The turn of the realign loop for a target without a frame ancestor:
    the right and the bottom gap are [NaN], left is chosen, and the
    wrapper goes to the left of its target. *)
Lemma realignWrapper_without_a_frame (wrapper : SceneNode) (icon : Node)
    (frame : SceneNode) (realigned removed : nat) (s : Figma) :
  String.prefix "iconAnnotation-" (s_name wrapper) = true ->
  nodeById s (getPluginData "iconId" wrapper) = Some icon ->
  findOne isCard wrapper = Some frame ->
  getOutermostFrame icon = None ->
  let page := currentPage s in
  let gaps := realignGaps (page_width page) (page_height page) icon in
  gaps = [ (Left, Fin (absoluteX icon - 0)); (Right, NaN);
           (Top, Fin (absoluteY icon - 0)); (Bottom, NaN) ]
  /\ realignDir gaps = Left
  /\ realignWrapper wrapper realigned removed s
     = (([set_xy (absoluteX icon - s_width frame)
                 (absoluteY icon + height icon / 2 - s_height frame / 2) wrapper],
         S realigned, removed), s).
Proof.
  intros Hn Hi Hf Hnone page gaps.
  destruct (realignGaps_unresolved icon Hnone) as [Hg Hd].
  split; [exact Hg|]. split; [exact Hd|].
  rewrite (realignWrapper_moves _ _ _ _ _ _ Hn Hi Hf). cbv zeta.
  change (page_width (currentPage s)) with undefined.
  change (page_height (currentPage s)) with undefined.
  rewrite Hd. reflexivity.
Qed.

Lemma sampleWrapper_stray_in_place :
  set_xy (absoluteX strayIcon - s_width (sampleCard strayIcon))
         (absoluteY strayIcon + height strayIcon / 2 - s_height (sampleCard strayIcon) / 2)
         (sampleWrapper strayIcon)
  = sampleWrapper strayIcon.
Proof. vm_compute. reflexivity. Qed.

(** C3 (failing input). For the wrapper of the element directly on the
    page, at (500,20) of size 24 x 24, the realign loop does not measure
    against the element's own bounds, as the compiled calculator does for
    such an element: it measures the left and the top gap from the origin
    of the canvas, 500 and 20, and asks the page for a width and a height
    it does not have, so that the right and the bottom gap are [NaN].  No
    gap is zero.  The sort leaves left first, which is also the direction
    of four zero gaps: the wrapper stays where the builder put it. *)
Theorem C3_realign_of_an_element_on_the_page :
  let page := currentPage sampleState in
  let gaps := realignGaps (page_width page) (page_height page) strayIcon in
  let js := calculateGapAndDirection strayIcon in
  String.prefix "iconAnnotation-" (s_name (sampleWrapper strayIcon)) = true
  /\ nodeById sampleState (getPluginData "iconId" (sampleWrapper strayIcon))
     = Some strayIcon
  /\ getOutermostFrame strayIcon = None
  /\ (gapLeft js, gapRight js, gapTop js, gapBottom js) = (0, 0, 0, 0)
  /\ gaps = [(Left, Fin 500); (Right, NaN); (Top, Fin 20); (Bottom, NaN)]
  /\ (forall d, gapIn gaps d <> Fin 0)
  /\ realignDir gaps = Left
  /\ realignWrapper (sampleWrapper strayIcon) 0 0 sampleState
     = (([sampleWrapper strayIcon], 1%nat, 0%nat), sampleState).
Proof.
  cbv zeta.
  destruct (realignWrapper_without_a_frame (sampleWrapper strayIcon) strayIcon
              (sampleCard strayIcon) 0 0 sampleState
              eq_refl eq_refl sampleCard_stray eq_refl) as (Hg & Hd & Hw).
  cbv zeta in Hg, Hd, Hw.
  split; [reflexivity|]. split; [reflexivity|]. split; [reflexivity|].
  split; [reflexivity|]. split; [exact Hg|].
  split; [intros []; rewrite Hg; discriminate|].
  split; [exact Hd|].
  rewrite Hw.
  exact (f_equal (fun w => (([w], 1%nat, 0%nat), sampleState))
                 sampleWrapper_stray_in_place).
Qed.

(** ** The anchor-group resolver *)

Lemma getMainGroup_unfold (s : Figma) :
  getMainGroup s =
  match cachedMainGroup s with
  | Some node => (Some node, s)
  | None =>
      match find isMainGroup (page_children s) with
      | Some node =>
          (Some node,
           with_page_pluginData
             (storeData "mainGroupId" (s_id node) (page_pluginData s)) s)
      | None => (None, s)
      end
  end.
Proof.
  cbv beta iota zeta
      delta [getMainGroup cachedMainGroup bind gets ret getNodeByIdAsync modify].
  destruct (String.eqb (lookupData "mainGroupId" (page_pluginData s)) "").
  - now destruct (find isMainGroup (page_children s)).
  - destruct (findByIdIn _ (page_children s ++ elsewhere s)) as [node|].
    + destruct (isMainGroup node); [reflexivity|].
      now destruct (find isMainGroup (page_children s)).
    + now destruct (find isMainGroup (page_children s)).
Qed.

Lemma cachedMainGroup_sound (s : Figma) (node : SceneNode) :
  cachedMainGroup s = Some node -> isMainGroup node = true.
Proof.
  unfold cachedMainGroup.
  destruct (String.eqb _ ""); [discriminate|].
  destruct (findByIdIn _ _) as [n|]; [|discriminate].
  destruct (isMainGroup n) eqn:E; [|discriminate].
  now intros [= <-].
Qed.

(** The resolver returns nothing but a group with the exact name, and
    returns nothing only when no immediate child of the page is one. *)
Lemma getMainGroup_sound (s : Figma) :
  match fst (getMainGroup s) with
  | Some node => s_type node = GROUP /\ s_name node = mainGroupName
  | None => forall c, In c (page_children s) -> isMainGroup c = false
  end.
Proof.
  assert (Hm : forall n, isMainGroup n = true ->
                         s_type n = GROUP /\ s_name n = mainGroupName).
  { intros n H. unfold isMainGroup in H. apply andb_true_iff in H as [Ht Hn].
    split; [now destruct (s_type n) | now apply String.eqb_eq]. }
  rewrite getMainGroup_unfold.
  destruct (cachedMainGroup s) as [node|] eqn:Ec.
  - apply Hm. eapply cachedMainGroup_sound; eassumption.
  - destruct (find isMainGroup (page_children s)) as [node|] eqn:Ef; simpl.
    + apply Hm. now apply find_some in Ef.
    + intros c Hc. eapply find_none in Ef; eassumption.
Qed.

(** ** The annotate workflow *)

Lemma sameHost_refl (s : Figma) : sameHost s s.
Proof. repeat split. Qed.

Lemma sameHost_trans (s1 s2 s3 : Figma) :
  sameHost s1 s2 -> sameHost s2 s3 -> sameHost s1 s3.
Proof.
  unfold sameHost. intros (A1 & A2 & A3 & A4 & A5 & A6) (B1 & B2 & B3 & B4 & B5 & B6).
  repeat split; congruence.
Qed.

Lemma prefix_append (p x : string) : String.prefix p (p ++ x)%string = true.
Proof.
  induction p as [|a p IH]; simpl.
  - now destruct x.
  - destruct (ascii_dec a a); [exact IH | congruence].
Qed.

Section Annotate.

Variable measure : SceneNode -> Q * Q.
Variable nodeId : nat -> string.
Variable token : nat -> string.

Lemma annotateAccepted_result (icon : Node) (originalName : string)
    (wrappers : list SceneNode) (mainGroup : option SceneNode) (s : Figma) :
  exists wrapper s',
    annotateAccepted measure nodeId token icon originalName wrappers mainGroup s
    = ((wrappers ++ [wrapper],
        option_map (renameById (id icon)
                               (originalName ++ "-" ++ token (minted s))%string)
                   mainGroup), s')
    /\ String.prefix "iconAnnotation-" (s_name wrapper) = true
    /\ s_type wrapper = GROUP
    /\ getPluginData "iconId" wrapper = id icon
    /\ notifications s' = notifications s
    /\ page_pluginData s' = page_pluginData s
    /\ page_children s'
       = map (renameById (id icon) (originalName ++ "-" ++ token (minted s))%string)
             (page_children s)
    /\ sameHost s s'.
Proof.
  unfold annotateAccepted, createAnnotationGroup.
  set (r := calculateGapAndDirection icon). clearbody r.
  cbv beta iota zeta
      delta [bind ret mintToken createFrame createText createEllipse createVector
             createNode figma_group renameNode modify fst snd].
  do 2 eexists. split; [reflexivity|].
  split; [apply prefix_append|].
  split; [reflexivity|]. split; [reflexivity|].
  repeat split.
Qed.

Lemma annotateIcon_accepts (icon : Node)
    (wrappers : list SceneNode) (mainGroup : option SceneNode) (s : Figma) :
  passesPrefixCheck s icon = true ->
  exists wrapper mainGroup' s',
    annotateIcon measure nodeId token icon wrappers mainGroup s
    = ((wrappers ++ [wrapper], mainGroup'), s')
    /\ String.prefix "iconAnnotation-" (s_name wrapper) = true
    /\ getPluginData "iconId" wrapper = id icon
    /\ option_map (fun g => List.length (s_children g)) mainGroup'
       = option_map (fun g => List.length (s_children g)) mainGroup
    /\ notifications s' = notifications s
    /\ sameHost s s'.
Proof.
  intros Hp.
  assert (Hlen : forall i v,
             option_map (fun g => List.length (s_children g))
                        (option_map (renameById i v) mainGroup)
             = option_map (fun g => List.length (s_children g)) mainGroup).
  { intros i v. destruct mainGroup as [[gi gt gn gx gy gw gh gl gd gm gc gcs]|];
      [|reflexivity].
    simpl. destruct (String.eqb gi i); simpl; now rewrite length_map. }
  unfold passesPrefixCheck, applicableName in Hp. unfold annotateIcon.
  destruct (type icon);
    try (rewrite Hp;
         destruct (annotateAccepted_result icon (name icon) wrappers mainGroup s)
           as (w & s' & E & H1 & _ & H2 & H3 & _ & _ & H4);
         exists w; eexists; exists s'; rewrite E;
         repeat split; (assumption || apply Hlen || apply H4)).
  unfold bind, gets.
  destruct (mainComponentOf s (id icon)) as [compName|]; [|discriminate].
  rewrite Hp.
  destruct (annotateAccepted_result icon compName wrappers mainGroup s)
    as (w & s' & E & H1 & _ & H2 & H3 & _ & _ & H4).
  exists w; eexists; exists s'; rewrite E.
  repeat split; (assumption || apply Hlen || apply H4).
Qed.

Lemma annotateIcon_rejects (icon : Node)
    (wrappers : list SceneNode) (mainGroup : option SceneNode) (s : Figma) :
  passesPrefixCheck s icon = false ->
  exists warning s',
    annotateIcon measure nodeId token icon wrappers mainGroup s
    = ((wrappers, mainGroup), s')
    /\ notifications s' = notifications s ++ [warning]
    /\ page_children s' = page_children s
    /\ elsewhere s' = elsewhere s
    /\ page_pluginData s' = page_pluginData s
    /\ sameHost s s'.
Proof.
  intros Hp. unfold passesPrefixCheck, applicableName in Hp. unfold annotateIcon.
  destruct (type icon);
    try (rewrite Hp; do 2 eexists; split; [reflexivity|]; repeat split).
  unfold bind, gets.
  destruct (mainComponentOf s (id icon)) as [compName|].
  - rewrite Hp. do 2 eexists. split; [reflexivity|]. repeat split.
  - do 2 eexists. split; [reflexivity|]. repeat split.
Qed.

End Annotate.

Lemma getMainGroup_state (s : Figma) :
  sameHost s (snd (getMainGroup s))
  /\ notifications (snd (getMainGroup s)) = notifications s
  /\ page_children (snd (getMainGroup s)) = page_children s
  /\ elsewhere (snd (getMainGroup s)) = elsewhere s
  /\ selection (snd (getMainGroup s)) = selection s.
Proof.
  rewrite getMainGroup_unfold.
  destruct (cachedMainGroup s); [repeat split|].
  destruct (find isMainGroup (page_children s)); repeat split.
Qed.

Lemma fold_appendChild (wrappers : list SceneNode) (g : SceneNode) :
  fold_left (fun g w => appendChild w g) wrappers g
  = set_children (s_children g ++ wrappers) g.
Proof.
  revert g. induction wrappers as [|w ws IH]; intros g.
  - simpl. rewrite app_nil_r. now destruct g.
  - simpl. rewrite IH. destruct g. unfold appendChild, set_children. simpl.
    now rewrite <- app_assoc.
Qed.

Lemma mergeIntoMainGroup_result (measure : SceneNode -> Q * Q) (nodeId : nat -> string)
    (wrappers : list SceneNode) (mainGroup : option SceneNode) (s : Figma) :
  exists merged,
    page_children (snd (mergeIntoMainGroup measure nodeId wrappers mainGroup s))
    = detach (s_id merged) (page_children s) ++ [merged]
    /\ elsewhere (snd (mergeIntoMainGroup measure nodeId wrappers mainGroup s))
       = detach (s_id merged) (elsewhere s)
    /\ s_children merged
       = match mainGroup with Some g => s_children g | None => [] end ++ wrappers
    /\ s_type merged = match mainGroup with Some g => s_type g | None => GROUP end
    /\ s_name merged = match mainGroup with Some g => s_name g | None => mainGroupName end
    /\ s_id merged
       = match mainGroup with Some g => s_id g | None => nodeId (created s) end
    /\ s_locked merged = true
    /\ closed (snd (mergeIntoMainGroup measure nodeId wrappers mainGroup s))
       = Some (Some "Annotated icons successfully.")
    /\ notifications (snd (mergeIntoMainGroup measure nodeId wrappers mainGroup s))
       = notifications s
    /\ page_pluginData (snd (mergeIntoMainGroup measure nodeId wrappers mainGroup s))
       = page_pluginData s
    /\ map id (selection (snd (mergeIntoMainGroup measure nodeId wrappers mainGroup s)))
       = map s_id wrappers.
Proof.
  assert (Hsel : forall page g, map id (map (handleOf page g) wrappers)
                                = map s_id wrappers).
  { intros page g. rewrite map_map. apply map_ext. reflexivity. }
  unfold mergeIntoMainGroup. destruct mainGroup as [g|].
  - rewrite fold_appendChild.
    cbv beta iota zeta
        delta [bind ret page_appendChild modify gets closePlugin fst snd].
    eexists. split; [reflexivity|]. split; [reflexivity|].
    split; [now destruct g|]. split; [now destruct g|]. split; [now destruct g|].
    split; [now destruct g|]. split; [reflexivity|]. split; [reflexivity|].
    split; [reflexivity|]. split; [reflexivity|]. apply Hsel.
  - cbv beta iota zeta
        delta [bind ret page_appendChild modify gets closePlugin fst snd
               figma_group createNode].
    eexists. split; [reflexivity|]. split; [reflexivity|].
    repeat (split; [reflexivity|]). apply Hsel.
Qed.

Lemma annotate_unfold (measure : SceneNode -> Q * Q) (nodeId token : nat -> string)
    (s : Figma) :
  annotate measure nodeId token s =
  match selection s with
  | [] => closePlugin (Some "Please select one or more icons.") s
  | _ :: _ =>
      let s1 := snd (getMainGroup s) in
      let r := annotateLoop measure nodeId token (selection s) []
                            (fst (getMainGroup s)) s1 in
      match fst (fst r) with
      | [] => closePlugin (Some "No icons annotated, please check naming.") (snd r)
      | _ :: _ => mergeIntoMainGroup measure nodeId (fst (fst r)) (snd (fst r)) (snd r)
      end
  end.
Proof.
  unfold annotate. unfold bind at 1. unfold gets at 1.
  destruct (selection s) as [|icon rest] eqn:E; [reflexivity|].
  unfold bind at 1. destruct (getMainGroup s) as [mg s1]. cbn [fst snd].
  unfold bind at 1.
  generalize (annotateLoop measure nodeId token (icon :: rest) [] mg s1).
  intros [[ws mg'] s2]. cbn [fst snd]. destruct ws; reflexivity.
Qed.

Lemma passesPrefixCheck_sameHost (s s' : Figma) (icon : Node) :
  sameHost s s' -> passesPrefixCheck s' icon = passesPrefixCheck s icon.
Proof.
  intros (_ & _ & _ & Hm & _). unfold passesPrefixCheck, applicableName.
  now rewrite Hm.
Qed.

(** The loop produces one wrapper per accepted element and one warning per
    rejected element. *)
Lemma annotateLoop_counts (measure : SceneNode -> Q * Q) (nodeId token : nat -> string)
    (icons : list Node) :
  forall (wrappers : list SceneNode) (mainGroup : option SceneNode) (s : Figma),
    let r := annotateLoop measure nodeId token icons wrappers mainGroup s in
    List.length (fst (fst r))
    = (List.length wrappers + List.length (filter (passesPrefixCheck s) icons))%nat
    /\ List.length (notifications (snd r))
       = (List.length (notifications s)
          + List.length (filter (fun i => negb (passesPrefixCheck s i)) icons))%nat
    /\ sameHost s (snd r).
Proof.
  induction icons as [|icon rest IH]; intros wrappers mainGroup s.
  - simpl. split; [lia|]. split; [lia|]. apply sameHost_refl.
  - cbv zeta. cbn [annotateLoop]. unfold bind.
    assert (Hf : forall s', sameHost s s' ->
               filter (passesPrefixCheck s') rest = filter (passesPrefixCheck s) rest
               /\ filter (fun i => negb (passesPrefixCheck s' i)) rest
                  = filter (fun i => negb (passesPrefixCheck s i)) rest).
    { intros s' Hs. split; apply filter_ext; intros i;
        now rewrite (passesPrefixCheck_sameHost s s' i Hs). }
    destruct (passesPrefixCheck s icon) eqn:Hp.
    + destruct (annotateIcon_accepts measure nodeId token icon wrappers mainGroup s Hp)
        as (w & mg' & s' & E & _ & _ & _ & Hn & Hs).
      rewrite E. cbn [fst snd filter]. rewrite Hp. cbn [negb].
      specialize (IH (wrappers ++ [w]) mg' s'). cbv zeta in IH.
      destruct IH as (I1 & I2 & I3). destruct (Hf s' Hs) as [F1 F2].
      rewrite I1, I2, F1, F2, Hn, length_app. simpl.
      split; [lia|]. split; [lia|]. eapply sameHost_trans; eassumption.
    + destruct (annotateIcon_rejects measure nodeId token icon wrappers mainGroup s Hp)
        as (msg & s' & E & Hn & _ & _ & _ & Hs).
      rewrite E. cbn [fst snd filter]. rewrite Hp. cbn [negb].
      specialize (IH wrappers mainGroup s'). cbv zeta in IH.
      destruct IH as (I1 & I2 & I3). destruct (Hf s' Hs) as [F1 F2].
      rewrite I1, I2, F1, F2, Hn, length_app. simpl.
      split; [lia|]. split; [lia|]. eapply sameHost_trans; eassumption.
Qed.

(** C9. For a selection of one element whose applicable name passes the
    prefix check and one whose name fails it, in either order, the annotate
    command produces exactly one wrapper, notifies exactly one rejection,
    goes on past the rejected element and closes with "Annotated icons
    successfully." and not with "No icons annotated, please check
    naming.". *)
Theorem C9_one_valid_one_invalid :
  forall (measure : SceneNode -> Q * Q) (nodeId token : nat -> string)
         (s : Figma) (valid invalid : Node),
    passesPrefixCheck s valid = true ->
    passesPrefixCheck s invalid = false ->
    selection s = [valid; invalid] \/ selection s = [invalid; valid] ->
    let s' := invoke measure nodeId token "annotate" s in
    closed s' = Some (Some "Annotated icons successfully.")
    /\ closed s' <> Some (Some "No icons annotated, please check naming.")
    /\ (exists warning, notifications s' = [warning])
    /\ (exists wrapper mainGroup rest old,
          map id (selection s') = [s_id wrapper]
          /\ String.prefix "iconAnnotation-" (s_name wrapper) = true
          /\ getPluginData "iconId" wrapper = id valid
          /\ page_children s' = rest ++ [mainGroup]
          /\ s_children mainGroup = old ++ [wrapper]
          /\ List.length old
             = match fst (getMainGroup (enter "annotate" s)) with
               | Some g => List.length (s_children g)
               | None => 0%nat
               end).
Proof.
  intros measure nodeId token s valid invalid Hv Hi Hsel s'.
  set (s0 := enter "annotate" s).
  destruct (getMainGroup_state s0) as (Hs01 & Hn1 & _).
  set (mg := fst (getMainGroup s0)) in *.
  set (s1 := snd (getMainGroup s0)) in *.
  assert (Hv1 : passesPrefixCheck s1 valid = true).
  { rewrite (passesPrefixCheck_sameHost s0 s1 _ Hs01). exact Hv. }
  assert (Hi1 : passesPrefixCheck s1 invalid = false).
  { rewrite (passesPrefixCheck_sameHost s0 s1 _ Hs01). exact Hi. }
  assert (Hloop : exists w mg' s2,
             annotateLoop measure nodeId token (selection s) [] mg s1
             = (([w], mg'), s2)
             /\ String.prefix "iconAnnotation-" (s_name w) = true
             /\ getPluginData "iconId" w = id valid
             /\ option_map (fun g => List.length (s_children g)) mg'
                = option_map (fun g => List.length (s_children g)) mg
             /\ (exists warning, notifications s2 = [warning])).
  { destruct Hsel as [-> | ->]; cbn [annotateLoop]; unfold bind.
    - destruct (annotateIcon_accepts measure nodeId token valid [] mg s1 Hv1)
        as (w & mg' & s2 & E & Hp & Hd & Hl & Hn & Hs).
      rewrite E. cbn [fst snd app].
      rewrite <- (passesPrefixCheck_sameHost s1 s2 _ Hs) in Hi1.
      destruct (annotateIcon_rejects measure nodeId token invalid [w] mg' s2 Hi1)
        as (msg & s3 & E' & Hn' & _).
      rewrite E'. exists w, mg', s3. repeat split; try assumption.
      exists msg. rewrite Hn', Hn, Hn1. reflexivity.
    - destruct (annotateIcon_rejects measure nodeId token invalid [] mg s1 Hi1)
        as (msg & s2 & E & Hn & _ & _ & _ & Hs).
      rewrite E. cbn [fst snd].
      rewrite <- (passesPrefixCheck_sameHost s1 s2 _ Hs) in Hv1.
      destruct (annotateIcon_accepts measure nodeId token valid [] mg s2 Hv1)
        as (w & mg' & s3 & E' & Hp & Hd & Hl & Hn' & _).
      rewrite E'. exists w, mg', s3. repeat split; try assumption.
      exists msg. rewrite Hn', Hn, Hn1. reflexivity. }
  destruct Hloop as (w & mg' & s2 & Eloop & Hp & Hd & Hl & msg & Hmsg).
  assert (Es' : s' = snd (mergeIntoMainGroup measure nodeId [w] mg' s2)).
  { subst s'. unfold invoke, main. unfold bind at 1. unfold gets at 1.
    change (command (enter "annotate" s)) with "annotate".
    change (String.eqb "annotate" "annotate") with true. cbv iota.
    rewrite annotate_unfold.
    change (selection (enter "annotate" s)) with (selection s).
    fold s0. fold mg. fold s1.
    destruct (selection s) as [|i1 sel] eqn:Es; [destruct Hsel; discriminate|].
    cbv zeta. rewrite Eloop. reflexivity. }
  destruct (mergeIntoMainGroup_result measure nodeId [w] mg' s2)
    as (merged & Hpc & _ & Hch & _ & _ & _ & _ & Hcl & Hno & _ & Hsl).
  rewrite <- Es' in Hpc, Hcl, Hno, Hsl.
  split; [exact Hcl|]. split; [rewrite Hcl; discriminate|].
  split; [exists msg; now rewrite Hno|].
  exists w, merged, (detach (s_id merged) (page_children s2)),
         (match mg' with Some g => s_children g | None => [] end).
  repeat split; try assumption.
  destruct mg' as [g'|], mg as [g|]; simpl in Hl; try discriminate;
    [now injection Hl | reflexivity].
Qed.

(** C9 at the selection of the layer [ic_foo] and the layer [bar]. *)
Lemma C9_one_valid_one_invalid_witness :
  passesPrefixCheck sampleState overhangingIcon = true
  /\ passesPrefixCheck sampleState strayIcon = false
  /\ selection sampleState = [overhangingIcon; strayIcon]
  /\ closed (invoke sampleMeasure sampleNodeId sampleToken "annotate" sampleState)
     = Some (Some "Annotated icons successfully.")
  /\ (exists warning,
        notifications (invoke sampleMeasure sampleNodeId sampleToken
                              "annotate" sampleState) = [warning]).
Proof.
  split; [reflexivity|]. split; [reflexivity|]. split; [reflexivity|].
  destruct (C9_one_valid_one_invalid sampleMeasure sampleNodeId sampleToken
              sampleState overhangingIcon strayIcon
              eq_refl eq_refl (or_introl eq_refl)) as (H1 & _ & H3 & _).
  split; [exact H1 | exact H3].
Defined.

(** ** Identifiers in the scene *)

Lemma detachFrom_id (i : string) (n : SceneNode) : s_id (detachFrom i n) = s_id n.
Proof. now destruct n. Qed.

Lemma findById_id (i : string) (n : SceneNode) :
  forall r, findById i n = Some r -> s_id r = i.
Proof.
  induction n as [ni t nm x y w h l d m c cs IH] using SceneNode_ind.
  intros r. simpl. destruct (String.eqb ni i) eqn:E.
  - intros [= <-]. simpl. now apply String.eqb_eq.
  - induction IH as [|c' cs' Hc' _ IHcs]; [discriminate|].
    destruct (findById i c') as [r'|] eqn:Ec.
    + intros [= <-]. now apply Hc'.
    + exact IHcs.
Qed.

Lemma findByIdIn_id (i : string) (l : list SceneNode) :
  forall r, findByIdIn i l = Some r -> s_id r = i.
Proof.
  induction l as [|c l IH]; intros r; simpl; [discriminate|].
  destruct (findById i c) as [r'|] eqn:Ec.
  - intros [= <-]. eapply findById_id; eassumption.
  - apply IH.
Qed.

Lemma findByIdIn_app (i : string) (l1 l2 : list SceneNode) :
  findByIdIn i (l1 ++ l2) =
  match findByIdIn i l1 with
  | Some r => Some r
  | None => findByIdIn i l2
  end.
Proof.
  induction l1 as [|c l1 IH]; simpl; [reflexivity|].
  now destruct (findById i c).
Qed.

Lemma findById_self (n : SceneNode) : findById (s_id n) n = Some n.
Proof. destruct n as [ni t nm x y w h l d m c cs]. simpl. now rewrite String.eqb_refl. Qed.

Lemma findByIdIn_head (n : SceneNode) (l : list SceneNode) :
  findByIdIn (s_id n) (n :: l) = Some n.
Proof. simpl. now rewrite findById_self. Qed.

Lemma findById_detachFrom (i : string) (n : SceneNode) :
  String.eqb (s_id n) i = false -> findById i (detachFrom i n) = None.
Proof.
  induction n as [ni t nm x y w h l d m c cs IH] using SceneNode_ind.
  simpl. intros E. rewrite E.
  induction IH as [|c' cs' Hc' _ IHcs]; [reflexivity|].
  simpl. rewrite detachFrom_id.
  destruct (String.eqb (s_id c') i) eqn:Ec; simpl; [exact IHcs|].
  now rewrite (Hc' eq_refl).
Qed.

Lemma findByIdIn_detach (i : string) (l : list SceneNode) :
  findByIdIn i (detach i l) = None.
Proof.
  unfold detach. induction l as [|c l IH]; [reflexivity|].
  simpl. rewrite detachFrom_id.
  destruct (String.eqb (s_id c) i) eqn:Ec; simpl; [exact IH|].
  now rewrite (findById_detachFrom i c Ec).
Qed.

Lemma detachFrom_idem (i : string) (n : SceneNode) :
  detachFrom i (detachFrom i n) = detachFrom i n.
Proof.
  induction n as [ni t nm x y w h l d m c cs IH] using SceneNode_ind.
  simpl. unfold set_children. simpl. f_equal.
  induction IH as [|c' cs' Hc' _ IHcs]; [reflexivity|].
  simpl. rewrite detachFrom_id.
  destruct (String.eqb (s_id c') i) eqn:Ec; simpl; [exact IHcs|].
  rewrite ?detachFrom_id, ?Ec. simpl. now rewrite Hc', IHcs.
Qed.

Lemma detach_idem (i : string) (l : list SceneNode) :
  detach i (detach i l) = detach i l.
Proof.
  unfold detach. induction l as [|c l IH]; [reflexivity|].
  simpl. rewrite detachFrom_id.
  destruct (String.eqb (s_id c) i) eqn:Ec; simpl; [exact IH|].
  rewrite ?detachFrom_id, ?Ec. simpl. now rewrite detachFrom_idem, IH.
Qed.

Lemma detach_app (i : string) (l1 l2 : list SceneNode) :
  detach i (l1 ++ l2) = detach i l1 ++ detach i l2.
Proof. unfold detach. now rewrite map_app, filter_app. Qed.

Lemma detach_self (n : SceneNode) : detach (s_id n) [n] = [].
Proof.
  unfold detach. simpl. rewrite detachFrom_id, String.eqb_refl. reflexivity.
Qed.

(** ** The realign workflow *)

Lemma realignWrapper_state (wrapper : SceneNode) (r m : nat) (s : Figma) :
  snd (realignWrapper wrapper r m s) = s
  /\ fst (fst (fst (realignWrapper wrapper r m s))) = realigned s wrapper.
Proof.
  unfold realigned, realignWrapper.
  destruct (negb (String.prefix "iconAnnotation-" (s_name wrapper))); [now split|].
  cbv beta iota zeta delta [bind gets ret].
  destruct (nodeById s (getPluginData "iconId" wrapper)) as [icon|]; [|now split].
  destruct (findOne isCard wrapper); now split.
Qed.

Lemma realigned_ext (s s' : Figma) (wrapper : SceneNode) :
  currentPage s' = currentPage s -> nodeById s' = nodeById s ->
  removeThrows s' = removeThrows s ->
  realigned s' wrapper = realigned s wrapper.
Proof.
  intros Hp Hn Hr. unfold realigned, realignWrapper.
  destruct (negb (String.prefix "iconAnnotation-" (s_name wrapper))); [reflexivity|].
  cbv beta iota zeta delta [bind gets ret]. rewrite Hn.
  destruct (nodeById s (getPluginData "iconId" wrapper)) as [icon|].
  - destruct (findOne isCard wrapper); [|reflexivity]. now rewrite Hp.
  - now rewrite Hr.
Qed.

Lemma realignLoop_children (s : Figma) (wrappers : list SceneNode) :
  forall children r m,
    snd (realignLoop wrappers children r m s) = s
    /\ fst (fst (fst (realignLoop wrappers children r m s)))
       = children ++ flat_map (realigned s) wrappers.
Proof.
  induction wrappers as [|w ws IH]; intros children r m.
  - simpl. now rewrite app_nil_r.
  - cbn [realignLoop flat_map]. unfold bind.
    destruct (realignWrapper_state w r m s) as [Hs Hc].
    destruct (realignWrapper w r m s) as [[[kept r'] m'] s']. simpl in Hs, Hc.
    subst s'. cbn [fst snd]. rewrite Hc.
    destruct (IH (children ++ realigned s w) r' m') as [Hs' Hc'].
    split; [exact Hs'|]. now rewrite Hc', app_assoc.
Qed.

(** Once realigned, a wrapper stays as it is: its name, plugin data and
    children are untouched, so the same target, the same card and the same
    origin come out again. *)
Lemma realigned_again (s : Figma) (wrapper moved : SceneNode) :
  In moved (realigned s wrapper) -> realigned s moved = [moved].
Proof.
  unfold realigned, realignWrapper.
  destruct (negb (String.prefix "iconAnnotation-" (s_name wrapper))) eqn:En.
  - simpl. intros [<-|[]]. now rewrite En.
  - cbv beta iota zeta delta [bind gets ret].
    destruct (nodeById s (getPluginData "iconId" wrapper)) as [icon|] eqn:Ei.
    + destruct (findOne isCard wrapper) as [frame|] eqn:Ef.
      * simpl. intros [<-|[]].
        destruct wrapper as [wi wt wn wx wy ww wh wl wd wm wc wcs].
        unfold set_xy, getPluginData in *. simpl in *.
        rewrite En. simpl. rewrite Ei.
        change (findOne isCard (mkScene wi wt wn _ _ ww wh wl wd wm wc wcs))
          with (findOne isCard (mkScene wi wt wn wx wy ww wh wl wd wm wc wcs)).
        rewrite Ef. reflexivity.
      * simpl. intros [<-|[]]. now rewrite En, Ei, Ef.
    + destruct (removeThrows s (s_id wrapper)) eqn:Et; simpl; [|intros []].
      intros [<-|[]]. now rewrite En, Ei, Et.
Qed.

Lemma realigned_idempotent (s : Figma) (wrappers : list SceneNode) :
  flat_map (realigned s) (flat_map (realigned s) wrappers)
  = flat_map (realigned s) wrappers.
Proof.
  induction wrappers as [|w ws IH]; [reflexivity|].
  simpl. rewrite flat_map_app, IH. f_equal.
  assert (H : forall l, (forall m, In m l -> realigned s m = [m]) ->
                        flat_map (realigned s) l = l).
  { induction l as [|m l IHl]; intros Hl; [reflexivity|].
    simpl. rewrite (Hl m (or_introl eq_refl)), IHl; [reflexivity|].
    intros m' Hm'. apply Hl. now right. }
  apply H. intros m Hm. eapply realigned_again; eassumption.
Qed.

Lemma realign_unfold (s : Figma) :
  realign s =
  match fst (getMainGroup s) with
  | None => closePlugin (Some "can't find main group.") (snd (getMainGroup s))
  | Some mainGroup =>
      let s1 := snd (getMainGroup s) in
      let r := fst (realignLoop (s_children mainGroup) [] 0 0 s1) in
      let merged := set_locked true
                      (set_children (fst (fst r)) (set_locked false mainGroup)) in
      closePlugin (Some ("Re-aligned " ++ showNat (snd (fst r))
                         ++ " annotations, removed " ++ showNat (snd r)
                         ++ " invalid annotations.")%string)
                  (snd (page_appendChild merged s1))
  end.
Proof.
  unfold realign. unfold bind at 1.
  destruct (getMainGroup s) as [[g|] s1]; [|reflexivity].
  cbn [fst snd]. unfold bind at 1.
  change (s_children (set_locked false g)) with (s_children g).
  destruct (realignLoop_children s1 (s_children g) [] 0%nat 0%nat) as [Hs _].
  destruct (realignLoop (s_children g) [] 0 0 s1) as [r s1']. simpl in Hs. subst s1'.
  cbn [fst snd]. reflexivity.
Qed.

Lemma lookupData_storeData (key v : string) (d : list (string * string)) :
  lookupData key (storeData key v d) = v.
Proof. unfold storeData. simpl. now rewrite String.eqb_refl. Qed.

(** After the resolver has returned a group, the cache holds its
    identifier. *)
Lemma getMainGroup_cache (s : Figma) (g : SceneNode) :
  (forall c, In c (page_children s) -> s_id c <> "") ->
  fst (getMainGroup s) = Some g ->
  lookupData "mainGroupId" (page_pluginData (snd (getMainGroup s))) = s_id g
  /\ String.eqb (s_id g) "" = false
  /\ isMainGroup g = true.
Proof.
  intros Hids. rewrite getMainGroup_unfold.
  destruct (cachedMainGroup s) as [n|] eqn:Ec.
  - simpl. intros [= ->]. split; [|split].
    + unfold cachedMainGroup in Ec.
      destruct (String.eqb (lookupData "mainGroupId" (page_pluginData s)) "");
        [discriminate|].
      destruct (findByIdIn _ _) as [n|] eqn:Ef; [|discriminate].
      destruct (isMainGroup n); [|discriminate].
      injection Ec as ->. symmetry. eapply findByIdIn_id; eassumption.
    + unfold cachedMainGroup in Ec.
      destruct (String.eqb (lookupData "mainGroupId" (page_pluginData s)) "") eqn:E;
        [discriminate|].
      destruct (findByIdIn _ _) as [n|] eqn:Ef; [|discriminate].
      destruct (isMainGroup n); [|discriminate].
      injection Ec as ->. now rewrite (findByIdIn_id _ _ _ Ef).
    + eapply cachedMainGroup_sound; eassumption.
  - destruct (find isMainGroup (page_children s)) as [n|] eqn:Ef; [|discriminate].
    simpl. intros [= ->]. apply find_some in Ef as [Hin Hm].
    split; [reflexivity|]. split; [|exact Hm].
    apply String.eqb_neq. now apply Hids.
Qed.

Lemma realign_result (s : Figma) (g : SceneNode) :
  fst (getMainGroup s) = Some g ->
  let s' := snd (getMainGroup s) in
  let merged :=
    set_locked true
      (set_children (flat_map (realigned s') (s_children g)) (set_locked false g)) in
  page_children (snd (realign s)) = detach (s_id g) (page_children s) ++ [merged]
  /\ elsewhere (snd (realign s)) = detach (s_id g) (elsewhere s)
  /\ page_pluginData (snd (realign s)) = page_pluginData s'
  /\ currentPage (snd (realign s)) = currentPage s
  /\ nodeById (snd (realign s)) = nodeById s
  /\ removeThrows (snd (realign s)) = removeThrows s.
Proof.
  intros Eg s' merged. rewrite realign_unfold, Eg. cbv zeta. fold s'.
  destruct (realignLoop_children s' (s_children g) [] 0%nat 0%nat) as [_ Hc].
  simpl app in Hc.
  destruct (getMainGroup_state s) as ((_ & Hp & Hn & _ & Hr & _) & _ & Hpc & Hew & _).
  fold s' in Hp, Hn, Hr, Hpc, Hew.
  cbv beta iota zeta delta [closePlugin page_appendChild modify snd].
  cbn [page_children elsewhere page_pluginData currentPage nodeById removeThrows
       with_messages with_scene].
  rewrite Hc, Hpc, Hew, Hp, Hn, Hr.
  repeat split; destruct g; reflexivity.
Qed.

Lemma invoke_realign (measure : SceneNode -> Q * Q) (nodeId token : nat -> string)
    (s : Figma) :
  invoke measure nodeId token "realign" s = snd (realign (enter "realign" s)).
Proof.
  unfold invoke, main. unfold bind at 1. unfold gets at 1.
  change (command (enter "realign" s)) with "realign".
  change (String.eqb "realign" "annotate") with false.
  change (String.eqb "realign" "realign") with true. reflexivity.
Qed.

(** C8. Realign is idempotent on positions: when it runs twice in a row
    and the host resolves the targets the same way in both runs, the second
    run leaves the document as the first run left it; the main group is
    the last child of the page both times, with the same wrappers at the
    same coordinates, and every wrapper that survived the first run is
    left as it is by the second.  Identifiers of nodes are non-empty
    strings. *)
Theorem C8_realign_twice_keeps_positions :
  forall (measure : SceneNode -> Q * Q) (nodeId token : nat -> string) (s : Figma),
    (forall c, In c (page_children s) -> s_id c <> "") ->
    let s1 := invoke measure nodeId token "realign" s in
    let s2 := invoke measure nodeId token "realign" s1 in
    page_children s2 = page_children s1
    /\ elsewhere s2 = elsewhere s1
    /\ page_pluginData s2 = page_pluginData s1
    /\ (forall g, fst (getMainGroup (enter "realign" s)) = Some g ->
          exists rest merged,
            page_children s1 = rest ++ [merged]
            /\ page_children s2 = rest ++ [merged]
            /\ fst (getMainGroup (enter "realign" s1)) = Some merged
            /\ s_children merged
               = flat_map (realigned (enter "realign" s)) (s_children g)
            /\ (forall w, In w (s_children merged) ->
                          realigned (enter "realign" s1) w = [w])).
Proof.
  intros measure nodeId token s Hids s1 s2.
  subst s2. rewrite (invoke_realign measure nodeId token s1).
  subst s1. rewrite (invoke_realign measure nodeId token s).
  set (s0 := enter "realign" s).
  destruct (fst (getMainGroup s0)) as [g|] eqn:Eg.
  - (* the main group exists *)
    destruct (realign_result s0 g Eg) as (Hpc & Hew & Hpd & Hp & Hn & Hr).
    cbv zeta in Hpc, Hew, Hpd.
    destruct (getMainGroup_cache s0 g Hids Eg) as (Hcache & Hne & Hmain).
    destruct (getMainGroup_state s0) as ((_ & Hp0 & Hn0 & _ & Hr0 & _) & _).
    set (s0' := snd (getMainGroup s0)) in *.
    set (ws1 := flat_map (realigned s0') (s_children g)) in *.
    set (merged := set_locked true (set_children ws1 (set_locked false g))) in *.
    set (s1 := snd (realign s0)) in *.
    set (s1' := enter "realign" s1).
    assert (Hid : s_id merged = s_id g) by now destruct g.
    assert (Ecache : cachedMainGroup s1' = Some merged).
    { unfold cachedMainGroup.
      change (page_pluginData s1') with (page_pluginData s1).
      change (page_children s1') with (page_children s1).
      change (elsewhere s1') with (elsewhere s1).
      rewrite Hpd, Hcache, Hne, Hpc, Hew, !findByIdIn_app, findByIdIn_detach.
      rewrite <- Hid, findByIdIn_head.
      assert (Hm' : isMainGroup merged = true) by (rewrite <- Hmain; now destruct g).
      now rewrite Hm'. }
    assert (Eg1 : getMainGroup s1' = (Some merged, s1')).
    { rewrite getMainGroup_unfold, Ecache. reflexivity. }
    assert (Hsame : forall w, realigned s1' w = realigned s0' w).
    { intros w. apply realigned_ext.
      - change (currentPage s1') with (currentPage s1). congruence.
      - change (nodeById s1') with (nodeById s1). congruence.
      - change (removeThrows s1') with (removeThrows s1). congruence. }
    assert (Hagain : forall w, In w ws1 -> realigned s1' w = [w]).
    { intros w Hw. rewrite Hsame. subst ws1. apply in_flat_map in Hw as (w0 & _ & Hw).
      eapply realigned_again; eassumption. }
    assert (Hws : flat_map (realigned s1') ws1 = ws1).
    { erewrite flat_map_ext; [apply realigned_idempotent|]. exact Hsame. }
    assert (E1 : fst (getMainGroup s1') = Some merged) by now rewrite Eg1.
    destruct (realign_result s1' merged E1) as (Hpc2 & Hew2 & Hpd2 & _).
    cbv zeta in Hpc2, Hew2, Hpd2. rewrite Eg1 in Hpc2, Hpd2. cbn [snd] in Hpc2, Hpd2.
    change (s_children merged) with ws1 in Hpc2. rewrite Hws in Hpc2.
    change (set_locked true (set_children ws1 (set_locked false merged)))
      with merged in Hpc2.
    change (page_children s1') with (page_children s1) in Hpc2.
    change (elsewhere s1') with (elsewhere s1) in Hew2.
    change (page_pluginData s1') with (page_pluginData s1) in Hpd2.
    assert (Hpc2' : page_children (snd (realign s1'))
                    = detach (s_id g) (page_children s0) ++ [merged]).
    { rewrite Hpc2, Hpc, detach_app, Hid, detach_idem.
      rewrite <- Hid at 2. rewrite detach_self, app_nil_r. reflexivity. }
    split; [now rewrite Hpc2', Hpc|]. split.
    { rewrite Hew2, Hew, Hid. apply detach_idem. }
    split; [exact Hpd2|].
    intros g' [= <-]. exists (detach (s_id g) (page_children s0)), merged.
    split; [exact Hpc|]. split; [exact Hpc2'|]. split; [exact E1|].
    split; [|exact Hagain].
    change (s_children merged) with ws1. subst ws1. apply flat_map_ext.
    intros w. apply realigned_ext; assumption.
  - (* no main group: nothing is touched *)
    assert (Es : snd (getMainGroup s0) = s0).
    { revert Eg. rewrite getMainGroup_unfold.
      destruct (cachedMainGroup s0); [discriminate|].
      now destruct (find isMainGroup (page_children s0)). }
    assert (E1 : snd (realign s0)
                 = snd (closePlugin (Some "can't find main group.") s0)).
    { rewrite realign_unfold, Eg, Es. reflexivity. }
    rewrite E1.
    change (enter "realign" (snd (closePlugin (Some "can't find main group.") s0)))
      with s0.
    rewrite E1. split; [reflexivity|]. split; [reflexivity|].
    split; [reflexivity|]. discriminate.
Qed.

(** C7 (failing input). On a duplicated page the cached identifier resolves
    to the main group of the original page; it is a group with the exact
    name, so the resolver returns it although it is not among the children
    of the page; the annotate command merges the new wrapper into it and
    appends it to the page, which then holds two main groups where it held
    one. *)
Theorem C7_cached_group_of_another_page_is_duplicated :
  let s' := invoke sampleMeasure sampleNodeId sampleToken "annotate"
                   duplicatedPageState in
  mainGroupsOf duplicatedPageState = [copiedGroup]
  /\ fst (getMainGroup (enter "annotate" duplicatedPageState)) = Some originalGroup
  /\ ~ In originalGroup (page_children duplicatedPageState)
  /\ map s_id (mainGroupsOf s') = ["5:1"; "3:7"]
  /\ List.length (mainGroupsOf s') = 2%nat
  /\ elsewhere s' = []
  /\ closed s' = Some (Some "Annotated icons successfully.").
Proof.
  cbv zeta. split; [reflexivity|]. split; [reflexivity|].
  split; [intros [H|[]]; discriminate H|].
  repeat split; vm_compute; reflexivity.
Qed.

Lemma annotatedState_ids :
  forall c, In c (page_children annotatedState) -> s_id c <> "".
Proof.
  assert (E : map s_id (page_children annotatedState) = ["9:12"]).
  { vm_compute. reflexivity. }
  intros c Hc. apply (in_map s_id) in Hc. rewrite E in Hc.
  destruct Hc as [<-|[]]. discriminate.
Qed.

(** C8 at the annotated sample page. *)
Lemma C8_realign_twice_keeps_positions_witness :
  (forall c, In c (page_children annotatedState) -> s_id c <> "")
  /\ (let s1 := invoke sampleMeasure sampleNodeId sampleToken "realign"
                       annotatedState in
      let s2 := invoke sampleMeasure sampleNodeId sampleToken "realign" s1 in
      page_children s2 = page_children s1).
Proof.
  split; [exact annotatedState_ids|].
  exact (proj1 (C8_realign_twice_keeps_positions sampleMeasure sampleNodeId
                  sampleToken annotatedState annotatedState_ids)).
Defined.

(** The first of two runs does move a wrapper when its target has moved:
    the element of the artboard, annotated below at (100,100), is
    realigned to its left at (10,40); the second run changes nothing. *)
Example realign_follows_a_moved_element :
  let s1 := invoke sampleMeasure sampleNodeId sampleToken "realign" movedState in
  let s2 := invoke sampleMeasure sampleNodeId sampleToken "realign" s1 in
  page_children s1 <> page_children movedState
  /\ page_children s2 = page_children s1
  /\ closed s1 = Some (Some "Re-aligned 2 annotations, removed 0 invalid annotations.").
Proof.
  cbv zeta. split; [vm_compute; discriminate|].
  split; vm_compute; reflexivity.
Qed.

(** ** The main group on the page *)

Lemma harmless_id : harmless (fun n => n).
Proof. split; auto. Qed.

Lemma harmless_compose (R1 R2 : SceneNode -> SceneNode) :
  harmless R1 -> harmless R2 -> harmless (fun n => R2 (R1 n)).
Proof.
  intros [I1 M1] [I2 M2]. split; intros n.
  - now rewrite I2, I1.
  - intros H. now apply M1, M2.
Qed.

(** A name that passes the prefix check, with anything appended, is not
    the name of the main group. *)
Lemma prefixed_name_is_not_mainGroupName (n x : string) :
  hasIconPrefix n = true -> String.eqb (n ++ x) mainGroupName = false.
Proof.
  intros Hp. apply String.eqb_neq. intros E.
  destruct n as [|c n]; [discriminate Hp|].
  unfold mainGroupName in E. simpl in E. injection E as Ec _. subst c.
  vm_compute in Hp. discriminate Hp.
Qed.

Lemma renameById_harmless (i v : string) :
  String.eqb v mainGroupName = false -> harmless (renameById i v).
Proof.
  intros Hv. split; intros [ni t nm x y w h l d m c cs]; simpl.
  - now destruct (String.eqb ni i).
  - unfold isMainGroup. destruct (String.eqb ni i); simpl; [|auto].
    rewrite Hv, andb_false_r. discriminate.
Qed.

Ltac rejected :=
  exists (fun n => n); split; [apply harmless_id|];
  split; [simpl; now rewrite map_id
         | match goal with |- _ = option_map _ ?g => now destruct g end].

Section MainGroupOnPage.

Variable measure : SceneNode -> Q * Q.
Variable nodeId : nat -> string.
Variable token : nat -> string.

Lemma annotateIcon_scene (icon : Node)
    (wrappers : list SceneNode) (mainGroup : option SceneNode) (s : Figma) :
  exists R,
    harmless R
    /\ page_children (snd (annotateIcon measure nodeId token icon wrappers mainGroup s))
       = map R (page_children s)
    /\ snd (fst (annotateIcon measure nodeId token icon wrappers mainGroup s))
       = option_map R mainGroup.
Proof.
  assert (Hacc : forall originalName, hasIconPrefix originalName = true ->
             exists R, harmless R
               /\ page_children
                    (snd (annotateAccepted measure nodeId token icon originalName
                                           wrappers mainGroup s))
                  = map R (page_children s)
               /\ snd (fst (annotateAccepted measure nodeId token icon originalName
                                             wrappers mainGroup s))
                  = option_map R mainGroup).
  { intros originalName Hp.
    destruct (annotateAccepted_result measure nodeId token icon originalName
                wrappers mainGroup s) as (w & s' & E & _ & _ & _ & _ & _ & Hpc & _).
    rewrite E. cbn [fst snd]. eexists. split; [|split; [exact Hpc | reflexivity]].
    apply renameById_harmless. now apply prefixed_name_is_not_mainGroupName. }
  unfold annotateIcon.
  destruct (type icon);
    try (destruct (hasIconPrefix (name icon)) eqn:Hp; [now apply Hacc | rejected]).
  cbv beta iota zeta delta [bind gets].
  destruct (mainComponentOf s (id icon)) as [compName|]; [|rejected].
  destruct (hasIconPrefix compName) eqn:Hp; [now apply Hacc | rejected].
Qed.

Lemma annotateLoop_scene (icons : list Node) :
  forall (wrappers : list SceneNode) (mainGroup : option SceneNode) (s : Figma),
  exists R,
    harmless R
    /\ page_children (snd (annotateLoop measure nodeId token icons wrappers mainGroup s))
       = map R (page_children s)
    /\ snd (fst (annotateLoop measure nodeId token icons wrappers mainGroup s))
       = option_map R mainGroup.
Proof.
  induction icons as [|icon rest IH]; intros wrappers mainGroup s.
  - exists (fun n => n). split; [apply harmless_id|].
    split; [simpl; now rewrite map_id | now destruct mainGroup].
  - cbn [annotateLoop]. unfold bind.
    destruct (annotateIcon_scene icon wrappers mainGroup s) as (R1 & H1 & Hpc1 & Hmg1).
    destruct (annotateIcon measure nodeId token icon wrappers mainGroup s)
      as [[ws1 mg1] s1].
    cbn [fst snd] in *.
    destruct (IH ws1 mg1 s1) as (R2 & H2 & Hpc2 & Hmg2).
    exists (fun n => R2 (R1 n)). split; [now apply harmless_compose|].
    rewrite Hpc2, Hpc1, Hmg2, Hmg1, map_map. split; [reflexivity|].
    now destruct mainGroup.
Qed.

End MainGroupOnPage.

Lemma isMainGroup_detachFrom (i : string) (n : SceneNode) :
  isMainGroup (detachFrom i n) = isMainGroup n.
Proof. now destruct n. Qed.

Lemma mainGroups_map_harmless (R : SceneNode -> SceneNode) (l : list SceneNode) :
  harmless R ->
  (List.length (filter isMainGroup (map R l))
   <= List.length (filter isMainGroup l))%nat.
Proof.
  intros [_ HR]. induction l as [|n l IH]; simpl; [lia|].
  destruct (isMainGroup (R n)) eqn:E.
  - rewrite (HR n E). simpl. lia.
  - destruct (isMainGroup n); simpl; lia.
Qed.

Lemma mainGroups_detach_le (i : string) (l : list SceneNode) :
  (List.length (filter isMainGroup (detach i l))
   <= List.length (filter isMainGroup l))%nat.
Proof.
  unfold detach. induction l as [|n l IH]; simpl; [lia|].
  rewrite detachFrom_id.
  destruct (String.eqb (s_id n) i); simpl; rewrite ?isMainGroup_detachFrom;
    destruct (isMainGroup n); simpl; lia.
Qed.

(** Detaching the identifier of a child of the page takes that child out
    of the count of main groups. *)
Lemma mainGroups_detach_member (x : SceneNode) (l : list SceneNode) :
  In x l ->
  (List.length (filter isMainGroup (detach (s_id x) l))
   + (if isMainGroup x then 1 else 0)
   <= List.length (filter isMainGroup l))%nat.
Proof.
  induction l as [|n l IH]; intros Hin; [destruct Hin|].
  destruct Hin as [->|Hin].
  - pose proof (mainGroups_detach_le (s_id x) l) as Hle.
    unfold detach in *. simpl. rewrite detachFrom_id, String.eqb_refl. simpl.
    destruct (isMainGroup x); simpl; lia.
  - specialize (IH Hin). unfold detach in *. simpl. rewrite detachFrom_id.
    destruct (String.eqb (s_id n) (s_id x)); simpl; rewrite ?isMainGroup_detachFrom;
      destruct (isMainGroup n); simpl; lia.
Qed.

Lemma invoke_annotate (measure : SceneNode -> Q * Q) (nodeId token : nat -> string)
    (s : Figma) :
  invoke measure nodeId token "annotate" s
  = snd (annotate measure nodeId token (enter "annotate" s)).
Proof.
  unfold invoke, main. unfold bind at 1. unfold gets at 1.
  change (command (enter "annotate" s)) with "annotate".
  change (String.eqb "annotate" "annotate") with true. reflexivity.
Qed.

(** When the group the cached identifier resolves to is a child of the
    page, the annotate command keeps at most one main group on the page:
    it creates one only when the resolver found none, and otherwise puts
    back the one it was given. *)
Lemma annotate_keeps_one_main_group
    (measure : SceneNode -> Q * Q) (nodeId token : nat -> string) (s : Figma) :
  (List.length (mainGroupsOf s) <= 1)%nat ->
  (forall g, cachedMainGroup (enter "annotate" s) = Some g ->
             In g (page_children s)) ->
  (List.length (mainGroupsOf (invoke measure nodeId token "annotate" s)) <= 1)%nat.
Proof.
  intros Hone Hcached. rewrite invoke_annotate. unfold mainGroupsOf in *.
  set (s0 := enter "annotate" s). rewrite annotate_unfold.
  change (selection s0) with (selection s).
  destruct (selection s) as [|icon rest]; [exact Hone|]. cbv zeta.
  destruct (getMainGroup_state s0) as (_ & _ & Hpc1 & _).
  change (page_children s0) with (page_children s) in Hpc1.
  assert (Hmg : match fst (getMainGroup s0) with
                | Some g => In g (page_children s)
                | None => forall c, In c (page_children s) -> isMainGroup c = false
                end).
  { pose proof (getMainGroup_sound s0) as Hs. revert Hs.
    rewrite getMainGroup_unfold.
    destruct (cachedMainGroup s0) as [g|] eqn:Ec; [intros _; now apply Hcached|].
    destruct (find isMainGroup (page_children s0)) as [g|] eqn:Ef; simpl.
    - intros _. now apply find_some in Ef.
    - auto. }
  set (mg := fst (getMainGroup s0)) in *.
  set (s1 := snd (getMainGroup s0)) in *.
  destruct (annotateLoop_scene measure nodeId token (icon :: rest) [] mg s1)
    as (R & HR & Hpc & Hmg').
  rewrite Hpc1 in Hpc.
  pose proof (mainGroups_map_harmless R (page_children s) HR) as Hmap.
  destruct (annotateLoop measure nodeId token (icon :: rest) [] mg s1)
    as [[wrappers mg'] s2].
  cbn [fst snd] in *. destruct wrappers as [|w ws].
  - simpl. rewrite Hpc. lia.
  - destruct (mergeIntoMainGroup_result measure nodeId (w :: ws) mg' s2)
      as (merged & Hpc2 & _ & _ & Hty & Hnm & Hid & _).
    rewrite Hpc2, filter_app, length_app, Hpc. subst mg'.
    destruct mg as [g|]; simpl in Hty, Hnm, Hid.
    + assert (Hm : isMainGroup merged = isMainGroup (R g)).
      { unfold isMainGroup. now rewrite Hty, Hnm. }
      pose proof (mainGroups_detach_member (R g) (map R (page_children s))
                    (in_map R _ _ Hmg)) as Hdet.
      rewrite <- Hid in Hdet. simpl. rewrite Hm.
      destruct (isMainGroup (R g)); simpl; lia.
    + assert (Hzero : filter isMainGroup (page_children s) = []).
      { clear -Hmg. induction (page_children s) as [|c l IH]; [reflexivity|].
        simpl. rewrite (Hmg c (or_introl eq_refl)). apply IH.
        intros c' Hc'. apply Hmg. now right. }
      rewrite Hzero in Hmap. simpl in Hmap.
      pose proof (mainGroups_detach_le (s_id merged) (map R (page_children s))) as Hdet.
      simpl. destruct (isMainGroup merged); simpl; lia.
Qed.

(** * Further properties of the workflows *)

(** ** The annotate loop, element by element *)

Section AnnotateSteps.

Variable measure : SceneNode -> Q * Q.
Variable nodeId : nat -> string.
Variable token : nat -> string.

(** A turn of the loop either builds the callout under the applicable name
    or notifies the warning of the element's kind and changes nothing
    else. *)
Lemma annotateIcon_decides (icon : Node)
    (wrappers : list SceneNode) (mainGroup : option SceneNode) (s : Figma) :
  annotateIcon measure nodeId token icon wrappers mainGroup s =
  match applicableName s icon with
  | Some n =>
      if hasIconPrefix n
      then annotateAccepted measure nodeId token icon n wrappers mainGroup s
      else ((wrappers, mainGroup),
            with_messages (notifications s ++ [rejectionWarning icon]) (closed s) s)
  | None =>
      ((wrappers, mainGroup),
       with_messages (notifications s ++ [rejectionWarning icon]) (closed s) s)
  end.
Proof.
  unfold annotateIcon, applicableName, rejectionWarning.
  destruct (type icon);
    try (destruct (hasIconPrefix (name icon)); reflexivity).
  cbv beta iota zeta delta [bind gets].
  destruct (mainComponentOf s (id icon)) as [c|]; [|reflexivity].
  destruct (hasIconPrefix c); reflexivity.
Qed.

Lemma annotateAccepted_full (icon : Node) (originalName : string)
    (wrappers : list SceneNode) (mainGroup : option SceneNode) (s : Figma) :
  let uuid := token (minted s) in
  let newName := (originalName ++ "-" ++ uuid)%string in
  exists wrapper,
    annotateAccepted measure nodeId token icon originalName wrappers mainGroup s
    = ((wrappers ++ [wrapper], option_map (renameById (id icon) newName) mainGroup),
       with_scene (map (renameById (id icon) newName) (page_children s))
                  (map (renameById (id icon) newName) (elsewhere s))
                  (with_counters (6 + created s) (S (minted s)) s))
    /\ s_name wrapper = ("iconAnnotation-" ++ uuid)%string
    /\ s_type wrapper = GROUP
    /\ s_locked wrapper = true
    /\ getPluginData "uuid" wrapper = uuid
    /\ getPluginData "targetId" wrapper = id icon
    /\ getPluginData "iconId" wrapper = id icon
    /\ labelText wrapper = Some originalName.
Proof.
  cbv zeta. unfold annotateAccepted, createAnnotationGroup.
  set (r := calculateGapAndDirection icon). clearbody r.
  cbv beta iota zeta
      delta [bind ret mintToken createFrame createText createEllipse createVector
             createNode figma_group renameNode modify fst snd].
  destruct (minDir r); eexists; (split; [reflexivity|]); repeat split.
Qed.

End AnnotateSteps.

Section AnnotateOutcome.

Variable measure : SceneNode -> Q * Q.
Variable nodeId : nat -> string.
Variable token : nat -> string.

Lemma filters_sameHost (s s' : Figma) (icons : list Node) :
  sameHost s s' ->
  filter (passesPrefixCheck s') icons = filter (passesPrefixCheck s) icons
  /\ filter (fun i => negb (passesPrefixCheck s' i)) icons
     = filter (fun i => negb (passesPrefixCheck s i)) icons.
Proof.
  intros Hs. split; apply filter_ext; intros i;
    now rewrite (passesPrefixCheck_sameHost s s' i Hs).
Qed.

(** The loop over a selection: the wrappers it adds, in the order of the
    accepted elements, the warnings it notifies, in the order of the
    rejected ones, and what it leaves of the host. *)
Lemma annotateLoop_outcome (icons : list Node) :
  forall (wrappers : list SceneNode) (mainGroup : option SceneNode) (s : Figma),
  exists new,
    fst (fst (annotateLoop measure nodeId token icons wrappers mainGroup s))
    = wrappers ++ new
    /\ map (getPluginData "iconId") new = map id (filter (passesPrefixCheck s) icons)
    /\ Forall (fun w => String.prefix "iconAnnotation-" (s_name w) = true
                        /\ s_type w = GROUP /\ s_locked w = true) new
    /\ notifications (snd (annotateLoop measure nodeId token icons wrappers mainGroup s))
       = notifications s
         ++ map rejectionWarning (filter (fun i => negb (passesPrefixCheck s i)) icons)
    /\ sameHost s (snd (annotateLoop measure nodeId token icons wrappers mainGroup s))
    /\ page_pluginData (snd (annotateLoop measure nodeId token icons wrappers mainGroup s))
       = page_pluginData s
    /\ created (snd (annotateLoop measure nodeId token icons wrappers mainGroup s))
       = (created s + 6 * List.length new)%nat
    /\ minted (snd (annotateLoop measure nodeId token icons wrappers mainGroup s))
       = (minted s + List.length new)%nat
    /\ (new = [] ->
        page_children (snd (annotateLoop measure nodeId token icons wrappers mainGroup s))
        = page_children s
        /\ elsewhere (snd (annotateLoop measure nodeId token icons wrappers mainGroup s))
           = elsewhere s).
Proof.
  induction icons as [|icon rest IH]; intros wrappers mainGroup s.
  - exists []. simpl. rewrite !app_nil_r.
    repeat split; try reflexivity; try lia. constructor.
  - cbn [annotateLoop]. unfold bind. rewrite annotateIcon_decides.
    cbn [filter].
    assert (Hdec : passesPrefixCheck s icon
                   = match applicableName s icon with
                     | Some n => hasIconPrefix n
                     | None => false
                     end) by reflexivity.
    destruct (applicableName s icon) as [n|] eqn:En;
      [destruct (hasIconPrefix n) eqn:Hp|]; rewrite Hdec.
    + destruct (annotateAccepted_full measure nodeId token icon n wrappers mainGroup s)
        as (w & E & Hname & Hty & Hlk & _ & _ & Hid & _).
      cbv zeta in E. rewrite E. cbn [fst snd negb].
      match goal with
      | |- context [annotateLoop _ _ _ rest _ ?mg ?s1] =>
          destruct (IH (wrappers ++ [w]) mg s1)
            as (new & H1 & H2 & H3 & H4 & H5 & H6 & H7 & H8 & _);
          assert (Hs1 : sameHost s s1) by (repeat split)
      end.
      destruct (filters_sameHost _ _ rest Hs1) as [F1 F2].
      exists (w :: new). rewrite H1, <- app_assoc. split; [reflexivity|].
      split; [simpl; now rewrite Hid, H2, F1|].
      split; [constructor; [|exact H3]; rewrite Hname; repeat split;
              [apply prefix_append | assumption | assumption]|].
      split; [now rewrite H4, F2|].
      split; [eapply sameHost_trans; eassumption|].
      split; [exact H6|]. split; [rewrite H7; simpl; lia|].
      split; [rewrite H8; simpl; lia | discriminate].
    + cbn [fst snd negb].
      match goal with
      | |- context [annotateLoop _ _ _ rest _ ?mg ?s1] =>
          destruct (IH wrappers mg s1)
            as (new & H1 & H2 & H3 & H4 & H5 & H6 & H7 & H8 & H9);
          assert (Hs1 : sameHost s s1) by (repeat split)
      end.
      destruct (filters_sameHost _ _ rest Hs1) as [F1 F2].
      exists new. split; [exact H1|]. split; [now rewrite H2, F1|].
      split; [exact H3|].
      split; [rewrite H4, F2; simpl; now rewrite <- app_assoc|].
      split; [eapply sameHost_trans; eassumption|].
      split; [exact H6|]. split; [exact H7|]. split; [exact H8 | exact H9].
    + cbn [fst snd negb].
      match goal with
      | |- context [annotateLoop _ _ _ rest _ ?mg ?s1] =>
          destruct (IH wrappers mg s1)
            as (new & H1 & H2 & H3 & H4 & H5 & H6 & H7 & H8 & H9);
          assert (Hs1 : sameHost s s1) by (repeat split)
      end.
      destruct (filters_sameHost _ _ rest Hs1) as [F1 F2].
      exists new. split; [exact H1|]. split; [now rewrite H2, F1|].
      split; [exact H3|].
      split; [rewrite H4, F2; simpl; now rewrite <- app_assoc|].
      split; [eapply sameHost_trans; eassumption|].
      split; [exact H6|]. split; [exact H7|]. split; [exact H8 | exact H9].
Qed.

End AnnotateOutcome.

Lemma existsb_filter {A : Type} (p : A -> bool) (l : list A) :
  existsb p l = match filter p l with [] => false | _ :: _ => true end.
Proof.
  induction l as [|a l IH]; [reflexivity|].
  simpl. destruct (p a); [reflexivity | exact IH].
Qed.

Lemma getMainGroup_counters (s : Figma) :
  created (snd (getMainGroup s)) = created s
  /\ minted (snd (getMainGroup s)) = minted s.
Proof.
  rewrite getMainGroup_unfold.
  destruct (cachedMainGroup s); [now split|].
  destruct (find isMainGroup (page_children s)); now split.
Qed.

Lemma renameById_keeps (i v : string) (n : SceneNode) :
  s_id (renameById i v n) = s_id n
  /\ s_type (renameById i v n) = s_type n
  /\ s_children (renameById i v n) = map (renameById i v) (s_children n).
Proof.
  destruct n as [ni t nm x y w h l d m c cs]. simpl.
  destruct (String.eqb ni i); repeat split.
Qed.

(** Renames keep the identifier and the kind of a node and reach each of
    its children. *)
Lemma renameAll_keeps (renames : list (string * string)) :
  forall n,
    s_id (renameAll renames n) = s_id n
    /\ s_type (renameAll renames n) = s_type n
    /\ s_children (renameAll renames n) = map (renameAll renames) (s_children n).
Proof.
  induction renames as [|r rs IH]; intros n.
  - simpl. now rewrite map_id.
  - change (renameAll (r :: rs) n) with (renameAll rs (renameById (fst r) (snd r) n)).
    destruct (IH (renameById (fst r) (snd r) n)) as (A1 & A2 & A3).
    destruct (renameById_keeps (fst r) (snd r) n) as (B1 & B2 & B3).
    rewrite A1, A2, A3, B1, B2, B3, map_map. repeat split.
Qed.

Section AnnotateRuns.

Variable measure : SceneNode -> Q * Q.
Variable nodeId : nat -> string.
Variable token : nat -> string.

(** The handle of the main group read before the loop sees the renames of
    the loop, one per accepted element and in their order, and nothing
    else. *)
Lemma annotateLoop_handle (icons : list Node) :
  forall (wrappers : list SceneNode) (mainGroup : option SceneNode) (s : Figma),
  exists renames,
    map fst renames = map id (filter (passesPrefixCheck s) icons)
    /\ snd (fst (annotateLoop measure nodeId token icons wrappers mainGroup s))
       = option_map (renameAll renames) mainGroup.
Proof.
  induction icons as [|icon rest IH]; intros wrappers mainGroup s.
  - exists []. split; [reflexivity | now destruct mainGroup].
  - cbn [annotateLoop filter]. unfold bind. rewrite annotateIcon_decides.
    assert (Hdec : passesPrefixCheck s icon
                   = match applicableName s icon with
                     | Some n => hasIconPrefix n
                     | None => false
                     end) by reflexivity.
    assert (Hrej : passesPrefixCheck s icon = false ->
               exists renames,
                 map fst renames
                 = map id (if passesPrefixCheck s icon
                           then icon :: filter (passesPrefixCheck s) rest
                           else filter (passesPrefixCheck s) rest)
                 /\ snd (fst (annotateLoop measure nodeId token rest wrappers mainGroup
                                 (with_messages
                                    (notifications s ++ [rejectionWarning icon])
                                    (closed s) s)))
                    = option_map (renameAll renames) mainGroup).
    { intros Hp. rewrite Hp.
      match goal with
      | |- context [annotateLoop _ _ _ rest _ _ ?s1] =>
          destruct (IH wrappers mainGroup s1) as (renames & Hf & E);
          assert (Hs1 : sameHost s s1) by (repeat split)
      end.
      destruct (filters_sameHost s _ rest Hs1) as [F1 _].
      exists renames. split; [now rewrite Hf, F1 | exact E]. }
    destruct (applicableName s icon) as [n|]; [|now apply Hrej].
    destruct (hasIconPrefix n) eqn:Hp; [|now apply Hrej].
    destruct (annotateAccepted_full measure nodeId token icon n wrappers mainGroup s)
      as (w & E & _).
    cbv zeta in E. rewrite E, Hdec. cbn [fst snd].
    match goal with
    | |- context [annotateLoop _ _ _ rest ?ws (option_map ?R1 _) ?s1] =>
        destruct (IH ws (option_map R1 mainGroup) s1) as (renames & Hf & E2);
        assert (Hs1 : sameHost s s1) by (repeat split)
    end.
    destruct (filters_sameHost s _ rest Hs1) as [F1 _].
    exists ((id icon, (n ++ "-" ++ token (minted s))%string) :: renames).
    split; [simpl; now rewrite Hf, F1|].
    rewrite E2. now destruct mainGroup.
Qed.

(** X1. The annotate command always closes with the message its selection
    decides: the request to select when nothing is selected, success when
    at least one element passes the check on its applicable name, and the
    naming hint otherwise; and it notifies exactly the warnings of the
    rejected elements, by kind, in the order of the selection. *)
Theorem X1_annotate_message_and_warnings :
  forall (s : Figma),
    let s' := invoke measure nodeId token "annotate" s in
    closed s' = Some (Some (annotateMessage s))
    /\ notifications s'
       = map rejectionWarning
             (filter (fun i => negb (passesPrefixCheck s i)) (selection s)).
Proof.
  intros s s'. subst s'. rewrite invoke_annotate, annotate_unfold.
  unfold annotateMessage.
  set (s0 := enter "annotate" s).
  change (selection s0) with (selection s).
  destruct (selection s) as [|icon rest] eqn:Esel; [split; reflexivity|].
  cbv zeta.
  destruct (getMainGroup_state s0) as (Hs01 & Hn1 & _).
  set (mg := fst (getMainGroup s0)) in *. set (s1 := snd (getMainGroup s0)) in *.
  destruct (annotateLoop_outcome measure nodeId token (icon :: rest) [] mg s1)
    as (new & H1 & H2 & _ & H4 & _).
  destruct (filters_sameHost s0 s1 (icon :: rest) Hs01) as [F1 F2].
  change (filter (passesPrefixCheck s0) (icon :: rest))
    with (filter (passesPrefixCheck s) (icon :: rest)) in F1.
  change (filter (fun i => negb (passesPrefixCheck s0 i)) (icon :: rest))
    with (filter (fun i => negb (passesPrefixCheck s i)) (icon :: rest)) in F2.
  rewrite F1 in H2. rewrite F2, Hn1 in H4. simpl app in H1, H4.
  rewrite existsb_filter.
  destruct (annotateLoop measure nodeId token (icon :: rest) [] mg s1)
    as [[wrappers mg'] s2].
  cbn [fst snd] in *. subst wrappers.
  set (accepted := filter (passesPrefixCheck s) (icon :: rest)) in *.
  clearbody accepted.
  destruct new as [|w ws].
  - destruct accepted; [|discriminate H2]. split; [reflexivity | exact H4].
  - destruct accepted; [discriminate H2|].
    destruct (mergeIntoMainGroup_result measure nodeId (w :: ws) mg' s2)
      as (merged & _ & _ & _ & _ & _ & _ & _ & Hcl & Hno & _).
    split; [exact Hcl | now rewrite Hno].
Qed.

(** X2. When no selected element passes the check (and when nothing is
    selected), the annotate command leaves the document as it was: the
    children of the page and the rest of the document are untouched and no
    node or token is made; the only write is the one the resolver may make
    to the cache, and only when something is selected. *)
Theorem X2_annotate_without_accepted_element :
  forall (s : Figma),
    existsb (passesPrefixCheck s) (selection s) = false ->
    let s' := invoke measure nodeId token "annotate" s in
    page_children s' = page_children s
    /\ elsewhere s' = elsewhere s
    /\ created s' = created s
    /\ minted s' = minted s
    /\ page_pluginData s'
       = match selection s with
         | [] => page_pluginData s
         | _ :: _ => page_pluginData (snd (getMainGroup (enter "annotate" s)))
         end.
Proof.
  intros s Hnone s'. subst s'. rewrite invoke_annotate, annotate_unfold.
  set (s0 := enter "annotate" s).
  change (selection s0) with (selection s).
  destruct (selection s) as [|icon rest] eqn:Esel; [repeat split|].
  cbv zeta.
  destruct (getMainGroup_state s0) as (Hs01 & _ & Hpc1 & Hew1 & _).
  destruct (getMainGroup_counters s0) as [Hc1 Hm1].
  set (mg := fst (getMainGroup s0)) in *. set (s1 := snd (getMainGroup s0)) in *.
  destruct (annotateLoop_outcome measure nodeId token (icon :: rest) [] mg s1)
    as (new & H1 & H2 & _ & _ & _ & H6 & H7 & H8 & H9).
  destruct (filters_sameHost s0 s1 (icon :: rest) Hs01) as [F1 _].
  change (filter (passesPrefixCheck s0) (icon :: rest))
    with (filter (passesPrefixCheck s) (icon :: rest)) in F1.
  rewrite F1 in H2. rewrite existsb_filter in Hnone.
  set (accepted := filter (passesPrefixCheck s) (icon :: rest)) in *.
  clearbody accepted. destruct accepted; [|discriminate Hnone].
  apply map_eq_nil in H2. subst new. destruct (H9 eq_refl) as [Hpc Hew].
  simpl app in H1.
  destruct (annotateLoop measure nodeId token (icon :: rest) [] mg s1)
    as [[wrappers mg'] s2].
  cbn [fst snd] in *. subst wrappers. cbn.
  rewrite Hpc, Hew, H6, H7, H8, Hpc1, Hew1, Hc1, Hm1. simpl.
  repeat split; lia.
Qed.

(** X3. When at least one selected element passes the check, the annotate
    command ends with the main group as the last child of the page, locked,
    holding what it held followed by one wrapper per accepted element in
    the order of the selection, each a locked group named
    [iconAnnotation-...] that stores the identifier of its element under
    [iconId]; the new selection is these wrappers.  The group is the one
    the resolver returned, with its former children as they were but for
    the renames of the accepted elements that are among them or below
    them, or a new group with the fixed name and no former child when the
    resolver returned none. *)
Theorem X3_annotate_merges_in_selection_order :
  forall (s : Figma),
    existsb (passesPrefixCheck s) (selection s) = true ->
    let s' := invoke measure nodeId token "annotate" s in
    exists rest merged old new,
      page_children s' = rest ++ [merged]
      /\ s_locked merged = true
      /\ s_children merged = old ++ new
      /\ map (getPluginData "iconId") new
         = map id (filter (passesPrefixCheck s) (selection s))
      /\ Forall (fun w => String.prefix "iconAnnotation-" (s_name w) = true
                          /\ s_type w = GROUP /\ s_locked w = true) new
      /\ map id (selection s') = map s_id new
      /\ match fst (getMainGroup (enter "annotate" s)) with
         | Some g =>
             s_id merged = s_id g /\ s_type merged = s_type g
             /\ exists renames,
                  map fst renames
                  = map id (filter (passesPrefixCheck s) (selection s))
                  /\ old = map (renameAll renames) (s_children g)
         | None => old = [] /\ s_type merged = GROUP /\ s_name merged = mainGroupName
         end.
Proof.
  intros s Hsome s'. subst s'. rewrite invoke_annotate, annotate_unfold.
  set (s0 := enter "annotate" s).
  change (selection s0) with (selection s).
  destruct (selection s) as [|icon rest] eqn:Esel; [discriminate Hsome|].
  cbv zeta.
  destruct (getMainGroup_state s0) as (Hs01 & _).
  set (mg := fst (getMainGroup s0)) in *. set (s1 := snd (getMainGroup s0)) in *.
  destruct (annotateLoop_outcome measure nodeId token (icon :: rest) [] mg s1)
    as (new & H1 & H2 & H3 & _).
  destruct (annotateLoop_handle (icon :: rest) [] mg s1) as (renames & Hren & Hmg).
  destruct (filters_sameHost s0 s1 (icon :: rest) Hs01) as [F1 _].
  change (filter (passesPrefixCheck s0) (icon :: rest))
    with (filter (passesPrefixCheck s) (icon :: rest)) in F1.
  rewrite F1 in H2, Hren. rewrite existsb_filter in Hsome. simpl app in H1.
  destruct (annotateLoop measure nodeId token (icon :: rest) [] mg s1)
    as [[wrappers mg'] s2].
  cbn [fst snd] in *. subst wrappers mg'.
  destruct new as [|w ws].
  { set (accepted := filter (passesPrefixCheck s) (icon :: rest)) in *.
    clearbody accepted. destruct accepted; [discriminate Hsome | discriminate H2]. }
  destruct (mergeIntoMainGroup_result measure nodeId (w :: ws)
              (option_map (renameAll renames) mg) s2)
    as (merged & Hpc & _ & Hch & Hty & Hnm & Hid & Hlk & _ & _ & _ & Hsl).
  exists (detach (s_id merged) (page_children s2)), merged,
         (match option_map (renameAll renames) mg with
          | Some g => s_children g
          | None => []
          end),
         (w :: ws).
  split; [exact Hpc|]. split; [exact Hlk|]. split; [exact Hch|].
  split; [exact H2|]. split; [exact H3|]. split; [exact Hsl|].
  destruct mg as [g|]; cbn [option_map] in *.
  - destruct (renameAll_keeps renames g) as (A1 & A2 & A3).
    split; [congruence|]. split; [congruence|].
    exists renames. split; [exact Hren | exact A3].
  - repeat split; assumption.
Qed.

End AnnotateRuns.

(** ** The name check *)

Lemma lower_idempotent (c : ascii) : lower (lower c) = lower c.
Proof. destruct c as [[] [] [] [] [] [] [] []]; reflexivity. Qed.

Lemma startsWith_ci_append (p n x : string) :
  startsWith_ci p n = true -> startsWith_ci p (n ++ x) = true.
Proof.
  revert n. induction p as [|a p IH]; intros n; [reflexivity|].
  destruct n as [|b n]; [discriminate|]. simpl.
  intros H. apply andb_true_iff in H as [Hc Hr].
  rewrite Hc. simpl. now apply IH.
Qed.

Lemma startsWith_ci_lowerString (p n : string) :
  startsWith_ci p (lowerString n) = startsWith_ci p n.
Proof.
  revert n. induction p as [|a p IH]; intros n; [reflexivity|].
  destruct n as [|b n]; [reflexivity|]. simpl.
  now rewrite lower_idempotent, IH.
Qed.

(** X6. A name that passes the check passes it with anything appended: the
    name [originalName-token] the annotate loop gives an annotated element
    passes again, so the check does not keep an annotated element from
    being annotated once more. *)
Theorem X6_renamed_element_passes_again :
  forall (n x : string),
    hasIconPrefix n = true -> hasIconPrefix (n ++ x) = true.
Proof.
  intros n x. unfold hasIconPrefix. intros H.
  repeat (apply orb_true_iff in H; destruct H as [H|H]);
    apply (startsWith_ci_append _ _ x) in H; rewrite H;
    rewrite ?orb_true_r; reflexivity.
Qed.

(** X6 at the name [ic_foo] and the token appended to it. *)
Lemma X6_renamed_element_passes_again_witness :
  hasIconPrefix "ic_foo" = true
  /\ hasIconPrefix ("ic_foo" ++ "-17000000000000") = true.
Proof.
  split; [reflexivity|].
  apply (X6_renamed_element_passes_again "ic_foo" "-17000000000000"). reflexivity.
Defined.

(** X8. The check ignores the case of letters: a name passes exactly when
    its lower-case form passes. *)
Theorem X8_name_check_ignores_case :
  forall (n : string), hasIconPrefix (lowerString n) = hasIconPrefix n.
Proof.
  intros n. unfold hasIconPrefix. now rewrite !startsWith_ci_lowerString.
Qed.

Section NamesOfThePlugin.

Variable measure : SceneNode -> Q * Q.
Variable nodeId : nat -> string.
Variable token : nat -> string.

(** X7. The names the plugin gives its own nodes never pass the check: a
    selected wrapper ([iconAnnotation-...]), main group or inner card that
    is not an instance is rejected with the warning of its kind and
    nothing is built for it. *)
Theorem X7_plugin_nodes_are_rejected :
  forall (icon : Node) (u : string)
         (wrappers : list SceneNode) (mainGroup : option SceneNode) (s : Figma),
    type icon <> INSTANCE ->
    name icon = ("iconAnnotation-" ++ u)%string
    \/ name icon = mainGroupName \/ name icon = "icon-naming-card" ->
    annotateIcon measure nodeId token icon wrappers mainGroup s
    = ((wrappers, mainGroup),
       with_messages (notifications s ++ [rejectionWarning icon]) (closed s) s).
Proof.
  intros icon u wrappers mainGroup s Hty Hname. rewrite annotateIcon_decides.
  assert (Hn : applicableName s icon = Some (name icon)).
  { unfold applicableName. destruct (type icon); congruence. }
  rewrite Hn.
  assert (Hp : hasIconPrefix (name icon) = false).
  { destruct Hname as [->|[->| ->]]; [|reflexivity|reflexivity].
    unfold hasIconPrefix. simpl. reflexivity. }
  now rewrite Hp.
Qed.

End NamesOfThePlugin.

Section AcceptedElement.

Variable measure : SceneNode -> Q * Q.
Variable nodeId : nat -> string.
Variable token : nat -> string.

(** X4. An element whose applicable name [n] passes the check (its own
    name, or the name of its main component for an instance) gets one
    wrapper, appended to those already built: it is named
    [iconAnnotation-token], stores the token under [uuid] and the
    element's identifier under [targetId] and [iconId], and shows [n] as
    its text; the element is renamed [n-token] in the document; six nodes
    and one token are made. *)
Theorem X4_accepted_element_is_labelled_and_renamed :
  forall (icon : Node) (n : string)
         (wrappers : list SceneNode) (mainGroup : option SceneNode) (s : Figma),
    applicableName s icon = Some n ->
    hasIconPrefix n = true ->
    let uuid := token (minted s) in
    let r := annotateIcon measure nodeId token icon wrappers mainGroup s in
    exists wrapper,
      fst (fst r) = wrappers ++ [wrapper]
      /\ s_name wrapper = ("iconAnnotation-" ++ uuid)%string
      /\ getPluginData "uuid" wrapper = uuid
      /\ getPluginData "targetId" wrapper = id icon
      /\ getPluginData "iconId" wrapper = id icon
      /\ labelText wrapper = Some n
      /\ page_children (snd r)
         = map (renameById (id icon) (n ++ "-" ++ uuid)%string) (page_children s)
      /\ elsewhere (snd r)
         = map (renameById (id icon) (n ++ "-" ++ uuid)%string) (elsewhere s)
      /\ created (snd r) = (6 + created s)%nat
      /\ minted (snd r) = S (minted s)
      /\ notifications (snd r) = notifications s.
Proof.
  intros icon n wrappers mainGroup s Hn Hp uuid r. subst r uuid.
  rewrite annotateIcon_decides, Hn, Hp.
  destruct (annotateAccepted_full measure nodeId token icon n wrappers mainGroup s)
    as (w & E & Hname & _ & _ & Hu & Ht & Hi & Hl).
  cbv zeta in E. rewrite E. exists w. cbn [fst snd].
  repeat split; assumption.
Qed.

(** X5. An instance is judged on its main component alone: when the
    component does not resolve, or its name fails the check, the instance
    is rejected with the warning for instances and nothing else changes,
    whatever the name of the instance itself. *)
Theorem X5_instance_without_valid_component_is_rejected :
  forall (icon : Node)
         (wrappers : list SceneNode) (mainGroup : option SceneNode) (s : Figma),
    type icon = INSTANCE ->
    match mainComponentOf s (id icon) with
    | Some c => hasIconPrefix c
    | None => false
    end = false ->
    annotateIcon measure nodeId token icon wrappers mainGroup s
    = ((wrappers, mainGroup),
       with_messages
         (notifications s
          ++ ["Instance corresponding component must start with ic_/ig_/img_/icon_."])
         (closed s) s).
Proof.
  intros icon wrappers mainGroup s Hty Hc. rewrite annotateIcon_decides.
  unfold applicableName, rejectionWarning. rewrite Hty.
  destruct (mainComponentOf s (id icon)) as [c|]; [|reflexivity].
  now rewrite Hc.
Qed.

End AcceptedElement.

(** ** The realign loop, wrapper by wrapper *)

Lemma realignWrapper_counts (w : SceneNode) (r m : nat) (s : Figma) :
  fst (realignWrapper w r m s)
  = (realigned s w,
     (r + if isMovable s w then 1 else 0)%nat,
     (m + if isDangling s w then 1 else 0)%nat).
Proof.
  unfold realigned, realignWrapper, isMovable, isDangling, isWrapperName.
  destruct (String.prefix "iconAnnotation-" (s_name w)); simpl.
  - cbv beta iota zeta delta [bind gets ret].
    destruct (nodeById s (getPluginData "iconId" w)) as [icon|]; simpl.
    + destruct (findOne isCard w); simpl;
        now rewrite ?Nat.add_0_r, ?Nat.add_1_r.
    + now rewrite ?Nat.add_0_r, ?Nat.add_1_r.
  - now rewrite ?Nat.add_0_r, ?Nat.add_1_r.
Qed.

Lemma realignLoop_counts (s : Figma) (wrappers : list SceneNode) :
  forall children r m,
    fst (realignLoop wrappers children r m s)
    = (children ++ flat_map (realigned s) wrappers,
       (r + List.length (filter (isMovable s) wrappers))%nat,
       (m + List.length (filter (isDangling s) wrappers))%nat).
Proof.
  induction wrappers as [|w ws IH]; intros children r m.
  - simpl. now rewrite app_nil_r, !Nat.add_0_r.
  - cbn [realignLoop flat_map filter]. unfold bind.
    pose proof (realignWrapper_counts w r m s) as Hc.
    destruct (realignWrapper_state w r m s) as [Hs _].
    destruct (realignWrapper w r m s) as [[[kept r'] m'] s'].
    simpl in Hs, Hc. subst s'. injection Hc as -> -> ->.
    cbn [fst snd]. rewrite IH, app_assoc.
    destruct (isMovable s w), (isDangling s w); simpl;
      rewrite ?Nat.add_0_r, ?Nat.add_1_r, <- ?Nat.add_succ_comm; reflexivity.
Qed.

(** What a child of the main group becomes in one turn of the loop. *)
Lemma realigned_cases (s : Figma) (w : SceneNode) :
  (isDangling s w = true ->
   realigned s w = if removeThrows s (s_id w) then [w] else [])
  /\ (isDangling s w = false -> isMovable s w = false -> realigned s w = [w])
  /\ (isMovable s w = true ->
      isDangling s w = false
      /\ exists x y, realigned s w = [set_xy x y w]).
Proof.
  unfold realigned, realignWrapper, isMovable, isDangling, isWrapperName.
  destruct (String.prefix "iconAnnotation-" (s_name w)); simpl;
    [|repeat split; discriminate].
  cbv beta iota zeta delta [bind gets ret].
  destruct (nodeById s (getPluginData "iconId" w)) as [icon|]; simpl.
  - destruct (findOne isCard w); simpl.
    + split; [discriminate|]. split; [discriminate|].
      intros _. split; [reflexivity|]. do 2 eexists. reflexivity.
    + split; [discriminate|]. split; [reflexivity | discriminate].
  - split; [reflexivity|]. split; discriminate.
Qed.

Lemma realigned_onlyMoved (s : Figma) (children : list SceneNode) :
  Forall2 (onlyMoved s) (filter (survives s) children)
          (flat_map (realigned s) children).
Proof.
  induction children as [|w ws IH]; [constructor|].
  cbn [filter flat_map]. unfold survives at 1.
  destruct (realigned_cases s w) as (Hd & Hk & Hm).
  destruct (isDangling s w) eqn:Ed.
  - rewrite (Hd eq_refl). destruct (removeThrows s (s_id w)); simpl; [|exact IH].
    constructor; [|exact IH]. split; [now destruct w | reflexivity].
  - simpl. destruct (isMovable s w) eqn:Em.
    + destruct (Hm eq_refl) as (_ & x & y & E). rewrite E. simpl.
      constructor; [|exact IH]. split; [now destruct w | intros H; congruence].
    + rewrite (Hk eq_refl eq_refl). simpl.
      constructor; [|exact IH]. split; [now destruct w | reflexivity].
Qed.

Lemma realign_predicates_ext (s s' : Figma) :
  nodeById s' = nodeById s -> removeThrows s' = removeThrows s ->
  (forall w, isMovable s' w = isMovable s w)
  /\ (forall w, isDangling s' w = isDangling s w)
  /\ (forall w, survives s' w = survives s w).
Proof.
  intros Hn Hr. unfold survives, isMovable, isDangling. rewrite Hn, Hr.
  repeat split.
Qed.

Section RealignRuns.

Variable measure : SceneNode -> Q * Q.
Variable nodeId : nat -> string.
Variable token : nat -> string.

(** The state the loop runs in reads the host as the state the command was
    called in. *)
Lemma realign_reads_same_host (s : Figma) :
  let s1 := snd (getMainGroup (enter "realign" s)) in
  currentPage s1 = currentPage s /\ nodeById s1 = nodeById s
  /\ removeThrows s1 = removeThrows s.
Proof.
  destruct (getMainGroup_state (enter "realign" s)) as ((_ & Hp & Hn & _ & Hr & _) & _).
  repeat split; assumption.
Qed.

(** X9. With a main group, the realign command closes with "Re-aligned n
    annotations, removed m invalid annotations.", where n counts the
    children named [iconAnnotation-...] whose target resolves and whose
    inner card is found, and m those whose target does not resolve; m
    counts them whether or not their removal went through, and children
    with another name or without a card are counted nowhere. *)
Theorem X9_realign_summary_counts :
  forall (s : Figma) (g : SceneNode),
    fst (getMainGroup (enter "realign" s)) = Some g ->
    let s' := invoke measure nodeId token "realign" s in
    closed s'
    = Some (Some (realignMessage
                    (List.length (filter (isMovable s) (s_children g)))
                    (List.length (filter (isDangling s) (s_children g)))))
    /\ notifications s' = [].
Proof.
  intros s g Eg s'. subst s'. rewrite invoke_realign, realign_unfold, Eg.
  cbv zeta. rewrite realignLoop_counts.
  destruct (realign_reads_same_host s) as (Hp & Hn & Hr). cbv zeta in Hp, Hn, Hr.
  destruct (realign_predicates_ext s _ Hn Hr) as (Hm & Hd & _).
  rewrite (filter_ext _ _ Hm), (filter_ext _ _ Hd).
  split; [reflexivity|].
  destruct (getMainGroup_state (enter "realign" s)) as (_ & Hno & _).
  match goal with
  | |- notifications (snd (closePlugin ?m (snd (page_appendChild ?n ?st)))) = _ =>
      change (notifications st = [])
  end.
  exact Hno.
Qed.

(** X10. Without a main group, the realign command closes with "can't find
    main group." and touches nothing: the children of the page, the rest
    of the document and the plugin data of the page are as before. *)
Theorem X10_realign_without_main_group :
  forall (s : Figma),
    fst (getMainGroup (enter "realign" s)) = None ->
    let s' := invoke measure nodeId token "realign" s in
    closed s' = Some (Some "can't find main group.")
    /\ notifications s' = []
    /\ page_children s' = page_children s
    /\ elsewhere s' = elsewhere s
    /\ page_pluginData s' = page_pluginData s.
Proof.
  intros s Eg s'. subst s'. rewrite invoke_realign, realign_unfold, Eg.
  assert (Es : snd (getMainGroup (enter "realign" s)) = enter "realign" s).
  { revert Eg. rewrite getMainGroup_unfold.
    destruct (cachedMainGroup (enter "realign" s)); [discriminate|].
    now destruct (find isMainGroup (page_children (enter "realign" s))). }
  rewrite Es. repeat split.
Qed.

(** X11. With a main group, the realign command puts the group back as the
    last child of the page, locked, with its identifier, kind and name; its
    children are, in their order, those that were there except the
    wrappers whose target does not resolve and whose removal went through;
    each child left differs from what it was in its position at most, and
    not at all unless it is a wrapper with a resolving target and a card.
    Nothing is rebuilt and nothing is added. *)
Theorem X11_realign_prunes_and_moves_only :
  forall (s : Figma) (g : SceneNode),
    fst (getMainGroup (enter "realign" s)) = Some g ->
    let s' := invoke measure nodeId token "realign" s in
    exists merged,
      page_children s' = detach (s_id g) (page_children s) ++ [merged]
      /\ elsewhere s' = detach (s_id g) (elsewhere s)
      /\ s_id merged = s_id g /\ s_type merged = s_type g
      /\ s_name merged = s_name g
      /\ s_locked merged = true
      /\ Forall2 (onlyMoved s) (filter (survives s) (s_children g))
                 (s_children merged).
Proof.
  intros s g Eg s'. subst s'. rewrite invoke_realign.
  destruct (realign_result (enter "realign" s) g Eg) as (Hpc & Hew & _).
  cbv zeta in Hpc, Hew.
  destruct (realign_reads_same_host s) as (Hp & Hn & Hr). cbv zeta in Hp, Hn, Hr.
  eexists. split; [exact Hpc|]. split; [exact Hew|].
  split; [now destruct g|]. split; [now destruct g|]. split; [now destruct g|].
  split; [reflexivity|].
  change (s_children (set_locked true
            (set_children
               (flat_map (realigned (snd (getMainGroup (enter "realign" s))))
                         (s_children g))
               (set_locked false g))))
    with (flat_map (realigned (snd (getMainGroup (enter "realign" s))))
                   (s_children g)).
  rewrite (flat_map_ext _ (realigned s)
             (fun w => realigned_ext s _ w Hp Hn Hr)).
  apply realigned_onlyMoved.
Qed.

End RealignRuns.

(** ** The direction of the realign loop and of the calculators *)

(** X13. The realign loop recomputes, for every element, the gaps and the
    direction of the TypeScript calculator; for an element with a frame
    ancestor these are also the gaps and the direction of the compiled
    calculator that placed the callout. *)
Theorem X13_realign_direction_is_the_calculators :
  forall (pageWidth pageHeight : Value) (icon : Node),
    let gaps := realignGaps pageWidth pageHeight icon in
    let ts := calculateGapAndDirection_ts pageWidth pageHeight icon in
    let js := calculateGapAndDirection icon in
    (forall d, gapIn gaps d = gapOf_ts ts d)
    /\ realignDir gaps = ts_minDir ts
    /\ match getOutermostFrame icon with
       | Some _ => (forall d, gapIn gaps d = Fin (gapOf js d))
                   /\ realignDir gaps = minDir js
       | None => True
       end.
Proof.
  intros pageWidth pageHeight icon gaps ts js.
  assert (Hg : forall d, gapIn gaps d = gapOf_ts ts d)
    by (intros d; apply realignGaps_are_ts_gaps).
  assert (Hd : realignDir gaps = ts_minDir ts)
    by apply realignDir_is_ts_minDir.
  split; [exact Hg|]. split; [exact Hd|].
  destruct (getOutermostFrame icon) as [outer|] eqn:E; [|exact I].
  pose proof (ts_is_js_under_a_frame pageWidth pageHeight icon outer E) as Ets.
  fold ts js in Ets. split.
  - intros d. rewrite Hg, Ets. now destruct d.
  - now rewrite Hd, Ets.
Qed.

Section BuiltWrapper.

Variable measure : SceneNode -> Q * Q.
Variable nodeId : nat -> string.

(** X12. Realign leaves a callout of an element with a frame ancestor
    where annotate put it: the wrapper the builder made for the element,
    with [iconId] stored as the annotate loop stores it, is found by the
    loop (its name, its target and its card), counted as realigned and
    given the position it already has, as long as the element resolves to
    what it was. *)
Theorem X12_realign_keeps_a_fresh_callout_in_place :
  forall (node outer : Node) (labelFrame : SceneNode) (uuid : string)
         (s0 s : Figma) (realigned removed : nat),
    getOutermostFrame node = Some outer ->
    nodeById s (id node) = Some node ->
    let wrapper :=
      setPluginData "iconId" (id node)
        (fst (createAnnotationGroup measure nodeId node labelFrame uuid s0)) in
    realignWrapper wrapper realigned removed s
    = (([wrapper], S realigned, removed), s).
Proof.
  intros node outer labelFrame uuid s0 s realigned removed Ef Hres wrapper.
  destruct (createAnnotationGroup_shape measure nodeId node labelFrame uuid s0)
    as (circle & vector & card & Hc & Hcard & _ & _ & _ & Hx & Hy & Hname & _).
  cbv zeta in Hc, Hx, Hy, Hname.
  set (built := fst (createAnnotationGroup measure nodeId node labelFrame uuid s0)) in *.
  assert (Hn : String.prefix "iconAnnotation-" (s_name wrapper) = true).
  { change (s_name wrapper) with (s_name built). rewrite Hname. apply prefix_append. }
  assert (Hi : nodeById s (getPluginData "iconId" wrapper) = Some node).
  { replace (getPluginData "iconId" wrapper) with (id node); [exact Hres|].
    subst wrapper. unfold getPluginData. simpl. reflexivity. }
  assert (Hf : findOne isCard wrapper = Some card).
  { apply cardOf_single; [exact Hc | exact Hcard]. }
  rewrite (realignWrapper_moves wrapper node card realigned removed s Hn Hi Hf).
  pose proof (realignDir_under_a_frame node outer (page_width (currentPage s))
                (page_height (currentPage s)) Ef) as Hd.
  rewrite Hd.
  destruct (positions_same_as_builder (minDir (calculateGapAndDirection node))
              (absoluteX node) (absoluteY node) (width node) (height node)
              (s_width card) (s_height card)) as [Hp _].
  rewrite Hp. cbn [fst snd]. rewrite <- Hx, <- Hy.
  change (s_x built) with (s_x wrapper). change (s_y built) with (s_y wrapper).
  now destruct wrapper.
Qed.

End BuiltWrapper.

Section BuilderFacts.

Variable measure : SceneNode -> Q * Q.
Variable nodeId : nat -> string.

Lemma connectorLength_built (node : Node) (labelFrame : SceneNode) (uuid : string)
    (s : Figma) :
  let r := calculateGapAndDirection node in
  connectorLength (fst (createAnnotationGroup measure nodeId node labelFrame uuid s))
  = Some (Math_max (minGap r + 66) 60).
Proof.
  cbv zeta. rewrite minGap_is_gap_of_minDir.
  destruct (createAnnotationGroup_shape measure nodeId node labelFrame uuid s)
    as (circle & vector & card & Hc & Hcard & Hch & Hmode & Hsize & _).
  unfold connectorLength. rewrite (cardOf_single _ _ Hc Hcard), Hch, Hmode.
  destruct (minDir (calculateGapAndDirection node));
    injection Hsize as Hw Hh; now rewrite ?Hw, ?Hh.
Qed.

(** X14. For an element that lies within its outermost frame, the four
    gaps and the smallest of them are non-negative, and the connector is
    the smallest gap plus 66, at least 66 long: the minimum length of 60
    never applies. *)
Theorem X14_element_within_its_frame :
  forall (node outer : Node) (labelFrame : SceneNode) (uuid : string) (s : Figma),
    getOutermostFrame node = Some outer ->
    absoluteX outer <= absoluteX node ->
    absoluteX node + width node <= absoluteX outer + width outer ->
    absoluteY outer <= absoluteY node ->
    absoluteY node + height node <= absoluteY outer + height outer ->
    let r := calculateGapAndDirection node in
    0 <= gapLeft r /\ 0 <= gapRight r /\ 0 <= gapTop r /\ 0 <= gapBottom r
    /\ 0 <= minGap r
    /\ exists len,
         connectorLength
           (fst (createAnnotationGroup measure nodeId node labelFrame uuid s))
         = Some len
         /\ len == minGap r + 66 /\ 66 <= len.
Proof.
  intros node outer labelFrame uuid s Ef Hl Hr Ht Hb r.
  assert (Hg : gapLeft r = absoluteX node - absoluteX outer
               /\ gapRight r = absoluteX outer + width outer
                               - (absoluteX node + width node)
               /\ gapTop r = absoluteY node - absoluteY outer
               /\ gapBottom r = absoluteY outer + height outer
                                - (absoluteY node + height node)).
  { subst r. unfold calculateGapAndDirection. rewrite Ef. repeat split. }
  destruct Hg as (G1 & G2 & G3 & G4).
  assert (Hmin : 0 <= minGap r).
  { pose proof (minGap_is_gap_of_minDir node) as E0. fold r in E0. rewrite E0.
    destruct (minDir r); simpl; rewrite ?G1, ?G2, ?G3, ?G4; lra. }
  split; [rewrite G1; lra|]. split; [rewrite G2; lra|].
  split; [rewrite G3; lra|]. split; [rewrite G4; lra|].
  split; [exact Hmin|].
  eexists. split; [apply connectorLength_built|]. fold r.
  destruct (Math_max_spec (minGap r + 66) 60) as [Hmax _].
  assert (E : Math_max (minGap r + 66) 60 == minGap r + 66) by (apply Hmax; lra).
  split; [exact E | rewrite E; lra].
Qed.

(** X15. The builder puts the dot next to the element and the label at the
    far end: dot, connector, label for right and bottom; label, connector,
    dot for left and top; the card is laid out horizontally for left and
    right and vertically for top and bottom; the dot is 6 x 6 and the
    connector 2 thick; the label is the one it was given.  It makes four
    nodes (dot, card, connector, wrapper, in the order of their
    identifiers) and uses no token. *)
Theorem X15_builder_composition :
  forall (node : Node) (labelFrame : SceneNode) (uuid : string) (s : Figma),
    let r := calculateGapAndDirection node in
    let built := createAnnotationGroup measure nodeId node labelFrame uuid s in
    exists dot connector card,
      s_children (fst built) = [card]
      /\ s_children card
         = match minDir r with
           | Right | Bottom => [dot; connector; labelFrame]
           | Left | Top => [labelFrame; connector; dot]
           end
      /\ s_layoutMode card
         = match minDir r with Right | Left => HORIZONTAL | Top | Bottom => VERTICAL end
      /\ s_type dot = ELLIPSE /\ s_width dot = 6 /\ s_height dot = 6
      /\ s_type connector = VECTOR
      /\ match minDir r with
         | Right | Left => s_height connector
         | Top | Bottom => s_width connector
         end = 2
      /\ s_type card = FRAME /\ s_name card = "icon-naming-card"
      /\ s_x card = 0 /\ s_y card = 0
      /\ map s_id [dot; card; connector; fst built]
         = map nodeId [created s; S (created s); S (S (created s));
                       S (S (S (created s)))]
      /\ created (snd built) = (4 + created s)%nat
      /\ minted (snd built) = minted s.
Proof.
  intros node labelFrame uuid s r built. subst built.
  unfold createAnnotationGroup. fold r. clearbody r.
  cbv beta iota zeta
      delta [bind ret createFrame createEllipse createVector createNode
             figma_group fst snd].
  destruct (minDir r); do 3 eexists; repeat split.
Qed.

End BuilderFacts.

(** ** The resolver and the commands as a whole *)

(** X18. The resolver never touches the scene, the selection, the messages
    or the counters.  What it returns is a group with the exact name; it
    writes the cache only after a scan that found the group among the
    children of the page, and then with the identifier of that group; when
    it returns nothing the state is unchanged and no child of the page is
    a group with that name. *)
Theorem X18_resolver_effects :
  forall (s : Figma),
    let r := getMainGroup s in
    page_children (snd r) = page_children s
    /\ elsewhere (snd r) = elsewhere s
    /\ selection (snd r) = selection s
    /\ notifications (snd r) = notifications s
    /\ closed (snd r) = closed s
    /\ created (snd r) = created s /\ minted (snd r) = minted s
    /\ match fst r with
       | Some g =>
           s_type g = GROUP /\ s_name g = mainGroupName
           /\ (snd r = s
               \/ (In g (page_children s)
                   /\ page_pluginData (snd r)
                      = storeData "mainGroupId" (s_id g) (page_pluginData s)))
       | None => snd r = s /\ forall c, In c (page_children s) -> isMainGroup c = false
       end.
Proof.
  intros s r. subst r.
  destruct (getMainGroup_state s) as ((_ & _ & _ & _ & _ & Hcl) & Hn & Hpc & Hew & Hsel).
  destruct (getMainGroup_counters s) as [Hc Hm].
  pose proof (getMainGroup_sound s) as Hs.
  repeat (split; [assumption|]).
  revert Hs. rewrite getMainGroup_unfold.
  destruct (cachedMainGroup s) as [g|].
  - simpl. intros [Ht Hnm]. repeat split; auto.
  - destruct (find isMainGroup (page_children s)) as [g|] eqn:Ef; simpl.
    + intros [Ht Hnm]. repeat split; auto. right.
      split; [now apply find_some in Ef | reflexivity].
    + intros H. split; [reflexivity | exact H].
Qed.

(** X19. A cache that does not lead to a main group is repaired by the
    scan: the first main group among the children of the page is returned
    and its identifier is written to the cache; the next call then answers
    from the cache, with the same group and without another write.  The
    identifier of the group is not empty and resolves to the group. *)
Theorem X19_stale_cache_is_repaired :
  forall (s : Figma) (g : SceneNode),
    cachedMainGroup s = None ->
    find isMainGroup (page_children s) = Some g ->
    s_id g <> "" ->
    findByIdIn (s_id g) (page_children s ++ elsewhere s) = Some g ->
    let s1 := snd (getMainGroup s) in
    fst (getMainGroup s) = Some g
    /\ lookupData "mainGroupId" (page_pluginData s1) = s_id g
    /\ getMainGroup s1 = (Some g, s1).
Proof.
  intros s g Ec Ef Hid Hres s1. subst s1.
  rewrite getMainGroup_unfold, Ec, Ef. cbn [fst snd].
  split; [reflexivity|]. split; [apply lookupData_storeData|].
  rewrite getMainGroup_unfold.
  assert (E : cachedMainGroup
                (with_page_pluginData
                   (storeData "mainGroupId" (s_id g) (page_pluginData s)) s)
              = Some g).
  { unfold cachedMainGroup.
    change (page_pluginData (with_page_pluginData ?d s)) with d.
    rewrite lookupData_storeData.
    apply String.eqb_neq in Hid. rewrite Hid.
    change (page_children (with_page_pluginData _ s)) with (page_children s).
    change (elsewhere (with_page_pluginData _ s)) with (elsewhere s).
    rewrite Hres. apply find_some in Ef as [_ Hm]. now rewrite Hm. }
  now rewrite E.
Qed.

Section Commands.

Variable measure : SceneNode -> Q * Q.
Variable nodeId : nat -> string.
Variable token : nat -> string.

(** X16. When the group the cached identifier resolves to is a child of the
    page (or the cache leads to no main group), a page with at most one
    main group among its children has at most one after the annotate
    command. *)
Theorem X16_annotate_keeps_one_main_group :
  forall (s : Figma),
    (List.length (mainGroupsOf s) <= 1)%nat ->
    (forall g, cachedMainGroup (enter "annotate" s) = Some g ->
               In g (page_children s)) ->
    (List.length (mainGroupsOf (invoke measure nodeId token "annotate" s)) <= 1)%nat.
Proof. intros s H1 H2. now apply annotate_keeps_one_main_group. Qed.

End Commands.

(** ** The further properties at the sample states *)

(** X2 at the sample page with only the layer [bar] selected. *)
Lemma X2_annotate_without_accepted_element_witness :
  existsb (passesPrefixCheck rejectedOnlyState) (selection rejectedOnlyState) = false
  /\ page_children (invoke sampleMeasure sampleNodeId sampleToken "annotate"
                           rejectedOnlyState)
     = page_children rejectedOnlyState.
Proof.
  split; [reflexivity|].
  exact (proj1 (X2_annotate_without_accepted_element sampleMeasure sampleNodeId
                  sampleToken rejectedOnlyState eq_refl)).
Defined.

(** X3 at the sample page with the layers [ic_foo] and [bar] selected. *)
Lemma X3_annotate_merges_in_selection_order_witness :
  existsb (passesPrefixCheck sampleState) (selection sampleState) = true
  /\ exists rest merged old new,
       page_children (invoke sampleMeasure sampleNodeId sampleToken "annotate"
                             sampleState) = rest ++ [merged]
       /\ s_locked merged = true
       /\ s_children merged = old ++ new
       /\ map (getPluginData "iconId") new
          = map id (filter (passesPrefixCheck sampleState) (selection sampleState)).
Proof.
  split; [reflexivity|].
  destruct (X3_annotate_merges_in_selection_order sampleMeasure sampleNodeId
              sampleToken sampleState eq_refl)
    as (rest & merged & old & new & H1 & H2 & H3 & H4 & _).
  exists rest, merged, old, new. repeat split; assumption.
Defined.

(** X4 at the instance whose main component is named [icon_check]: the
    callout shows the name of the component, not the name of the
    instance. *)
Lemma X4_accepted_element_is_labelled_and_renamed_witness :
  applicableName selectedState looseIcon = Some "icon_check"
  /\ hasIconPrefix "icon_check" = true
  /\ exists wrapper,
       fst (fst (annotateIcon sampleMeasure sampleNodeId sampleToken looseIcon
                              [] None selectedState)) = [] ++ [wrapper]
       /\ labelText wrapper = Some "icon_check".
Proof.
  split; [reflexivity|]. split; [reflexivity|].
  destruct (X4_accepted_element_is_labelled_and_renamed sampleMeasure sampleNodeId
              sampleToken looseIcon "icon_check" [] None selectedState
              eq_refl eq_refl)
    as (wrapper & H1 & _ & _ & _ & _ & H6 & _).
  exists wrapper. split; [exact H1 | exact H6].
Defined.

(** X5 at an instance named [ic_orphan] whose component does not
    resolve. *)
Lemma X5_instance_without_valid_component_is_rejected_witness :
  type orphanInstance = INSTANCE
  /\ hasIconPrefix (name orphanInstance) = true
  /\ match mainComponentOf sampleState (id orphanInstance) with
     | Some c => hasIconPrefix c
     | None => false
     end = false
  /\ fst (annotateIcon sampleMeasure sampleNodeId sampleToken orphanInstance
                       [] None sampleState) = ([], None).
Proof.
  split; [reflexivity|]. split; [reflexivity|]. split; [reflexivity|].
  rewrite (X5_instance_without_valid_component_is_rejected sampleMeasure sampleNodeId
             sampleToken orphanInstance [] None sampleState eq_refl eq_refl).
  reflexivity.
Defined.

(** X7 at a selected wrapper. *)
Lemma X7_plugin_nodes_are_rejected_witness :
  type selectedWrapper <> INSTANCE
  /\ name selectedWrapper = ("iconAnnotation-" ++ "17000000000000")%string
  /\ fst (annotateIcon sampleMeasure sampleNodeId sampleToken selectedWrapper
                       [] None sampleState) = ([], None).
Proof.
  assert (Ht : type selectedWrapper <> INSTANCE) by discriminate.
  split; [exact Ht|]. split; [reflexivity|].
  rewrite (X7_plugin_nodes_are_rejected sampleMeasure sampleNodeId sampleToken
             selectedWrapper "17000000000000" [] None sampleState Ht
             (or_introl eq_refl)).
  reflexivity.
Defined.

Lemma afterDeletionState_main_group :
  fst (getMainGroup (enter "realign" afterDeletionState)) = Some annotatedGroup.
Proof. vm_compute. reflexivity. Qed.

(** After the deletion one wrapper is realigned and one is removed. *)
Example realign_after_deletion :
  List.length (filter (isMovable afterDeletionState) (s_children annotatedGroup)) = 1%nat
  /\ List.length (filter (isDangling afterDeletionState) (s_children annotatedGroup))
     = 1%nat
  /\ closed (invoke sampleMeasure sampleNodeId sampleToken "realign" afterDeletionState)
     = Some (Some "Re-aligned 1 annotations, removed 1 invalid annotations.").
Proof. repeat split; vm_compute; reflexivity. Qed.

(** X9 at the annotated sample page after the instance was deleted. *)
Lemma X9_realign_summary_counts_witness :
  fst (getMainGroup (enter "realign" afterDeletionState)) = Some annotatedGroup
  /\ closed (invoke sampleMeasure sampleNodeId sampleToken "realign" afterDeletionState)
     = Some (Some (realignMessage
                     (List.length (filter (isMovable afterDeletionState)
                                          (s_children annotatedGroup)))
                     (List.length (filter (isDangling afterDeletionState)
                                          (s_children annotatedGroup))))).
Proof.
  split; [exact afterDeletionState_main_group|].
  exact (proj1 (X9_realign_summary_counts sampleMeasure sampleNodeId sampleToken
                  afterDeletionState annotatedGroup afterDeletionState_main_group)).
Defined.

(** X10 at the sample page before any annotation. *)
Lemma X10_realign_without_main_group_witness :
  fst (getMainGroup (enter "realign" sampleState)) = None
  /\ closed (invoke sampleMeasure sampleNodeId sampleToken "realign" sampleState)
     = Some (Some "can't find main group.").
Proof.
  split; [reflexivity|].
  exact (proj1 (X10_realign_without_main_group sampleMeasure sampleNodeId sampleToken
                  sampleState eq_refl)).
Defined.

(** X11 at the annotated sample page after the instance was deleted. *)
Lemma X11_realign_prunes_and_moves_only_witness :
  fst (getMainGroup (enter "realign" afterDeletionState)) = Some annotatedGroup
  /\ exists merged,
       page_children (invoke sampleMeasure sampleNodeId sampleToken "realign"
                             afterDeletionState)
       = detach (s_id annotatedGroup) (page_children afterDeletionState) ++ [merged]
       /\ Forall2 (onlyMoved afterDeletionState)
                  (filter (survives afterDeletionState) (s_children annotatedGroup))
                  (s_children merged).
Proof.
  split; [exact afterDeletionState_main_group|].
  destruct (X11_realign_prunes_and_moves_only sampleMeasure sampleNodeId sampleToken
              afterDeletionState annotatedGroup afterDeletionState_main_group)
    as (merged & H1 & _ & _ & _ & _ & _ & H7).
  exists merged. split; [exact H1 | exact H7].
Defined.

(** X12 at the element of the artboard. *)
Lemma X12_realign_keeps_a_fresh_callout_in_place_witness :
  getOutermostFrame overhangingIcon = Some artboard
  /\ nodeById sampleState (id overhangingIcon) = Some overhangingIcon
  /\ realignWrapper (sampleWrapper overhangingIcon) 0 0 sampleState
     = (([sampleWrapper overhangingIcon], 1%nat, 0%nat), sampleState).
Proof.
  split; [reflexivity|]. split; [reflexivity|].
  exact (X12_realign_keeps_a_fresh_callout_in_place sampleMeasure sampleNodeId
           overhangingIcon artboard sampleLabel "17000000000000"
           sampleState sampleState 0%nat 0%nat eq_refl eq_refl).
Defined.

Lemma nestedIcon_within_artboard :
  absoluteX artboard <= absoluteX nestedIcon
  /\ absoluteX nestedIcon + width nestedIcon <= absoluteX artboard + width artboard
  /\ absoluteY artboard <= absoluteY nestedIcon
  /\ absoluteY nestedIcon + height nestedIcon <= absoluteY artboard + height artboard.
Proof. repeat split; vm_compute; discriminate. Qed.

(** X14 at the element under the toolbar, which lies within the
    artboard. *)
Lemma X14_element_within_its_frame_witness :
  getOutermostFrame nestedIcon = Some artboard
  /\ (absoluteX artboard <= absoluteX nestedIcon
      /\ absoluteX nestedIcon + width nestedIcon <= absoluteX artboard + width artboard
      /\ absoluteY artboard <= absoluteY nestedIcon
      /\ absoluteY nestedIcon + height nestedIcon
         <= absoluteY artboard + height artboard)
  /\ 0 <= minGap (calculateGapAndDirection nestedIcon).
Proof.
  split; [reflexivity|]. split; [exact nestedIcon_within_artboard|].
  destruct nestedIcon_within_artboard as (H1 & H2 & H3 & H4).
  exact (proj1 (proj2 (proj2 (proj2 (proj2
           (X14_element_within_its_frame sampleMeasure sampleNodeId
              nestedIcon artboard sampleLabel "17000000000000" sampleState
              eq_refl H1 H2 H3 H4)))))).
Defined.

Lemma reselectedState_one_main_group :
  (List.length (mainGroupsOf reselectedState) <= 1)%nat.
Proof. vm_compute. lia. Qed.

Lemma reselectedState_cache :
  forall g, cachedMainGroup (enter "annotate" reselectedState) = Some g ->
            In g (page_children reselectedState).
Proof.
  assert (E : cachedMainGroup (enter "annotate" reselectedState) = None)
    by (vm_compute; reflexivity).
  intros g H. rewrite E in H. discriminate H.
Qed.

(** X16 at the annotated sample page, annotated once more. *)
Lemma X16_annotate_keeps_one_main_group_witness :
  (List.length (mainGroupsOf reselectedState) <= 1)%nat
  /\ (forall g, cachedMainGroup (enter "annotate" reselectedState) = Some g ->
                In g (page_children reselectedState))
  /\ (List.length (mainGroupsOf (invoke sampleMeasure sampleNodeId sampleToken
                                        "annotate" reselectedState)) <= 1)%nat.
Proof.
  split; [exact reselectedState_one_main_group|].
  split; [exact reselectedState_cache|].
  exact (X16_annotate_keeps_one_main_group sampleMeasure sampleNodeId sampleToken
           reselectedState reselectedState_one_main_group reselectedState_cache).
Defined.

(** X18 at the sample page before any annotation: nothing is found and no
    child of the page is a main group. *)
Lemma X18_resolver_effects_witness :
  snd (getMainGroup sampleState) = sampleState.
Proof.
  pose proof (X18_resolver_effects sampleState) as H. cbv zeta in H.
  destruct H as (_ & _ & _ & _ & _ & _ & _ & H).
  change (fst (getMainGroup sampleState)) with (@None SceneNode) in H.
  exact (proj1 H).
Defined.

Lemma staleCacheState_premises :
  cachedMainGroup staleCacheState = None
  /\ find isMainGroup (page_children staleCacheState) = Some copiedGroup
  /\ findByIdIn (s_id copiedGroup)
                (page_children staleCacheState ++ elsewhere staleCacheState)
     = Some copiedGroup.
Proof. repeat split; vm_compute; reflexivity. Qed.

(** X19 at a page whose cached identifier resolves to nothing. *)
Lemma X19_stale_cache_is_repaired_witness :
  cachedMainGroup staleCacheState = None
  /\ find isMainGroup (page_children staleCacheState) = Some copiedGroup
  /\ s_id copiedGroup <> ""
  /\ findByIdIn (s_id copiedGroup)
                (page_children staleCacheState ++ elsewhere staleCacheState)
     = Some copiedGroup
  /\ fst (getMainGroup staleCacheState) = Some copiedGroup.
Proof.
  destruct staleCacheState_premises as (H1 & H2 & H3).
  assert (Hid : s_id copiedGroup <> "") by discriminate.
  split; [exact H1|]. split; [exact H2|]. split; [exact Hid|]. split; [exact H3|].
  exact (proj1 (X19_stale_cache_is_repaired staleCacheState copiedGroup
                  H1 H2 Hid H3)).
Defined.
